(** * Polybot: market store, arbitrage detector, paper execution engine and
    copy-trading sizing, embedded from the TypeScript sources.

    Numbers.  The JavaScript [number] has two embeddings here.  In the
    first it is an exact rational [Q]: rounding is not modelled, NaN and
    ±Infinity are not represented, [null] / [undefined] is [None], and
    [parseFloat], whose result the sources test with [isNaN] at once,
    returns [option Q] with [None] for NaN.  There [Qdiv] gives
    [x / 0 = 0] where JavaScript produces ±Infinity or NaN, so a statement
    over this embedding excludes a zero divisor by its hypotheses or
    carries the same quotient on both of its sides; the one quotient that
    the sources compare and print, in the SELL guard of
    [executeCopyTrade], is a [JS.quotient] with its infinities.  In the
    second embedding, the modules [Double] and [IEEE], a number is an
    IEEE 754 binary64 value.  The functions that decide on a rounded sum
    or divide by what may be 0 (detection, execution plans, the listing
    of the store, the copy sizing, the entry price of a BUY) are
    transcribed there a second time, and the statements about these
    decisions are made over that transcription.

    Time and identifiers.  [Date.now()] is the explicit argument [now];
    [uuidv4()] draws from a counter kept in the engine. *)

From Stdlib Require Import QArith Qminmax Qround Qabs Lqa ZArith Ascii String
  DecimalString Sorted Floats.SpecFloat.
From stdpp Require Import gmap strings list fin_maps.

Local Open Scope Z_scope.

(** ** JavaScript primitives used by the sources *)

Module JS.

(** [x] is truthy as a number: neither [0] nor NaN. *)
Definition truthy (x : Q) : bool := negb (Qeq_bool x 0).

(** [x || d] where [x : number | null | undefined] and [d : number]. *)
Definition orElse (x : option Q) (d : Q) : Q :=
  match x with
  | Some v => if truthy v then v else d
  | None => d
  end.

(** [x || y] where both sides may be [null]. *)
Definition orNull (x y : option Q) : option Q :=
  match x with
  | Some v => if truthy v then Some v else y
  | None => y
  end.

(** [a || b] on strings: the empty string is falsy. *)
Definition strOr (a b : string) : string :=
  match a with
  | EmptyString => b
  | _ => a
  end.

Definition strTruthy (a : string) : bool :=
  match a with
  | EmptyString => false
  | _ => true
  end.

(** [x < y], [x <= y] on numbers. *)
Definition ltb (x y : Q) : bool := negb (Qle_bool y x).
Definition leb (x y : Q) : bool := Qle_bool x y.

(** [Array.prototype.slice(-n)]: the last [n] elements. *)
Definition sliceLast {A} (n : nat) (l : list A) : list A :=
  drop (length l - n)%nat l.

(** *** [parseFloat] on decimal literals

    Leading white space is skipped, then the longest prefix of the form
    [sign? digits? (. digits?)? ((e|E) sign? digits)?] with at least one
    mantissa digit is read; anything after it is ignored.  No such
    prefix gives NaN ([None]).  The literal [Infinity] has no rational
    value and is not recognised. *)

Definition isWhiteSpace (c : ascii) : bool :=
  let n := nat_of_ascii c in
  ((9 <=? n) && (n <=? 13) || (n =? 32))%nat.

Fixpoint trimStart (s : string) : string :=
  match s with
  | String c r => if isWhiteSpace c then trimStart r else s
  | EmptyString => s
  end.

Definition digitOf (c : ascii) : option Z :=
  let n := Z.of_nat (nat_of_ascii c) in
  if (48 <=? n) && (n <=? 57) then Some (n - 48) else None.

(** Reads a run of decimal digits: accumulated value, number of digits
    read, rest of the input. *)
Fixpoint digits (acc : Z) (count : nat) (s : string) : Z * nat * string :=
  match s with
  | String c r =>
      match digitOf c with
      | Some d => digits (10 * acc + d) (S count) r
      | None => (acc, count, s)
      end
  | EmptyString => (acc, count, s)
  end.

Definition signOf (s : string) : bool * string :=
  match s with
  | String "-"%char r => (true, r)
  | String "+"%char r => (false, r)
  | _ => (false, s)
  end.

Definition exponentOf (s : string) : Z :=
  match s with
  | String c r =>
      if (Ascii.eqb c "e" || Ascii.eqb c "E")%char then
        let '(neg, r1) := signOf r in
        let '(e, ne, _) := digits 0 0 r1 in
        if (ne =? 0)%nat then 0 else if neg then - e else e
      else 0
  | EmptyString => 0
  end.

Definition parseFloat (input : string) : option Q :=
  let '(neg, s1) := signOf (trimStart input) in
  let '(ip, ni, s2) := digits 0 0 s1 in
  let '(mant, nf, s3) :=
    match s2 with
    | String "."%char r => digits ip 0 r
    | _ => (ip, 0%nat, s2)
    end in
  if (ni + nf =? 0)%nat then None
  else
    let m := if neg then - mant else mant in
    Some (Qred (inject_Z m * Qpower 10 (exponentOf s3 - Z.of_nat nf))).

(** [String.prototype.toLowerCase] on ASCII letters. *)
Definition lowerChar (c : ascii) : ascii :=
  let n := nat_of_ascii c in
  if ((65 <=? n) && (n <=? 90))%nat then ascii_of_nat (n + 32) else c.

Fixpoint toLowerCase (s : string) : string :=
  match s with
  | String c r => String (lowerChar c) (toLowerCase r)
  | EmptyString => EmptyString
  end.

(** [Number.prototype.toFixed(f)] for magnitudes below 1e21: the
    nearest multiple of [10^-f] (ties towards the larger one), printed
    with exactly [f] fraction digits. *)
Fixpoint padZeros (fuel width : nat) (s : string) : string :=
  match fuel with
  | O => s
  | S k =>
      if (String.length s <? width)%nat
      then padZeros k width (String "0" s) else s
  end.

Definition toFixed (f : nat) (x : Q) : string :=
  let negative := ltb x 0 in
  let a := if negative then Qopp x else x in
  let n := Qfloor (a * Qpower 10 (Z.of_nat f) + (1 # 2)) in
  let ds := padZeros (S f) (S f) (NilZero.string_of_uint (N.to_uint (Z.to_N n))) in
  let k := (String.length ds - f)%nat in
  let body :=
    match f with
    | O => ds
    | _ => String.substring 0 k ds +:+ "." +:+ String.substring k f ds
    end in
  if negative then "-" +:+ body else body.

(** [uuidv4()]: the [n]-th identifier drawn from the generator. *)
Definition uuidv4 (n : nat) : string :=
  "uuid-" +:+ NilZero.string_of_uint (Nat.to_uint n).

(** A call either returns or throws. *)
Inductive completion (A : Type) : Type :=
| Return (a : A)
| Throw (message : string).
Arguments Return {A} a.
Arguments Throw {A} message.

(** Sequencing of calls that may throw ([await f(); ...]). *)
Definition bind {A B} (c : completion A) (k : A -> completion B)
  : completion B :=
  match c with
  | Return a => k a
  | Throw message => Throw message
  end.

(** [Array.prototype.slice(start)] for an integer [start]: a negative
    [start] counts from the end, and both ends are clamped. *)
Definition slice {A} (start : Z) (l : list A) : list A :=
  let len := Z.of_nat (length l) in
  let from := if start <? 0 then Z.max (len + start) 0 else Z.min start len in
  drop (Z.to_nat from) l.

(** [Array.prototype.sort(compare)]: the sort is stable, so for a
    comparator that is a total preorder the result is the one of
    insertion from the right, an element going before the first element
    it does not compare greater than. *)
Fixpoint sortInsert {A} (compare : A -> A -> Q) (x : A) (l : list A) : list A :=
  match l with
  | [] => [x]
  | y :: rest =>
      if Qle_bool (compare x y) 0 then x :: y :: rest
      else y :: sortInsert compare x rest
  end.

Fixpoint sort {A} (compare : A -> A -> Q) (l : list A) : list A :=
  match l with
  | [] => []
  | x :: rest => sortInsert compare x (sort compare rest)
  end.

(** The quotient [x / y] where the divisor may be 0: JavaScript then
    gives [Infinity], [-Infinity] or, for [0 / 0], [NaN]. *)
Inductive quotient : Type :=
| Finite (q : Q)
| PlusInfinity
| MinusInfinity
| NotANumber.

Definition divide (x y : Q) : quotient :=
  if Qeq_bool y 0
  then if ltb 0 x then PlusInfinity
       else if ltb x 0 then MinusInfinity else NotANumber
  else Finite (x / y).

(** [x < y] for a quotient [y]: false for [NaN]. *)
Definition ltbQuotient (x : Q) (y : quotient) : bool :=
  match y with
  | Finite q => ltb x q
  | PlusInfinity => true
  | MinusInfinity | NotANumber => false
  end.

Definition toFixedQuotient (digits : nat) (y : quotient) : string :=
  match y with
  | Finite q => toFixed digits q
  | PlusInfinity => "Infinity"
  | MinusInfinity => "-Infinity"
  | NotANumber => "NaN"
  end.

End JS.

(** ['YES' | 'NO'], used both as order-book outcome and as trade side. *)
Inductive Side : Type := YES | NO.

#[global] Instance Side_eq_dec : EqDecision Side.
Proof. solve_decision. Defined.

(** ** market/types.ts and market/marketStore.ts *)

Module OrderBookLevel.
Record t := mk { price : string; size : string }.
End OrderBookLevel.

Module OutcomePrices.
Record t := mk { bid : option Q; ask : option Q; lastUpdate : Z }.
End OutcomePrices.

Module MarketData.
Record t := mk {
  marketId : string;
  conditionId : string;
  yesPrices : OutcomePrices.t;
  noPrices : OutcomePrices.t;
  lastUpdate : Z;
  isStale : bool
}.
End MarketData.

Module OrderBookUpdate.
Record t := mk {
  marketId : string;
  conditionId : string;
  assetId : string;
  outcome : Side;
  bids : list OrderBookLevel.t;
  asks : list OrderBookLevel.t;
  timestamp : Z
}.
End OrderBookUpdate.

Module MarketStore.

Record t := mk {
  markets : gmap string MarketData.t;
  staleThresholdMs : Z
}.

Definition isStale (now : Z) (s : t) (lastUpdate : Z) : bool :=
  staleThresholdMs s <? now - lastUpdate.

Definition createEmptyPrices : OutcomePrices.t :=
  OutcomePrices.mk None None 0.

Definition extractBestBid (bids : list OrderBookLevel.t) : option Q :=
  match bids with
  | [] => None
  | bestBid :: _ =>
      match JS.parseFloat (OrderBookLevel.price bestBid) with
      | None => None
      | Some price => Some price
      end
  end.

Definition extractBestAsk (asks : list OrderBookLevel.t) : option Q :=
  match asks with
  | [] => None
  | bestAsk :: _ =>
      match JS.parseFloat (OrderBookLevel.price bestAsk) with
      | None => None
      | Some price => Some price
      end
  end.

(** Returns the new store and whether the update callbacks were
    triggered. *)
Definition updateOrderBook (now : Z) (s : t) (update : OrderBookUpdate.t)
  : t * bool :=
  let marketId := OrderBookUpdate.marketId update in
  let conditionId := OrderBookUpdate.conditionId update in
  let assetId := OrderBookUpdate.assetId update in
  let timestamp := OrderBookUpdate.timestamp update in
  let key := JS.strOr marketId (JS.strOr conditionId assetId) in
  let marketData :=
    match markets s !! key with
    | Some md => md
    | None =>
        MarketData.mk (JS.strOr marketId assetId) (JS.strOr conditionId assetId)
          createEmptyPrices createEmptyPrices timestamp false
    end in
  let bestBid := extractBestBid (OrderBookUpdate.bids update) in
  let bestAsk := extractBestAsk (OrderBookUpdate.asks update) in
  let prices := OutcomePrices.mk bestBid bestAsk timestamp in
  let yes' :=
    match OrderBookUpdate.outcome update with
    | YES => prices
    | NO => MarketData.yesPrices marketData
    end in
  let no' :=
    match OrderBookUpdate.outcome update with
    | YES => MarketData.noPrices marketData
    | NO => prices
    end in
  let lastUpdate := Z.max (MarketData.lastUpdate marketData) timestamp in
  let marketData' :=
    MarketData.mk (MarketData.marketId marketData)
      (MarketData.conditionId marketData) yes' no' lastUpdate
      (isStale now s lastUpdate) in
  (mk (<[key := marketData']> (markets s)) (staleThresholdMs s),
   match OutcomePrices.ask yes', OutcomePrices.ask no' with
   | Some _, Some _ => true
   | _, _ => false
   end).

(** [getMarket] refreshes the cached [isStale] flag of the market it
    returns; the refreshed store is the second component. *)
Definition getMarket (now : Z) (s : t) (marketId : string)
  : option MarketData.t * t :=
  match markets s !! marketId with
  | Some market =>
      let market' :=
        MarketData.mk (MarketData.marketId market)
          (MarketData.conditionId market) (MarketData.yesPrices market)
          (MarketData.noPrices market) (MarketData.lastUpdate market)
          (isStale now s (MarketData.lastUpdate market)) in
      (Some market',
       mk (<[marketId := market']> (markets s)) (staleThresholdMs s))
  | None => (None, s)
  end.

(** The store after a sequence of [updateOrderBook] calls, each with
    its own clock reading. *)
Fixpoint updateAll (s : t) (calls : list (Z * OrderBookUpdate.t)) : t :=
  match calls with
  | [] => s
  | (now, update) :: rest => updateAll (updateOrderBook now s update).1 rest
  end.

(** The store's markets with their [isStale] flag recomputed.  The
    markets are enumerated in the order of [map_to_list], not in the
    insertion order of the JavaScript [Map]. *)
Definition refresh (now : Z) (s : t) (market : MarketData.t) : MarketData.t :=
  MarketData.mk (MarketData.marketId market) (MarketData.conditionId market)
    (MarketData.yesPrices market) (MarketData.noPrices market)
    (MarketData.lastUpdate market)
    (isStale now s (MarketData.lastUpdate market)).

Definition getAllMarkets (now : Z) (s : t) : list MarketData.t * t :=
  ((fun entry => refresh now s entry.2) <$> map_to_list (markets s),
   mk (refresh now s <$> markets s) (staleThresholdMs s)).

Definition getArbitrageOpportunities (now : Z) (s : t) (feeBuffer : Q)
  : list MarketData.t :=
  List.filter
    (fun market =>
       match OutcomePrices.ask (MarketData.yesPrices market),
             OutcomePrices.ask (MarketData.noPrices market) with
       | Some yesAsk, Some noAsk =>
           let totalCost := (yesAsk + noAsk)%Q in
           JS.ltb totalCost (1 - feeBuffer)%Q && negb (MarketData.isStale market)
       | _, _ => false
       end)
    (getAllMarkets now s).1.

(** [Map.prototype.delete] tells whether the key was present. *)
Definition removeMarket (s : t) (marketId : string) : bool * t :=
  (bool_decide (is_Some (markets s !! marketId)),
   mk (delete marketId (markets s)) (staleThresholdMs s)).

Definition clear (s : t) : t := mk ∅ (staleThresholdMs s).

Definition getMarketCount (s : t) : nat := size (markets s).

Definition setStaleThreshold (s : t) (thresholdMs : Z) : t :=
  mk (markets s) thresholdMs.

End MarketStore.

(** ** arbitrage/types.ts and arbitrage/arbitrageDetector.ts *)

Module ArbitrageOpportunity.
Record t := mk {
  marketId : string;
  conditionId : string;
  yesAsk : Q;
  noAsk : Q;
  totalCost : Q;
  profitMargin : Q;
  profitAfterFees : Q;
  marketData : MarketData.t;
  timestamp : Z
}.
End ArbitrageOpportunity.

Module ArbitrageConfig.
Record t := mk {
  minProfitThreshold : Q;
  feeBuffer : Q;
  safetyMargin : Q;
  maxPositionSize : Q;
  scanInterval : Z;
  enabled : bool
}.
End ArbitrageConfig.

Module ExecutionPlan.
Record t := mk {
  marketId : string;
  conditionId : string;
  yesSize : Q;
  noSize : Q;
  yesPrice : Q;
  noPrice : Q;
  totalCost : Q;
  expectedProfit : Q;
  timestamp : Z
}.
End ExecutionPlan.

Module ArbitrageDetector.
Import ArbitrageConfig.
Local Open Scope Q_scope.

Definition detectArbitrage (now : Z) (config : ArbitrageConfig.t)
    (market : MarketData.t) : option ArbitrageOpportunity.t :=
  match OutcomePrices.ask (MarketData.yesPrices market),
        OutcomePrices.ask (MarketData.noPrices market) with
  | Some yesAsk, Some noAsk =>
      if JS.leb yesAsk 0 || JS.leb noAsk 0 then None
      else
        let totalCost := yesAsk + noAsk in
        let requiredTotal := 1 - feeBuffer config - safetyMargin config in
        if JS.leb requiredTotal totalCost then None
        else
          let profitMargin := 1 - totalCost in
          let profitAfterFees := profitMargin - feeBuffer config in
          if JS.ltb profitAfterFees (minProfitThreshold config) then None
          else
            Some (ArbitrageOpportunity.mk (MarketData.marketId market)
                    (MarketData.conditionId market) yesAsk noAsk totalCost
                    profitMargin profitAfterFees market now)
  | _, _ => None
  end.

Definition createExecutionPlan (now : Z) (config : ArbitrageConfig.t)
    (store : MarketStore.t) (opportunity : ArbitrageOpportunity.t)
  : option ExecutionPlan.t * MarketStore.t :=
  let totalSize :=
    Qmin (maxPositionSize config)
      (maxPositionSize config
         * ArbitrageOpportunity.profitAfterFees opportunity
         / minProfitThreshold config) in
  let yesSize := totalSize / 2 in
  let noSize := totalSize / 2 in
  let '(currentMarket, store') :=
    MarketStore.getMarket now store
      (ArbitrageOpportunity.marketId opportunity) in
  match currentMarket with
  | None => (None, store')
  | Some currentMarket =>
      match OutcomePrices.ask (MarketData.yesPrices currentMarket),
            OutcomePrices.ask (MarketData.noPrices currentMarket) with
      | Some currentYesAsk, Some currentNoAsk =>
          let currentTotalCost := currentYesAsk + currentNoAsk in
          let currentProfitAfterFees :=
            1 - currentTotalCost - feeBuffer config - safetyMargin config in
          if JS.ltb currentProfitAfterFees (minProfitThreshold config)
          then (None, store')
          else
            (Some (ExecutionPlan.mk
                     (ArbitrageOpportunity.marketId opportunity)
                     (ArbitrageOpportunity.conditionId opportunity)
                     yesSize noSize currentYesAsk currentNoAsk
                     (yesSize + noSize)
                     ((yesSize + noSize) * currentProfitAfterFees) now),
             store')
      | _, _ => (None, store')
      end
  end.

(** The detector object: its configuration and the markets already
    entered. *)
Record detector := mkDetector {
  config : ArbitrageConfig.t;
  trackedMarkets : gset string
}.

Definition scanOpportunities (now : Z) (d : detector) (store : MarketStore.t)
  : list ArbitrageOpportunity.t :=
  let markets := (MarketStore.getAllMarkets now store).1 in
  let opportunities :=
    omap
      (fun market =>
         if MarketData.isStale market then None
         else if bool_decide (MarketData.marketId market ∈ trackedMarkets d)
              then None
              else detectArbitrage now (config d) market)
      markets in
  JS.sort
    (fun a b =>
       ArbitrageOpportunity.profitAfterFees b
       - ArbitrageOpportunity.profitAfterFees a)
    opportunities.

Definition markMarketTracked (d : detector) (marketId : string) : detector :=
  mkDetector (config d) ({[marketId]} ∪ trackedMarkets d).

Definition unmarkMarket (d : detector) (marketId : string) : detector :=
  mkDetector (config d) (trackedMarkets d ∖ {[marketId]}).

Definition isMarketTracked (d : detector) (marketId : string) : bool :=
  bool_decide (marketId ∈ trackedMarkets d).

Definition setEnabled (d : detector) (enabled : bool) : detector :=
  mkDetector
    (ArbitrageConfig.mk (minProfitThreshold (config d)) (feeBuffer (config d))
       (safetyMargin (config d)) (maxPositionSize (config d))
       (scanInterval (config d)) enabled)
    (trackedMarkets d).

Definition isEnabled (d : detector) : bool := ArbitrageConfig.enabled (config d).

End ArbitrageDetector.

(** ** trading/types.ts *)

Inductive TradeAction : Type := BUY | SELL.
Inductive ExecutionMode : Type := paper | real.
Inductive OrderStatus : Type := pending | filled | partial | rejected | cancelled.

Module TradeOrder.
Record t := mk {
  orderId : string;
  marketId : string;
  conditionId : string;
  side : Side;
  action : TradeAction;
  size : Q;
  price : option Q;
  mode : ExecutionMode;
  timestamp : Z
}.
End TradeOrder.

Module Fill.
Record t := mk {
  fillId : string;
  orderId : string;
  price : Q;
  size : Q;
  timestamp : Z
}.
End Fill.

Module FillResult.
Record t := mk {
  orderId : string;
  fills : list Fill.t;
  status : OrderStatus;
  totalFilled : Q;
  averagePrice : Q;
  timestamp : Z
}.
End FillResult.

Module Position.
Record t := mk {
  positionId : string;
  marketId : string;
  conditionId : string;
  yesTokens : Q;
  noTokens : Q;
  yesEntryPrice : Q;
  noEntryPrice : Q;
  yesCurrentPrice : option Q;
  noCurrentPrice : option Q;
  entryTimestamp : Z;
  lastUpdate : Z;
  unrealizedPnL : Q;
  totalEntryCost : Q
}.

(** The token balance and the entry price of one outcome. *)
Definition tokens (side : Side) (p : t) : Q :=
  match side with YES => yesTokens p | NO => noTokens p end.
Definition entryPrice (side : Side) (p : t) : Q :=
  match side with YES => yesEntryPrice p | NO => noEntryPrice p end.
End Position.

Module TradeRecord.
Record t := mk {
  tradeId : string;
  orderId : string;
  marketId : string;
  conditionId : string;
  side : Side;
  action : TradeAction;
  size : Q;
  price : Q;
  status : OrderStatus;
  timestamp : Z;
  mode : ExecutionMode
}.
End TradeRecord.

(** ** trading/paperExecutionEngine.ts

    The engine keeps a reference to the market store and only reads it,
    through [MarketStore.getMarket]; the store is therefore an argument,
    and the refresh of the cached [isStale] flag done by [getMarket] is not
    threaded back (the flag is recomputed by every read).  [positions]
    holds the Position objects themselves: an update of a position's
    fields is an update of the map entry. *)

Module PaperExecutionEngine.
Local Open Scope Q_scope.

Record t := mk {
  positions : gmap string Position.t;
  tradeHistory : list TradeRecord.t;
  startingCapital : Q;
  currentBalance : Q;
  realizedPnL : Q;
  uuidCount : nat
}.

Definition constructor (capital : Q) : t := mk ∅ [] capital capital 0 0.

Definition rejectedResult (now : Z) (order : TradeOrder.t) : FillResult.t :=
  FillResult.mk (TradeOrder.orderId order) [] rejected 0 0 now.

Definition pricesOf (side : Side) (market : MarketData.t) : OutcomePrices.t :=
  match side with
  | YES => MarketData.yesPrices market
  | NO => MarketData.noPrices market
  end.

Definition updatePositionPnL (now : Z) (store : MarketStore.t)
    (position : Position.t) : Position.t :=
  let with_ ycp ncp pnl :=
    Position.mk (Position.positionId position) (Position.marketId position)
      (Position.conditionId position) (Position.yesTokens position)
      (Position.noTokens position) (Position.yesEntryPrice position)
      (Position.noEntryPrice position) ycp ncp
      (Position.entryTimestamp position) (Position.lastUpdate position)
      pnl (Position.totalEntryCost position) in
  match (MarketStore.getMarket now store (Position.marketId position)).1 with
  | None => with_ None None 0
  | Some market =>
      let yesCurrentPrice :=
        JS.orNull
          (JS.orNull (OutcomePrices.ask (MarketData.yesPrices market))
             (OutcomePrices.bid (MarketData.yesPrices market))) None in
      let noCurrentPrice :=
        JS.orNull
          (JS.orNull (OutcomePrices.ask (MarketData.noPrices market))
             (OutcomePrices.bid (MarketData.noPrices market))) None in
      let yesValue := Position.yesTokens position * JS.orElse yesCurrentPrice 0 in
      let noValue := Position.noTokens position * JS.orElse noCurrentPrice 0 in
      let currentValue := yesValue + noValue in
      with_ yesCurrentPrice noCurrentPrice
        (currentValue - Position.totalEntryCost position)
  end.

Definition updatePosition (now : Z) (store : MarketStore.t) (e : t)
    (order : TradeOrder.t) (price tokens : Q) : t :=
  let '(position, uuidCount') :=
    match positions e !! TradeOrder.marketId order with
    | Some position => (position, uuidCount e)
    | None =>
        (Position.mk (JS.uuidv4 (uuidCount e)) (TradeOrder.marketId order)
           (TradeOrder.conditionId order) 0 0 0 0 None None now now 0 0,
         S (uuidCount e))
    end in
  let '(yesTokens, yesEntryPrice, noTokens, noEntryPrice) :=
    match TradeOrder.side order, TradeOrder.action order with
    | YES, BUY =>
        let totalCost :=
          Position.yesTokens position * Position.yesEntryPrice position
          + TradeOrder.size order in
        let yesTokens := Position.yesTokens position + tokens in
        (yesTokens, totalCost / yesTokens,
         Position.noTokens position, Position.noEntryPrice position)
    | YES, SELL =>
        let yesTokens := Position.yesTokens position - tokens in
        if JS.leb yesTokens 0
        then (0, 0, Position.noTokens position, Position.noEntryPrice position)
        else (yesTokens, Position.yesEntryPrice position,
              Position.noTokens position, Position.noEntryPrice position)
    | NO, BUY =>
        let totalCost :=
          Position.noTokens position * Position.noEntryPrice position
          + TradeOrder.size order in
        let noTokens := Position.noTokens position + tokens in
        (Position.yesTokens position, Position.yesEntryPrice position,
         noTokens, totalCost / noTokens)
    | NO, SELL =>
        let noTokens := Position.noTokens position - tokens in
        if JS.leb noTokens 0
        then (Position.yesTokens position, Position.yesEntryPrice position, 0, 0)
        else (Position.yesTokens position, Position.yesEntryPrice position,
              noTokens, Position.noEntryPrice position)
    end in
  let totalEntryCost := yesTokens * yesEntryPrice + noTokens * noEntryPrice in
  let position' :=
    Position.mk (Position.positionId position) (Position.marketId position)
      (Position.conditionId position) yesTokens noTokens yesEntryPrice
      noEntryPrice (Position.yesCurrentPrice position)
      (Position.noCurrentPrice position) (Position.entryTimestamp position)
      now (Position.unrealizedPnL position) totalEntryCost in
  mk (<[TradeOrder.marketId order := updatePositionPnL now store position']>
        (positions e))
    (tradeHistory e) (startingCapital e) (currentBalance e) (realizedPnL e)
    uuidCount'.

(** [this.tradeHistory.push(trade)] followed by the cap at 1000. *)
Definition pushTrade (trade : TradeRecord.t) (history : list TradeRecord.t)
  : list TradeRecord.t :=
  let history' := history ++ [trade] in
  if (1000 <? length history')%nat then JS.sliceLast 1000 history'
  else history'.

(** The second half of [executeTrade], reached once the fill price is
    resolved and the order is accepted: create the fill, update the
    balance, update the position, record the trade. *)
Definition settle (now : Z) (store : MarketStore.t) (e : t)
    (order : TradeOrder.t) (fillPrice : Q) : FillResult.t * t :=
  let tokens := TradeOrder.size order / fillPrice in
  let totalCost := TradeOrder.size order in
  let fill :=
    Fill.mk (JS.uuidv4 (uuidCount e)) (TradeOrder.orderId order) fillPrice
      (TradeOrder.size order) now in
  let balance :=
    match TradeOrder.action order with
    | BUY => currentBalance e - totalCost
    | SELL => currentBalance e + totalCost
    end in
  let e1 :=
    mk (positions e) (tradeHistory e) (startingCapital e) balance
      (realizedPnL e) (S (uuidCount e)) in
  let e2 := updatePosition now store e1 order fillPrice tokens in
  let trade :=
    TradeRecord.mk (JS.uuidv4 (uuidCount e2)) (TradeOrder.orderId order)
      (TradeOrder.marketId order) (TradeOrder.conditionId order)
      (TradeOrder.side order) (TradeOrder.action order)
      (TradeOrder.size order) fillPrice filled now paper in
  let e3 :=
    mk (positions e2) (pushTrade trade (tradeHistory e2)) (startingCapital e2)
      (currentBalance e2) (realizedPnL e2) (S (uuidCount e2)) in
  (FillResult.mk (TradeOrder.orderId order) [fill] filled
     (TradeOrder.size order) fillPrice now,
   e3).

Definition executeTrade (now : Z) (store : MarketStore.t) (e : t)
    (order : TradeOrder.t) : JS.completion (FillResult.t * t) :=
  match TradeOrder.mode order with
  | real => JS.Throw "Paper execution engine only handles paper trades"
  | paper =>
      (* market order: the price comes from the store; [None] is the
         early return taken when the store has no data for the market *)
      let marketPrice : option Q :=
        match (MarketStore.getMarket now store (TradeOrder.marketId order)).1 with
        | None => None
        | Some market =>
            let prices := pricesOf (TradeOrder.side order) market in
            match TradeOrder.action order with
            | BUY => Some (JS.orElse (OutcomePrices.ask prices) 0)
            | SELL => Some (JS.orElse (OutcomePrices.bid prices) 0)
            end
        end in
      let fillPrice : option Q :=
        match TradeOrder.price order with
        | Some price => if JS.truthy price then Some price else marketPrice
        | None => marketPrice
        end in
      match fillPrice with
      | None => JS.Return (rejectedResult now order, e)
      | Some fillPrice =>
          if Qeq_bool fillPrice 0 || JS.leb fillPrice 0 || JS.ltb 1 fillPrice
          then JS.Return (rejectedResult now order, e)
          else
            let totalCost := TradeOrder.size order in
            if match TradeOrder.action order with
               | BUY => JS.ltb (currentBalance e) totalCost
               | SELL => false
               end
            then JS.Return (rejectedResult now order, e)
            else JS.Return (settle now store e order fillPrice)
      end
  end.

Definition getPosition (now : Z) (store : MarketStore.t) (e : t)
    (marketId : string) : option Position.t * t :=
  match positions e !! marketId with
  | Some position =>
      let position' := updatePositionPnL now store position in
      (Some position',
       mk (<[marketId := position']> (positions e)) (tradeHistory e)
         (startingCapital e) (currentBalance e) (realizedPnL e) (uuidCount e))
  | None => (None, e)
  end.

(** The Position object [position] obtained from the map before a call,
    as it reads after the call: the engine updates the object in
    place. *)
Definition reread (e : t) (marketId : string) (position : Position.t)
  : Position.t :=
  default position (positions e !! marketId).

(** One leg of [closePosition]; the YES block and the NO block of the
    source differ only in the side. *)
Definition closeLeg (side : Side) (now : Z) (store : MarketStore.t) (e : t)
    (marketId : string) (position : Position.t)
  : JS.completion (list FillResult.t * t) :=
  let market := (MarketStore.getMarket now store marketId).1 in
  let fillPrice :=
    JS.orElse
      (match market with
       | Some m => OutcomePrices.bid (pricesOf side m)
       | None => None
       end)
      (Position.entryPrice side position) in
  let order :=
    TradeOrder.mk (JS.uuidv4 (uuidCount e)) marketId
      (Position.conditionId position) side SELL
      (Position.tokens side position * fillPrice) None paper now in
  let e0 :=
    mk (positions e) (tradeHistory e) (startingCapital e) (currentBalance e)
      (realizedPnL e) (S (uuidCount e)) in
  JS.bind (executeTrade now store e0 order) (fun '(result, e1) =>
    let position' := reread e1 marketId position in
    let realized :=
      Position.tokens side position'
      * (fillPrice - Position.entryPrice side position') in
    JS.Return
      ([result],
       mk (positions e1) (tradeHistory e1) (startingCapital e1)
         (currentBalance e1) (realizedPnL e1 + realized) (uuidCount e1))).

Definition closePosition (now : Z) (store : MarketStore.t) (e : t)
    (marketId : string) : JS.completion (list FillResult.t * t) :=
  match positions e !! marketId with
  | None => JS.Return ([], e)
  | Some position =>
      JS.bind
        (if JS.ltb 0 (Position.yesTokens position)
         then closeLeg YES now store e marketId position
         else JS.Return ([], e))
        (fun '(results1, e1) =>
      let position1 := reread e1 marketId position in
      JS.bind
        (if JS.ltb 0 (Position.noTokens position1)
         then closeLeg NO now store e1 marketId position1
         else JS.Return ([], e1))
        (fun '(results2, e2) =>
      JS.Return
        (results1 ++ results2,
         mk (delete marketId (positions e2)) (tradeHistory e2)
           (startingCapital e2) (currentBalance e2) (realizedPnL e2)
           (uuidCount e2))))
  end.

Definition redeemPosition (now : Z) (e : t) (marketId : string)
    (winningOutcome : nat) : t :=
  match positions e !! marketId with
  | None => e
  | Some position =>
      let yesTokens := JS.orElse (Some (Position.yesTokens position)) 0 in
      let noTokens := JS.orElse (Some (Position.noTokens position)) 0 in
      let settlementPrice := 1 in
      let '(settlementProceeds, realized) :=
        if (winningOutcome =? 0)%nat
        then
          (yesTokens * settlementPrice,
           yesTokens * (settlementPrice - Position.yesEntryPrice position)
           + noTokens * (0 - Position.noEntryPrice position))
        else
          (noTokens * settlementPrice,
           noTokens * (settlementPrice - Position.noEntryPrice position)
           + yesTokens * (0 - Position.yesEntryPrice position)) in
      let redemptionRecord :=
        TradeRecord.mk (JS.uuidv4 (uuidCount e)) (JS.uuidv4 (S (uuidCount e)))
          marketId (Position.conditionId position)
          (if (winningOutcome =? 0)%nat then YES else NO) SELL
          settlementProceeds settlementPrice filled now paper in
      mk (delete marketId (positions e))
        (pushTrade redemptionRecord (tradeHistory e)) (startingCapital e)
        (currentBalance e + settlementProceeds) (realizedPnL e + realized)
        (S (S (uuidCount e)))
  end.

(** [getPositions] refreshes every position, then lists them (in the
    order of [map_to_list]). *)
Definition getPositions (now : Z) (store : MarketStore.t) (e : t)
  : list Position.t * t :=
  let positions' := updatePositionPnL now store <$> positions e in
  ((map_to_list positions').*2,
   mk positions' (tradeHistory e) (startingCapital e) (currentBalance e)
     (realizedPnL e) (uuidCount e)).

Definition getBalance (e : t) : Q := currentBalance e.

(** [this.tradeHistory.slice(-limit).reverse()] *)
Definition getTradeHistory (e : t) (limit : Z) : list TradeRecord.t :=
  reverse (JS.slice (- limit) (tradeHistory e)).

(** [closeAllPositions] closes the markets listed when it starts, one
    after the other. *)
Fixpoint closeEach (now : Z) (store : MarketStore.t) (e : t)
    (marketIds : list string) : JS.completion (list FillResult.t * t) :=
  match marketIds with
  | [] => JS.Return ([], e)
  | marketId :: rest =>
      JS.bind (closePosition now store e marketId) (fun '(results, e1) =>
      JS.bind (closeEach now store e1 rest) (fun '(allResults, e2) =>
      JS.Return (results ++ allResults, e2)))
  end.

Definition closeAllPositions (now : Z) (store : MarketStore.t) (e : t)
  : JS.completion (list FillResult.t * t) :=
  closeEach now store e (map_to_list (positions e)).*1.

(** A call of the engine's interface, and the engine after a sequence of
    calls, each made at its own time against the store as it is then.
    [executeTrade] throws before it changes anything. *)
Inductive call : Type :=
| ExecuteTrade (order : TradeOrder.t)
| GetPosition (marketId : string)
| GetPositions
| ClosePosition (marketId : string)
| CloseAllPositions
| RedeemPosition (marketId : string) (winningOutcome : nat).

Definition perform (now : Z) (store : MarketStore.t) (e : t) (c : call) : t :=
  match c with
  | ExecuteTrade order =>
      match executeTrade now store e order with
      | JS.Return (_, e') => e'
      | JS.Throw _ => e
      end
  | GetPosition marketId => (getPosition now store e marketId).2
  | GetPositions => (getPositions now store e).2
  | ClosePosition marketId =>
      match closePosition now store e marketId with
      | JS.Return (_, e') => e'
      | JS.Throw _ => e
      end
  | CloseAllPositions =>
      match closeAllPositions now store e with
      | JS.Return (_, e') => e'
      | JS.Throw _ => e
      end
  | RedeemPosition marketId winningOutcome =>
      redeemPosition now e marketId winningOutcome
  end.

Fixpoint performAll (e : t) (calls : list (Z * MarketStore.t * call)) : t :=
  match calls with
  | [] => e
  | (now, store, c) :: rest => performAll (perform now store e c) rest
  end.

End PaperExecutionEngine.

(** ** copytrading/types.ts and copytrading/copyTradingService.ts *)

Inductive ActivityType : Type :=
  TRADE | SPLIT | MERGE | REDEEM | REWARD | CONVERSION.

(** Presentation-only fields of an activity (title, slug, icon, profile
    data) are left out. *)
Module PolymarketTrade.
Record t := mk {
  proxyWallet : string;
  side : TradeAction;
  asset : string;
  conditionId : string;
  size : Q;
  price : Q;
  timestamp : Z;
  outcome : option string;
  transactionHash : string;
  type : option ActivityType
}.
End PolymarketTrade.

Module TrackedUser.
Record t := mk { address : string; name : option string }.
End TrackedUser.

Module DetectedTrade.
Record t := mk {
  trade : PolymarketTrade.t;
  trackedUser : TrackedUser.t;
  detectedAt : Z;
  executed : bool;
  executedAt : option Z;
  executionError : option string
}.
End DetectedTrade.

Module CopyTradingConfig.
Record t := mk {
  pollIntervalMs : Z;
  enabled : bool;
  trackedUsers : list TrackedUser.t;
  minTradeSize : option Q;
  maxTradeSize : option Q;
  recentTradesWindow : option Q;
  minVolumeForScaling : option Q
}.
End CopyTradingConfig.

(** A JavaScript [Map<string, V>]: entries in insertion order; [set] on a
    key already present replaces the value where it stands. *)
Module JSMap.

Definition t (V : Type) : Type := list (string * V).

Fixpoint set {V} (key : string) (value : V) (m : t V) : t V :=
  match m with
  | [] => [(key, value)]
  | (k, v) :: rest =>
      if String.eqb k key then (key, value) :: rest
      else (k, v) :: set key value rest
  end.

Fixpoint delete {V} (key : string) (m : t V) : t V :=
  match m with
  | [] => []
  | (k, v) :: rest =>
      if String.eqb k key then rest else (k, v) :: delete key rest
  end.


Definition size {V} (m : t V) : nat := length m.

Definition keys {V} (m : t V) : list string := map fst m.

(** [m.keys().next().value] *)
Definition firstKey {V} (m : t V) : option string := head (keys m).

End JSMap.

Module CopyTradingService.
Import CopyTradingConfig.
Local Open Scope Q_scope.

(** The constructor's configuration. *)
Definition defaultConfig (users : list TrackedUser.t) : CopyTradingConfig.t :=
  CopyTradingConfig.mk 5000 false users (Some 10) (Some 1000) (Some 15)
    (Some 1000).

(** [activity.type === 'TRADE' || !activity.type] *)
Definition isTrade (activity : PolymarketTrade.t) : bool :=
  match PolymarketTrade.type activity with
  | Some TRADE | None => true
  | Some _ => false
  end.

(** [this.config.recentTradesWindow || 10] *)
Definition windowSize (config : CopyTradingConfig.t) : Q :=
  JS.orElse (recentTradesWindow config) 10.

(** Body of the history loop of [fetchUserTrades] for one activity. *)
Definition recordActivity (windowSize : Q) (tradeHistory : JSMap.t Q)
    (activity : PolymarketTrade.t) : JSMap.t Q :=
  if isTrade activity then
    let tradeHistory :=
      JSMap.set (PolymarketTrade.transactionHash activity)
        (PolymarketTrade.size activity) tradeHistory in
    if JS.ltb windowSize (inject_Z (Z.of_nat (JSMap.size tradeHistory)))
    then
      match JSMap.firstKey tradeHistory with
      | Some firstHash =>
          if JS.strTruthy firstHash
          then JSMap.delete firstHash tradeHistory
          else tradeHistory
      | None => tradeHistory
      end
    else tradeHistory
  else tradeHistory.

(** The history loop of [fetchUserTrades] over the fetched activities. *)
Definition recordActivities (windowSize : Q) (tradeHistory : JSMap.t Q)
    (activities : list PolymarketTrade.t) : JSMap.t Q :=
  fold_left (recordActivity windowSize) activities tradeHistory.

(** The part of [fetchUserTrades] that maintains [userTradeHistory]:
    get or create the user's window, then run the history loop. *)
Definition updateUserTradeHistory (config : CopyTradingConfig.t)
    (userTradeHistory : gmap string (JSMap.t Q)) (user : TrackedUser.t)
    (activities : list PolymarketTrade.t) : gmap string (JSMap.t Q) :=
  let userAddress := JS.toLowerCase (TrackedUser.address user) in
  let tradeHistory := default [] (userTradeHistory !! userAddress) in
  <[userAddress := recordActivities (windowSize config) tradeHistory activities]>
    userTradeHistory.

(** The loop [for (const [hash, size] of tradeHistory.entries())
    if (hash !== tradeHash) recentVolume += size]. *)
Definition recentVolume (tradeHash : string) (tradeHistory : JSMap.t Q) : Q :=
  fold_left
    (fun volume '(hash, size) =>
       if String.eqb hash tradeHash then volume else volume + size)
    tradeHistory 0.

Definition calculateProportionalSize (config : CopyTradingConfig.t)
    (userTradeHistory : gmap string (JSMap.t Q))
    (tradeSize : Q) (tradeHash : string) (userAddress : string) : Q :=
  let tradeHistory := userTradeHistory !! JS.toLowerCase userAddress in
  let minVolumeForScaling := JS.orElse (minVolumeForScaling config) 1000 in
  let maxTradeSize := JS.orElse (maxTradeSize config) 1000 in
  match tradeHistory with
  | None => Qmax (JS.orElse (minTradeSize config) 10) (maxTradeSize * (1 # 10))
  | Some tradeHistory =>
      if (JSMap.size tradeHistory <? 2)%nat
      then Qmax (JS.orElse (minTradeSize config) 10) (maxTradeSize * (1 # 10))
      else
        let recentVolume := recentVolume tradeHash tradeHistory in
        if JS.ltb recentVolume minVolumeForScaling
        then Qmax (JS.orElse (minTradeSize config) 10) (maxTradeSize * (5 # 100))
        else
          let tradePercentageOfRecentVolume := tradeSize / recentVolume * 100 in
          let proportionalSize :=
            maxTradeSize * tradePercentageOfRecentVolume / 100 in
          let finalSize :=
            Qmax (JS.orElse (minTradeSize config) 10) proportionalSize in
          Qmin finalSize maxTradeSize
  end.

Definition executeCopyTrade (now : Z) (store : MarketStore.t)
    (engine : PaperExecutionEngine.t) (detectedTrade : DetectedTrade.t)
    (copySize : Q) : DetectedTrade.t * PaperExecutionEngine.t :=
  let trade := DetectedTrade.trade detectedTrade in
  let withError message :=
    DetectedTrade.mk trade (DetectedTrade.trackedUser detectedTrade)
      (DetectedTrade.detectedAt detectedTrade)
      (DetectedTrade.executed detectedTrade)
      (DetectedTrade.executedAt detectedTrade) (Some message) in
  let side : Side :=
    match PolymarketTrade.outcome trade with
    | Some "Yes"%string | Some "YES"%string => YES
    | _ => NO
    end in
  let action := PolymarketTrade.side trade in
  (* [Some message]: the SELL guard returned early with this error *)
  let '(guard, engine) :=
    match action with
    | BUY => (None, engine)
    | SELL =>
        match PaperExecutionEngine.getPosition now store engine
                (PolymarketTrade.conditionId trade) with
        | (None, engine) => (Some "No position exists to sell"%string, engine)
        | (Some existingPosition, engine) =>
            let tokensToSell :=
              JS.divide copySize (PolymarketTrade.price trade) in
            let availableTokens := Position.tokens side existingPosition in
            if JS.ltbQuotient availableTokens tokensToSell
            then
              (Some ("Insufficient tokens to sell (have: "
                     +:+ JS.toFixed 4 availableTokens +:+ ", need: "
                     +:+ JS.toFixedQuotient 4 tokensToSell +:+ ")")%string,
               engine)
            else (None, engine)
        end
    end in
  match guard with
  | Some message => (withError message, engine)
  | None =>
      let order :=
        TradeOrder.mk (JS.uuidv4 (PaperExecutionEngine.uuidCount engine))
          (PolymarketTrade.conditionId trade)
          (PolymarketTrade.conditionId trade) side action copySize
          (Some (PolymarketTrade.price trade)) paper now in
      let engine :=
        PaperExecutionEngine.mk (PaperExecutionEngine.positions engine)
          (PaperExecutionEngine.tradeHistory engine)
          (PaperExecutionEngine.startingCapital engine)
          (PaperExecutionEngine.currentBalance engine)
          (PaperExecutionEngine.realizedPnL engine)
          (S (PaperExecutionEngine.uuidCount engine)) in
      match PaperExecutionEngine.executeTrade now store engine order with
      | JS.Return (result, engine') =>
          match FillResult.status result with
          | filled | partial =>
              (DetectedTrade.mk trade (DetectedTrade.trackedUser detectedTrade)
                 (DetectedTrade.detectedAt detectedTrade) true (Some now)
                 (DetectedTrade.executionError detectedTrade),
               engine')
          | pending => (withError "Trade status: pending"%string, engine')
          | rejected => (withError "Trade status: rejected"%string, engine')
          | cancelled => (withError "Trade status: cancelled"%string, engine')
          end
      | JS.Throw message => (withError message, engine)
      end
  end.

(** [handleNewTrade]: the trade is skipped when it is below half of the
    minimum size; otherwise it is recorded in [detectedTrades] and copied.
    The record pushed is the object [executeCopyTrade] then completes. *)
Definition handleNewTrade (now : Z) (store : MarketStore.t)
    (config : CopyTradingConfig.t) (userTradeHistory : gmap string (JSMap.t Q))
    (detectedTrades : list DetectedTrade.t) (engine : PaperExecutionEngine.t)
    (trade : PolymarketTrade.t) (user : TrackedUser.t)
  : list DetectedTrade.t * PaperExecutionEngine.t :=
  let tradeSize := PolymarketTrade.size trade in
  let tradeHash := PolymarketTrade.transactionHash trade in
  let userAddress := JS.toLowerCase (TrackedUser.address user) in
  if JS.truthy (JS.orElse (minTradeSize config) 0)
     && JS.ltb tradeSize (JS.orElse (minTradeSize config) 0 * (1 # 2))
  then (detectedTrades, engine)
  else
    let copySize :=
      calculateProportionalSize config userTradeHistory tradeSize tradeHash
        userAddress in
    let detectedTrade := DetectedTrade.mk trade user now false None None in
    let '(detectedTrade', engine') :=
      executeCopyTrade now store engine detectedTrade copySize in
    (detectedTrades ++ [detectedTrade'], engine').

(** The two branches of [fetchUserTrades] on [isInitialPoll], run once
    the user's window is updated.  [S] is what the handlers work on (the
    engine, the detected trades, the market cache); they do not touch the
    set of seen hashes, and they catch their own errors, so the loop
    always runs to its end. *)
Section Dispatch.
Context {S : Type}.
Variables (handleRedemption handleTrade : PolymarketTrade.t -> TrackedUser.t -> S -> S).

Definition processActivity (user : TrackedUser.t) (acc : gset string * S)
    (activity : PolymarketTrade.t) : gset string * S :=
  let '(seen, st) := acc in
  if bool_decide (PolymarketTrade.transactionHash activity ∈ seen)
  then (seen, st)
  else
    let seen := {[PolymarketTrade.transactionHash activity]} ∪ seen in
    match PolymarketTrade.type activity with
    | Some REDEEM => (seen, handleRedemption activity user st)
    | Some TRADE | None => (seen, handleTrade activity user st)
    | Some _ => (seen, st)
    end.

Definition processActivities (isInitialPoll : bool) (user : TrackedUser.t)
    (seen : gset string) (st : S) (activities : list PolymarketTrade.t)
  : gset string * S :=
  if isInitialPoll
  then
    (fold_left
       (fun seen activity => {[PolymarketTrade.transactionHash activity]} ∪ seen)
       activities seen,
     st)
  else fold_left (processActivity user) activities (seen, st).

End Dispatch.

(** The request budget: 200 requests per 10 seconds. *)
Definition RATE_LIMIT_REQUESTS : nat := 200.
Definition RATE_LIMIT_WINDOW_MS : Z := 10000%Z.

(** [waitForRateLimit].  [wake now ms] is the time at which
    [sleep(ms)], called at [now], resumes; [fuel] bounds the depth of the
    recursion, [None] meaning that it was not enough.  The result is the
    time at which the call returns and the requests still tracked. *)
Fixpoint waitForRateLimit (wake : Z -> Z -> Z) (fuel : nat) (now : Z)
    (rateLimitRequests : list Z) : option (Z * list Z) :=
  match fuel with
  | O => None
  | S fuel =>
      let rateLimitRequests :=
        List.filter
          (fun timestamp => (now - timestamp <? RATE_LIMIT_WINDOW_MS)%Z)
          rateLimitRequests in
      if (RATE_LIMIT_REQUESTS <=? length rateLimitRequests)%nat
      then
        match rateLimitRequests with
        | oldestRequest :: _ =>
            let waitTime :=
              (RATE_LIMIT_WINDOW_MS - (now - oldestRequest) + 100)%Z in
            if (0 <? waitTime)%Z
            then waitForRateLimit wake fuel (wake now waitTime) rateLimitRequests
            else Some (now, rateLimitRequests)
        | [] => Some (now, rateLimitRequests)
        end
      else Some (now, rateLimitRequests)
  end.

(** The bookkeeping of [fetchWithRateLimit]: wait, then track the
    request at the time it is sent. *)
Definition fetchWithRateLimit (wake : Z -> Z -> Z) (fuel : nat) (now : Z)
    (rateLimitRequests : list Z) : option (Z * list Z) :=
  match waitForRateLimit wake fuel now rateLimitRequests with
  | Some (now', requests) => Some (now', requests ++ [now'])
  | None => None
  end.

(** [addTrackedUser] and [removeTrackedUser]: addresses are compared in
    lower case. *)
Definition sameAddress (address : string) (u : TrackedUser.t) : bool :=
  String.eqb (JS.toLowerCase (TrackedUser.address u)) (JS.toLowerCase address).

Definition addTrackedUser (users : list TrackedUser.t) (user : TrackedUser.t)
  : list TrackedUser.t :=
  if existsb (sameAddress (TrackedUser.address user)) users then users
  else users ++ [user].

Fixpoint removeFirst (address : string) (users : list TrackedUser.t)
  : list TrackedUser.t :=
  match users with
  | [] => []
  | u :: rest => if sameAddress address u then rest else u :: removeFirst address rest
  end.

Definition removeTrackedUser (users : list TrackedUser.t) (address : string)
  : list TrackedUser.t :=
  removeFirst address users.

(** [this.detectedTrades.slice(-limit).reverse()] *)
Definition getDetectedTrades (detectedTrades : list DetectedTrade.t) (limit : Z)
  : list DetectedTrade.t :=
  reverse (JS.slice (- limit) detectedTrades).

End CopyTradingService.

(** ** arbitrage/arbitrageService.ts *)

Module ArbitrageService.
Local Open Scope Q_scope.

(** [executeArbitrage]: the detector and the engine after the call. *)
Definition executeArbitrage (now : Z) (store : MarketStore.t)
    (d : ArbitrageDetector.detector) (engine : PaperExecutionEngine.t)
    (opportunity : ArbitrageOpportunity.t)
  : ArbitrageDetector.detector * PaperExecutionEngine.t :=
  match (ArbitrageDetector.createExecutionPlan now (ArbitrageDetector.config d)
           store opportunity).1 with
  | None => (d, engine)
  | Some plan =>
      match PaperExecutionEngine.getPosition now store engine
              (ExecutionPlan.marketId plan) with
      | (Some _, engine) => (d, engine)
      | (None, engine) =>
          let balance := PaperExecutionEngine.getBalance engine in
          if JS.ltb balance (ExecutionPlan.totalCost plan) then (d, engine)
          else
            let yesOrder :=
              TradeOrder.mk (JS.uuidv4 (PaperExecutionEngine.uuidCount engine))
                (ExecutionPlan.marketId plan) (ExecutionPlan.conditionId plan)
                YES BUY (ExecutionPlan.yesSize plan)
                (Some (ExecutionPlan.yesPrice plan)) paper now in
            let noOrder :=
              TradeOrder.mk
                (JS.uuidv4 (S (PaperExecutionEngine.uuidCount engine)))
                (ExecutionPlan.marketId plan) (ExecutionPlan.conditionId plan)
                NO BUY (ExecutionPlan.noSize plan)
                (Some (ExecutionPlan.noPrice plan)) paper now in
            let engine :=
              PaperExecutionEngine.mk (PaperExecutionEngine.positions engine)
                (PaperExecutionEngine.tradeHistory engine)
                (PaperExecutionEngine.startingCapital engine)
                (PaperExecutionEngine.currentBalance engine)
                (PaperExecutionEngine.realizedPnL engine)
                (S (S (PaperExecutionEngine.uuidCount engine))) in
            match PaperExecutionEngine.executeTrade now store engine yesOrder with
            | JS.Throw _ => (d, engine)
            | JS.Return (yesResult, engine1) =>
                match PaperExecutionEngine.executeTrade now store engine1 noOrder with
                | JS.Throw _ => (d, engine1)
                | JS.Return (noResult, engine2) =>
                    match FillResult.status yesResult, FillResult.status noResult with
                    | filled, filled =>
                        (ArbitrageDetector.markMarketTracked d
                           (ExecutionPlan.marketId plan),
                         engine2)
                    | _, _ => (d, engine2)
                    end
                end
            end
      end
  end.

(** [scanAndExecute]: only the first of the ranked opportunities is
    executed. *)
Definition scanAndExecute (now : Z) (store : MarketStore.t)
    (d : ArbitrageDetector.detector) (engine : PaperExecutionEngine.t)
  : ArbitrageDetector.detector * PaperExecutionEngine.t :=
  if negb (ArbitrageDetector.isEnabled d) then (d, engine)
  else
    match ArbitrageDetector.scanOpportunities now d store with
    | [] => (d, engine)
    | bestOpportunity :: _ => executeArbitrage now store d engine bestOpportunity
    end.

End ArbitrageService.

(** * The arithmetic of the sources, bit for bit

    The statements that depend on how JavaScript rounds, or on what it
    does with a divisor of 0, are made over this second embedding, in
    which a [number] is an IEEE 754 binary64 value as
    [Stdlib.Floats.SpecFloat] specifies it: signed zeros, ±Infinity, one
    NaN, and every operation rounded to nearest, ties to even.  A
    decimal literal denotes the double nearest to it, as in JavaScript.
    The functions are those of the first embedding, transcribed from the
    same sources with the operations of [Double]. *)

Module Double.

Definition t : Type := spec_float.
Definition prec : Z := 53.
Definition emax : Z := 1024.

Definition NaN : t := S754_nan.
Definition Infinity : t := S754_infinity false.

Definition add : t -> t -> t := SFadd prec emax.
Definition sub : t -> t -> t := SFsub prec emax.
Definition mul : t -> t -> t := SFmul prec emax.
Definition div : t -> t -> t := SFdiv prec emax.

(** [x < y], [x <= y] and [x === y]: false as soon as one side is NaN. *)
Definition ltb (x y : t) : bool := SFltb x y.
Definition leb (x y : t) : bool := SFleb x y.
Definition eqb (x y : t) : bool := SFeqb x y.

Definition isNaN (x : t) : bool :=
  match x with
  | S754_nan => true
  | _ => false
  end.

(** A number is falsy when it is NaN, [0] or [-0]. *)
Definition truthy (x : t) : bool :=
  match x with
  | S754_nan | S754_zero _ => false
  | _ => true
  end.

(** [x || d] where [x : number | null | undefined] and [d : number]. *)
Definition orElse (x : option t) (d : t) : t :=
  match x with
  | Some v => if truthy v then v else d
  | None => d
  end.

(** [x || y] where both sides may be [null]. *)
Definition orNull (x y : option t) : option t :=
  match x with
  | Some v => if truthy v then Some v else y
  | None => y
  end.

(** [Math.max] and [Math.min] of two numbers: NaN when one of them is,
    and [-0] below [0]. *)
Definition max (x y : t) : t :=
  match x, y with
  | S754_nan, _ | _, S754_nan => S754_nan
  | S754_zero sx, S754_zero sy => S754_zero (sx && sy)
  | _, _ => if SFltb x y then y else x
  end.

Definition min (x y : t) : t :=
  match x, y with
  | S754_nan, _ | _, S754_nan => S754_nan
  | S754_zero sx, S754_zero sy => S754_zero (sx || sy)
  | _, _ => if SFltb y x then y else x
  end.

(** The double nearest to [num / den]. *)
Definition ofRatio (num : Z) (den : positive) : t :=
  match num with
  | Z0 => S754_zero false
  | Zpos n =>
      let '(q, e, l) := SFdiv_core_binary prec emax (Zpos n) 0 (Zpos den) 0 in
      binary_round_aux prec emax false q e l
  | Zneg n =>
      let '(q, e, l) := SFdiv_core_binary prec emax (Zpos n) 0 (Zpos den) 0 in
      binary_round_aux prec emax true q e l
  end.

(** The double that the decimal literal [m]e[e] denotes. *)
Definition decimal (m e : Z) : t :=
  match e with
  | Zneg k => ofRatio m (Pos.pow 10 k)
  | _ => ofRatio (m * 10 ^ e) 1
  end.

Definition ofNumber (n : Number.number) : option t :=
  match n with
  | Number.Decimal (Decimal.Decimal i f) =>
      Some (decimal (Z.of_int (Decimal.app_int i f))
              (- Z.of_nat (Decimal.nb_digits f)))
  | Number.Decimal (Decimal.DecimalExp i f e) =>
      Some (decimal (Z.of_int (Decimal.app_int i f))
              (Z.of_int e - Z.of_nat (Decimal.nb_digits f)))
  | Number.Hexadecimal _ => None
  end.

Definition toNumber (x : t) : option Number.number := None.

(** The rational that a finite double is; [0] for the other values. *)
Definition value (x : t) : Q :=
  match x with
  | S754_finite s m e =>
      let magnitude :=
        match e with
        | Zneg k => Zpos m # Pos.pow 2 k
        | _ => inject_Z (Zpos m * 2 ^ e)
        end in
      if s then Qopp magnitude else magnitude
  | _ => 0%Q
  end.

End Double.

Declare Scope double_scope.
Delimit Scope double_scope with double.
Bind Scope double_scope with Double.t.
Number Notation spec_float Double.ofNumber Double.toNumber : double_scope.
Infix "+" := Double.add : double_scope.
Infix "-" := Double.sub : double_scope.
Infix "*" := Double.mul : double_scope.
Infix "/" := Double.div : double_scope.
Infix "<?" := Double.ltb (at level 70) : double_scope.
Infix "<=?" := Double.leb (at level 70) : double_scope.
Infix "=?" := Double.eqb (at level 70) : double_scope.
Arguments Double.value x%_double.

(** The operations are computed by [vm_compute] and never unfolded by
    simplification. *)
#[global] Arguments Double.add : simpl never.
#[global] Arguments Double.sub : simpl never.
#[global] Arguments Double.mul : simpl never.
#[global] Arguments Double.div : simpl never.
#[global] Arguments Double.ltb : simpl never.
#[global] Arguments Double.leb : simpl never.
#[global] Arguments Double.eqb : simpl never.
#[global] Arguments Double.max : simpl never.
#[global] Arguments Double.min : simpl never.

Module IEEE.
Local Open Scope double_scope.

(** ** market/types.ts and market/marketStore.ts *)

Module OutcomePrices.
Record t := mk { bid : option Double.t; ask : option Double.t; lastUpdate : Z }.
End OutcomePrices.

Module MarketData.
Record t := mk {
  marketId : string;
  conditionId : string;
  yesPrices : OutcomePrices.t;
  noPrices : OutcomePrices.t;
  lastUpdate : Z;
  isStale : bool
}.
End MarketData.

Module MarketStore.

Record t := mk {
  markets : gmap string MarketData.t;
  staleThresholdMs : Z
}.

Definition isStale (now : Z) (s : t) (lastUpdate : Z) : bool :=
  (staleThresholdMs s <? now - lastUpdate)%Z.

Definition refresh (now : Z) (s : t) (market : MarketData.t) : MarketData.t :=
  MarketData.mk (MarketData.marketId market) (MarketData.conditionId market)
    (MarketData.yesPrices market) (MarketData.noPrices market)
    (MarketData.lastUpdate market)
    (isStale now s (MarketData.lastUpdate market)).

(** [getMarket] refreshes the cached [isStale] flag of the market it
    returns; the refreshed store is the second component. *)
Definition getMarket (now : Z) (s : t) (marketId : string)
  : option MarketData.t * t :=
  match markets s !! marketId with
  | Some market =>
      let market' := refresh now s market in
      (Some market',
       mk (<[marketId := market']> (markets s)) (staleThresholdMs s))
  | None => (None, s)
  end.

(** The markets are enumerated in the order of [map_to_list], not in the
    insertion order of the JavaScript [Map]. *)
Definition getAllMarkets (now : Z) (s : t) : list MarketData.t * t :=
  ((fun entry => refresh now s entry.2) <$> map_to_list (markets s),
   mk (refresh now s <$> markets s) (staleThresholdMs s)).

Definition getArbitrageOpportunities (now : Z) (s : t) (feeBuffer : Double.t)
  : list MarketData.t :=
  List.filter
    (fun market =>
       match OutcomePrices.ask (MarketData.yesPrices market),
             OutcomePrices.ask (MarketData.noPrices market) with
       | Some yesAsk, Some noAsk =>
           let totalCost := yesAsk + noAsk in
           (totalCost <? 1 - feeBuffer) && negb (MarketData.isStale market)
       | _, _ => false
       end)
    (getAllMarkets now s).1.

End MarketStore.

(** ** arbitrage/types.ts and arbitrage/arbitrageDetector.ts *)

Module ArbitrageOpportunity.
Record t := mk {
  marketId : string;
  conditionId : string;
  yesAsk : Double.t;
  noAsk : Double.t;
  totalCost : Double.t;
  profitMargin : Double.t;
  profitAfterFees : Double.t;
  marketData : MarketData.t;
  timestamp : Z
}.
End ArbitrageOpportunity.

Module ArbitrageConfig.
Record t := mk {
  minProfitThreshold : Double.t;
  feeBuffer : Double.t;
  safetyMargin : Double.t;
  maxPositionSize : Double.t;
  scanInterval : Z;
  enabled : bool
}.
End ArbitrageConfig.

Module ExecutionPlan.
Record t := mk {
  marketId : string;
  conditionId : string;
  yesSize : Double.t;
  noSize : Double.t;
  yesPrice : Double.t;
  noPrice : Double.t;
  totalCost : Double.t;
  expectedProfit : Double.t;
  timestamp : Z
}.
End ExecutionPlan.

Module ArbitrageDetector.
Import ArbitrageConfig.

Definition detectArbitrage (now : Z) (config : ArbitrageConfig.t)
    (market : MarketData.t) : option ArbitrageOpportunity.t :=
  match OutcomePrices.ask (MarketData.yesPrices market),
        OutcomePrices.ask (MarketData.noPrices market) with
  | Some yesAsk, Some noAsk =>
      if (yesAsk <=? 0) || (noAsk <=? 0) then None
      else
        let totalCost := yesAsk + noAsk in
        let requiredTotal := 1 - feeBuffer config - safetyMargin config in
        if requiredTotal <=? totalCost then None
        else
          let profitMargin := 1 - totalCost in
          let profitAfterFees := profitMargin - feeBuffer config in
          if profitAfterFees <? minProfitThreshold config then None
          else
            Some (ArbitrageOpportunity.mk (MarketData.marketId market)
                    (MarketData.conditionId market) yesAsk noAsk totalCost
                    profitMargin profitAfterFees market now)
  | _, _ => None
  end.

Definition createExecutionPlan (now : Z) (config : ArbitrageConfig.t)
    (store : MarketStore.t) (opportunity : ArbitrageOpportunity.t)
  : option ExecutionPlan.t * MarketStore.t :=
  let totalSize :=
    Double.min (maxPositionSize config)
      (maxPositionSize config
         * ArbitrageOpportunity.profitAfterFees opportunity
         / minProfitThreshold config) in
  let yesSize := totalSize / 2 in
  let noSize := totalSize / 2 in
  let '(currentMarket, store') :=
    MarketStore.getMarket now store
      (ArbitrageOpportunity.marketId opportunity) in
  match currentMarket with
  | None => (None, store')
  | Some currentMarket =>
      match OutcomePrices.ask (MarketData.yesPrices currentMarket),
            OutcomePrices.ask (MarketData.noPrices currentMarket) with
      | Some currentYesAsk, Some currentNoAsk =>
          let currentTotalCost := currentYesAsk + currentNoAsk in
          let currentProfitAfterFees :=
            1 - currentTotalCost - feeBuffer config - safetyMargin config in
          if currentProfitAfterFees <? minProfitThreshold config
          then (None, store')
          else
            (Some (ExecutionPlan.mk
                     (ArbitrageOpportunity.marketId opportunity)
                     (ArbitrageOpportunity.conditionId opportunity)
                     yesSize noSize currentYesAsk currentNoAsk
                     (yesSize + noSize)
                     ((yesSize + noSize) * currentProfitAfterFees) now),
             store')
      | _, _ => (None, store')
      end
  end.

End ArbitrageDetector.

(** ** trading/types.ts and trading/paperExecutionEngine.ts *)

Module TradeOrder.
Record t := mk {
  orderId : string;
  marketId : string;
  conditionId : string;
  side : Side;
  action : TradeAction;
  size : Double.t;
  price : option Double.t;
  mode : ExecutionMode;
  timestamp : Z
}.
End TradeOrder.

Module Fill.
Record t := mk {
  fillId : string;
  orderId : string;
  price : Double.t;
  size : Double.t;
  timestamp : Z
}.
End Fill.

Module FillResult.
Record t := mk {
  orderId : string;
  fills : list Fill.t;
  status : OrderStatus;
  totalFilled : Double.t;
  averagePrice : Double.t;
  timestamp : Z
}.
End FillResult.

Module Position.
Record t := mk {
  positionId : string;
  marketId : string;
  conditionId : string;
  yesTokens : Double.t;
  noTokens : Double.t;
  yesEntryPrice : Double.t;
  noEntryPrice : Double.t;
  yesCurrentPrice : option Double.t;
  noCurrentPrice : option Double.t;
  entryTimestamp : Z;
  lastUpdate : Z;
  unrealizedPnL : Double.t;
  totalEntryCost : Double.t
}.
End Position.

Module TradeRecord.
Record t := mk {
  tradeId : string;
  orderId : string;
  marketId : string;
  conditionId : string;
  side : Side;
  action : TradeAction;
  size : Double.t;
  price : Double.t;
  status : OrderStatus;
  timestamp : Z;
  mode : ExecutionMode
}.
End TradeRecord.

Module PaperExecutionEngine.

Record t := mk {
  positions : gmap string Position.t;
  tradeHistory : list TradeRecord.t;
  startingCapital : Double.t;
  currentBalance : Double.t;
  realizedPnL : Double.t;
  uuidCount : nat
}.

Definition constructor (capital : Double.t) : t := mk ∅ [] capital capital 0 0.

Definition rejectedResult (now : Z) (order : TradeOrder.t) : FillResult.t :=
  FillResult.mk (TradeOrder.orderId order) [] rejected 0 0 now.

Definition pricesOf (side : Side) (market : MarketData.t) : OutcomePrices.t :=
  match side with
  | YES => MarketData.yesPrices market
  | NO => MarketData.noPrices market
  end.

Definition updatePositionPnL (now : Z) (store : MarketStore.t)
    (position : Position.t) : Position.t :=
  let with_ ycp ncp pnl :=
    Position.mk (Position.positionId position) (Position.marketId position)
      (Position.conditionId position) (Position.yesTokens position)
      (Position.noTokens position) (Position.yesEntryPrice position)
      (Position.noEntryPrice position) ycp ncp
      (Position.entryTimestamp position) (Position.lastUpdate position)
      pnl (Position.totalEntryCost position) in
  match (MarketStore.getMarket now store (Position.marketId position)).1 with
  | None => with_ None None 0
  | Some market =>
      let yesCurrentPrice :=
        Double.orNull
          (Double.orNull (OutcomePrices.ask (MarketData.yesPrices market))
             (OutcomePrices.bid (MarketData.yesPrices market))) None in
      let noCurrentPrice :=
        Double.orNull
          (Double.orNull (OutcomePrices.ask (MarketData.noPrices market))
             (OutcomePrices.bid (MarketData.noPrices market))) None in
      let yesValue :=
        Position.yesTokens position * Double.orElse yesCurrentPrice 0 in
      let noValue :=
        Position.noTokens position * Double.orElse noCurrentPrice 0 in
      let currentValue := yesValue + noValue in
      with_ yesCurrentPrice noCurrentPrice
        (currentValue - Position.totalEntryCost position)
  end.

Definition updatePosition (now : Z) (store : MarketStore.t) (e : t)
    (order : TradeOrder.t) (price tokens : Double.t) : t :=
  let '(position, uuidCount') :=
    match positions e !! TradeOrder.marketId order with
    | Some position => (position, uuidCount e)
    | None =>
        (Position.mk (JS.uuidv4 (uuidCount e)) (TradeOrder.marketId order)
           (TradeOrder.conditionId order) 0 0 0 0 None None now now 0 0,
         S (uuidCount e))
    end in
  let '(yesTokens, yesEntryPrice, noTokens, noEntryPrice) :=
    match TradeOrder.side order, TradeOrder.action order with
    | YES, BUY =>
        let totalCost :=
          Position.yesTokens position * Position.yesEntryPrice position
          + TradeOrder.size order in
        let yesTokens := Position.yesTokens position + tokens in
        (yesTokens, totalCost / yesTokens,
         Position.noTokens position, Position.noEntryPrice position)
    | YES, SELL =>
        let yesTokens := Position.yesTokens position - tokens in
        if yesTokens <=? 0
        then (0, 0, Position.noTokens position, Position.noEntryPrice position)
        else (yesTokens, Position.yesEntryPrice position,
              Position.noTokens position, Position.noEntryPrice position)
    | NO, BUY =>
        let totalCost :=
          Position.noTokens position * Position.noEntryPrice position
          + TradeOrder.size order in
        let noTokens := Position.noTokens position + tokens in
        (Position.yesTokens position, Position.yesEntryPrice position,
         noTokens, totalCost / noTokens)
    | NO, SELL =>
        let noTokens := Position.noTokens position - tokens in
        if noTokens <=? 0
        then (Position.yesTokens position, Position.yesEntryPrice position, 0, 0)
        else (Position.yesTokens position, Position.yesEntryPrice position,
              noTokens, Position.noEntryPrice position)
    end in
  let totalEntryCost := yesTokens * yesEntryPrice + noTokens * noEntryPrice in
  let position' :=
    Position.mk (Position.positionId position) (Position.marketId position)
      (Position.conditionId position) yesTokens noTokens yesEntryPrice
      noEntryPrice (Position.yesCurrentPrice position)
      (Position.noCurrentPrice position) (Position.entryTimestamp position)
      now (Position.unrealizedPnL position) totalEntryCost in
  mk (<[TradeOrder.marketId order := updatePositionPnL now store position']>
        (positions e))
    (tradeHistory e) (startingCapital e) (currentBalance e) (realizedPnL e)
    uuidCount'.

(** [this.tradeHistory.push(trade)] followed by the cap at 1000. *)
Definition pushTrade (trade : TradeRecord.t) (history : list TradeRecord.t)
  : list TradeRecord.t :=
  let history' := history ++ [trade] in
  if (1000 <? length history')%nat then JS.sliceLast 1000 history'
  else history'.

Definition executeTrade (now : Z) (store : MarketStore.t) (e : t)
    (order : TradeOrder.t) : JS.completion (FillResult.t * t) :=
  match TradeOrder.mode order with
  | real => JS.Throw "Paper execution engine only handles paper trades"
  | paper =>
      (* market order: the price comes from the store; [None] is the
         early return taken when the store has no data for the market *)
      let marketPrice : option Double.t :=
        match (MarketStore.getMarket now store (TradeOrder.marketId order)).1 with
        | None => None
        | Some market =>
            let prices := pricesOf (TradeOrder.side order) market in
            match TradeOrder.action order with
            | BUY => Some (Double.orElse (OutcomePrices.ask prices) 0)
            | SELL => Some (Double.orElse (OutcomePrices.bid prices) 0)
            end
        end in
      let fillPrice : option Double.t :=
        match TradeOrder.price order with
        | Some price => if Double.truthy price then Some price else marketPrice
        | None => marketPrice
        end in
      match fillPrice with
      | None => JS.Return (rejectedResult now order, e)
      | Some fillPrice =>
          if (fillPrice =? 0) || (fillPrice <=? 0) || (1 <? fillPrice)
          then JS.Return (rejectedResult now order, e)
          else
            let tokens := TradeOrder.size order / fillPrice in
            let totalCost := TradeOrder.size order in
            if match TradeOrder.action order with
               | BUY => currentBalance e <? totalCost
               | SELL => false
               end
            then JS.Return (rejectedResult now order, e)
            else
              let fill :=
                Fill.mk (JS.uuidv4 (uuidCount e)) (TradeOrder.orderId order)
                  fillPrice (TradeOrder.size order) now in
              let balance :=
                match TradeOrder.action order with
                | BUY => currentBalance e - totalCost
                | SELL => currentBalance e + totalCost
                end in
              let e1 :=
                mk (positions e) (tradeHistory e) (startingCapital e) balance
                  (realizedPnL e) (S (uuidCount e)) in
              let e2 := updatePosition now store e1 order fillPrice tokens in
              let trade :=
                TradeRecord.mk (JS.uuidv4 (uuidCount e2))
                  (TradeOrder.orderId order) (TradeOrder.marketId order)
                  (TradeOrder.conditionId order) (TradeOrder.side order)
                  (TradeOrder.action order) (TradeOrder.size order) fillPrice
                  filled now paper in
              let e3 :=
                mk (positions e2) (pushTrade trade (tradeHistory e2))
                  (startingCapital e2) (currentBalance e2) (realizedPnL e2)
                  (S (uuidCount e2)) in
              JS.Return
                (FillResult.mk (TradeOrder.orderId order) [fill] filled
                   (TradeOrder.size order) fillPrice now,
                 e3)
      end
  end.

End PaperExecutionEngine.

(** ** copytrading/types.ts and copytrading/copyTradingService.ts *)

Module CopyTradingConfig.
Record t := mk {
  pollIntervalMs : Z;
  enabled : bool;
  trackedUsers : list TrackedUser.t;
  minTradeSize : option Double.t;
  maxTradeSize : option Double.t;
  recentTradesWindow : option Double.t;
  minVolumeForScaling : option Double.t
}.
End CopyTradingConfig.

Module CopyTradingService.
Import CopyTradingConfig.

(** The constructor's configuration. *)
Definition defaultConfig (users : list TrackedUser.t) : CopyTradingConfig.t :=
  CopyTradingConfig.mk 5000 false users (Some 10) (Some 1000) (Some 15)
    (Some 1000).

(** The loop [for (const [hash, size] of tradeHistory.entries())
    if (hash !== tradeHash) recentVolume += size], from [recentVolume = 0]. *)
Definition recentVolume (tradeHash : string) (tradeHistory : JSMap.t Double.t)
  : Double.t :=
  fold_left
    (fun volume '(hash, size) =>
       if String.eqb hash tradeHash then volume else volume + size)
    tradeHistory 0.

Definition calculateProportionalSize (config : CopyTradingConfig.t)
    (userTradeHistory : gmap string (JSMap.t Double.t))
    (tradeSize : Double.t) (tradeHash : string) (userAddress : string)
  : Double.t :=
  let tradeHistory := userTradeHistory !! JS.toLowerCase userAddress in
  let minVolumeForScaling := Double.orElse (minVolumeForScaling config) 1000 in
  let maxTradeSize := Double.orElse (maxTradeSize config) 1000 in
  match tradeHistory with
  | None =>
      Double.max (Double.orElse (minTradeSize config) 10) (maxTradeSize * 0.1)
  | Some tradeHistory =>
      if (JSMap.size tradeHistory <? 2)%nat
      then
        Double.max (Double.orElse (minTradeSize config) 10) (maxTradeSize * 0.1)
      else
        let recentVolume := recentVolume tradeHash tradeHistory in
        if recentVolume <? minVolumeForScaling
        then
          Double.max (Double.orElse (minTradeSize config) 10)
            (maxTradeSize * 0.05)
        else
          let tradePercentageOfRecentVolume := tradeSize / recentVolume * 100 in
          let proportionalSize :=
            maxTradeSize * tradePercentageOfRecentVolume / 100 in
          let finalSize :=
            Double.max (Double.orElse (minTradeSize config) 10)
              proportionalSize in
          Double.min finalSize maxTradeSize
  end.

End CopyTradingService.

End IEEE.

(** * Terms of the statements, and scenarios *)

Section DetectionTerms.
Import ArbitrageConfig ArbitrageDetector.
Local Open Scope Q_scope.

(** The market of the detection scenario: YES ask 0.45, NO ask 0.50. *)
Definition scenarioMarket : MarketData.t :=
  MarketData.mk "m" "c" (OutcomePrices.mk None (Some (45 # 100)) 0%Z)
    (OutcomePrices.mk None (Some (50 # 100)) 0%Z) 0%Z false.

Definition scenarioConfig : ArbitrageConfig.t :=
  ArbitrageConfig.mk (1 # 100) (2 # 100) (5 # 1000) 100 1000%Z true.

End DetectionTerms.

Section PlansTerms.
Import ArbitrageConfig ArbitrageDetector.
Local Open Scope Q_scope.

(** The size rule of [createExecutionPlan]. *)
Definition planTotalSize (config : ArbitrageConfig.t)
    (opportunity : ArbitrageOpportunity.t) : Q :=
  Qmin (maxPositionSize config)
    (maxPositionSize config * ArbitrageOpportunity.profitAfterFees opportunity
     / minProfitThreshold config).

(** A configuration in the constructor's proportions (fee buffer twice
    the threshold, safety margin half of it) and a market whose asks sum
    to 0.8125. *)
Definition tightConfig : ArbitrageConfig.t :=
  ArbitrageConfig.mk (1 # 16) (1 # 8) (1 # 32) 100 1000%Z true.

Definition tightMarket : MarketData.t :=
  MarketData.mk "m" "c" (OutcomePrices.mk None (Some (1 # 2)) 0%Z)
    (OutcomePrices.mk None (Some (5 # 16)) 0%Z) 0%Z false.

Definition tightStore : MarketStore.t :=
  MarketStore.mk {[ "m"%string := tightMarket ]} 30000%Z.

(** A market at which a plan is produced: asks 0.45 and 0.50 under the
    scenario configuration. *)
Definition scenarioStore : MarketStore.t :=
  MarketStore.mk {[ "m"%string := scenarioMarket ]} 30000%Z.

Definition scenarioOpportunity : ArbitrageOpportunity.t :=
  ArbitrageOpportunity.mk "m" "c" (45 # 100) (50 # 100) (95 # 100) (5 # 100)
    (3 # 100) scenarioMarket 0%Z.

End PlansTerms.

Section StoreTerms.
Import MarketStore.
Local Open Scope Q_scope.

(** The key under which [updateOrderBook] files an update. *)
Definition keyOf (update : OrderBookUpdate.t) : string :=
  JS.strOr (OrderBookUpdate.marketId update)
    (JS.strOr (OrderBookUpdate.conditionId update)
       (OrderBookUpdate.assetId update)).

(** What a book side contributes: nothing when it is empty or the price
    of its first level does not parse, the parsed price otherwise. *)
Definition firstLevel (levels : list OrderBookLevel.t) : option Q :=
  match levels with
  | [] => None
  | level :: _ => JS.parseFloat (OrderBookLevel.price level)
  end.

(** The updates among [calls] that were filed under [key] for outcome
    [side], in the order of the calls. *)
Definition updatesOf (calls : list (Z * OrderBookUpdate.t)) (key : string)
    (side : Side) : list OrderBookUpdate.t :=
  List.filter
    (fun update =>
       bool_decide (keyOf update = key /\ OrderBookUpdate.outcome update = side))
    calls.*2.

(** The bid and ask that the latest of them carries; both null when there
    has been none. *)
Definition latestQuotes (calls : list (Z * OrderBookUpdate.t)) (key : string)
    (side : Side) : option Q * option Q :=
  match last (updatesOf calls key side) with
  | Some update =>
      (firstLevel (OrderBookUpdate.bids update),
       firstLevel (OrderBookUpdate.asks update))
  | None => (None, None)
  end.

Definition quotesOf (prices : OutcomePrices.t) : option Q * option Q :=
  (OutcomePrices.bid prices, OutcomePrices.ask prices).

(** The invariant behind the stored quotes: each outcome of each market
    carries the quotes of its latest update, and a key without market has
    had no update. *)
Definition latest (calls : list (Z * OrderBookUpdate.t)) (s : MarketStore.t)
  : Prop :=
  forall key,
    match markets s !! key with
    | Some market =>
        forall side,
          quotesOf (PaperExecutionEngine.pricesOf side market)
          = latestQuotes calls key side
    | None => forall now update, In (now, update) calls -> keyOf update <> key
    end.

(** One update whose first bid is 1.5 and whose first ask is 0. *)
Definition wideUpdate : OrderBookUpdate.t :=
  OrderBookUpdate.mk "m" "c" "a" YES [OrderBookLevel.mk "1.5" "10"]
    [OrderBookLevel.mk "0" "10"] 0%Z.

(** A later update of the same outcome with an empty book. *)
Definition emptiedUpdate : OrderBookUpdate.t :=
  OrderBookUpdate.mk "m" "c" "a" YES [] [] 5%Z.

End StoreTerms.

Section RejectionTerms.
Import PaperExecutionEngine.
Local Open Scope Q_scope.

(** The order's own price, when it has one: a price of 0 counts as none
    (the test is [if (order.price)]). *)
Definition explicitPrice (order : TradeOrder.t) : option Q :=
  match TradeOrder.price order with
  | Some price => if JS.truthy price then Some price else None
  | None => None
  end.

(** The store's best ask (BUY) or best bid (SELL) of the order's outcome,
    a missing quote counting as 0. *)
Definition bestQuote (order : TradeOrder.t) (market : MarketData.t) : Q :=
  match TradeOrder.action order with
  | BUY => JS.orElse (OutcomePrices.ask (pricesOf (TradeOrder.side order) market)) 0
  | SELL => JS.orElse (OutcomePrices.bid (pricesOf (TradeOrder.side order) market)) 0
  end.

(** The fill price: the order's price if supplied, else the store's
    quote; none when a market order finds no market data. *)
Definition resolvedFillPrice (store : MarketStore.t) (order : TradeOrder.t)
  : option Q :=
  match explicitPrice order with
  | Some price => Some price
  | None => bestQuote order <$> MarketStore.markets store !! TradeOrder.marketId order
  end.


End RejectionTerms.

Section SellsTerms.
Import PaperExecutionEngine.
Local Open Scope Q_scope.

Definition emptyStore : MarketStore.t := MarketStore.mk ∅ 30000%Z.

(** An engine holding, in market "m", no YES tokens and 8 NO tokens
    bought at 0.5; and a paper SELL of $10 of YES at 0.5. *)
Definition noYesEngine : PaperExecutionEngine.t :=
  PaperExecutionEngine.mk
    {[ "m"%string :=
         Position.mk "p" "m" "c" 0 8 0 (1 # 2) None None 0%Z 0%Z 0 4 ]}
    [] 100 96 0 1.

Definition sellYes : TradeOrder.t :=
  TradeOrder.mk "o" "m" "c" YES SELL 10 (Some (1 # 2)) paper 0%Z.

(** What a position holds, as opposed to the current prices and the
    unrealized PnL cached in it. *)
Definition holdings (position : Position.t) : Q * Q * Q * Q * Q :=
  (Position.yesTokens position, Position.noTokens position,
   Position.yesEntryPrice position, Position.noEntryPrice position,
   Position.totalEntryCost position).

(** The side [executeCopyTrade] derives from the source trade. *)
Definition copySide (trade : PolymarketTrade.t) : Side :=
  match PolymarketTrade.outcome trade with
  | Some "Yes"%string | Some "YES"%string => YES
  | _ => NO
  end.

Definition sellCopy : DetectedTrade.t :=
  DetectedTrade.mk
    (PolymarketTrade.mk "w" SELL "a" "m" 50 (1 # 2) 0%Z (Some "Yes"%string)
       "0xabc" (Some TRADE))
    (TrackedUser.mk "0xuser" None) 0%Z false None None.

(** [copySize / price] is above 0 as JavaScript computes it: a positive
    quotient, or [Infinity] for a positive size at price 0. *)
Definition positiveQuotient (copySize price : Q) : Prop :=
  (0 < copySize /\ 0 <= price) \/ (copySize < 0 /\ price < 0).

(** The guard's message for tokens that are not there. *)
Definition describesShortfall (message : string) : Prop :=
  exists have need,
    message
    = ("Insufficient tokens to sell (have: " +:+ have +:+ ", need: " +:+ need
       +:+ ")")%string.

(** The copy of a SELL of YES whose source trade has price 0. *)
Definition sellCopyAtZero : DetectedTrade.t :=
  DetectedTrade.mk
    (PolymarketTrade.mk "w" SELL "a" "m" 50 0 0%Z (Some "Yes"%string)
       "0xabd" (Some TRADE))
    (TrackedUser.mk "0xuser" None) 0%Z false None None.

End SellsTerms.

Section RedemptionTerms.
Import PaperExecutionEngine.
Local Open Scope Q_scope.

Definition winner (winningOutcome : nat) : Side :=
  if (winningOutcome =? 0)%nat then YES else NO.

Definition opposite (side : Side) : Side :=
  match side with YES => NO | NO => YES end.

(** The redemption scenario: 10 YES tokens entered at 0.4 and 5 NO tokens
    entered at 0.5; YES wins. *)
Definition redemptionEngine : PaperExecutionEngine.t :=
  PaperExecutionEngine.mk
    {[ "m"%string :=
         Position.mk "p" "m" "c" 10 5 (4 # 10) (5 # 10) None None 0%Z 0%Z 0
           (65 # 10) ]}
    [] 100 (935 # 10) 0 1.

End RedemptionTerms.

Section EntryPricesTerms.
Import PaperExecutionEngine.
Local Open Scope Q_scope.

(** Tokens held and entry price of one outcome of a market; both 0 when
    the engine has no position in the market. *)
Definition sideTokens (e : PaperExecutionEngine.t) (marketId : string)
    (side : Side) : Q :=
  from_option (Position.tokens side) 0 (positions e !! marketId).

Definition sideEntryPrice (e : PaperExecutionEngine.t) (marketId : string)
    (side : Side) : Q :=
  from_option (Position.entryPrice side) 0 (positions e !! marketId).

(** Two buys of YES in a market without position: $10 at 0.5, then $30 at
    0.75; 60 tokens for $40. *)
Definition firstBuy : TradeOrder.t :=
  TradeOrder.mk "o1" "m" "c" YES BUY 10 (Some (1 # 2)) paper 0%Z.

Definition secondBuy : TradeOrder.t :=
  TradeOrder.mk "o2" "m" "c" YES BUY 30 (Some (3 # 4)) paper 1%Z.

End EntryPricesTerms.

Section ClosingTerms.
Import PaperExecutionEngine.
Local Open Scope Q_scope.

(** A position of 10 YES tokens entered at 0.4, in a market whose best
    YES bid is 0.5. *)
Definition longYesEngine : PaperExecutionEngine.t :=
  PaperExecutionEngine.mk
    {[ "m"%string :=
         Position.mk "p" "m" "c" 10 0 (4 # 10) 0 None None 0%Z 0%Z 0 4 ]}
    [] 100 96 0 1.

Definition bidStore : MarketStore.t :=
  MarketStore.mk
    {[ "m"%string :=
         MarketData.mk "m" "c" (OutcomePrices.mk (Some (1 # 2)) (Some (3 # 5)) 0%Z)
           (OutcomePrices.mk None None 0%Z) 0%Z false ]}
    30000%Z.

End ClosingTerms.

Section WindowTerms.
Import CopyTradingService.
Local Open Scope Q_scope.


End WindowTerms.

Section WindowExampleTerms.
Import CopyTradingService.
Local Open Scope Q_scope.



End WindowExampleTerms.

Section SizingTerms.
Import CopyTradingService.
Local Open Scope Q_scope.

(** The parameters as the code reads them: a configured value of 0, or
    none, gives the fallback. *)
Definition minTradeSize (config : CopyTradingConfig.t) : Q :=
  JS.orElse (CopyTradingConfig.minTradeSize config) 10.
Definition maxTradeSize (config : CopyTradingConfig.t) : Q :=
  JS.orElse (CopyTradingConfig.maxTradeSize config) 1000.
Definition minVolumeForScaling (config : CopyTradingConfig.t) : Q :=
  JS.orElse (CopyTradingConfig.minVolumeForScaling config) 1000.

End SizingTerms.

Section StoreMoreTerms.
Import MarketStore.

(** [ts] is the greatest timestamp among the updates of [calls] filed
    under [key], and one of them carries it. *)
Definition latestOf (calls : list (Z * OrderBookUpdate.t)) (key : string)
    (ts : Z) : Prop :=
  (exists now update,
      In (now, update) calls /\ keyOf update = key /\
      OrderBookUpdate.timestamp update = ts)
  /\ forall now update,
       In (now, update) calls -> keyOf update = key ->
       (OrderBookUpdate.timestamp update <= ts)%Z.

(** The keys under which a sequence of updates is filed. *)
Definition keysOf (calls : list (Z * OrderBookUpdate.t)) : gset string :=
  list_to_set ((fun call => keyOf call.2) <$> calls).

(** Two updates of market "m": YES at time 50, then NO stamped 20. *)
Definition yesAt50 : OrderBookUpdate.t :=
  OrderBookUpdate.mk "m" "c" "a" YES [OrderBookLevel.mk "0.40" "10"]
    [OrderBookLevel.mk "0.45" "10"] 50%Z.

Definition noAt20 : OrderBookUpdate.t :=
  OrderBookUpdate.mk "m" "c" "b" NO [] [OrderBookLevel.mk "0.50" "10"] 20%Z.

(** The invariant behind the timestamps: a market's [lastUpdate] is the
    latest of its updates, and a key without market has had none. *)
Definition stamped (calls : list (Z * OrderBookUpdate.t)) (s : MarketStore.t)
  : Prop :=
  forall key,
    match markets s !! key with
    | Some market => latestOf calls key (MarketData.lastUpdate market)
    | None => forall now update, In (now, update) calls -> keyOf update <> key
    end.

End StoreMoreTerms.

Section DetectorMoreTerms.
Import ArbitrageConfig ArbitrageDetector.
Local Open Scope Q_scope.

(** Ranked by profit after fees, highest first. *)
Definition ranked (opportunities : list ArbitrageOpportunity.t) : Prop :=
  StronglySorted
    (fun a b =>
       ArbitrageOpportunity.profitAfterFees b
       <= ArbitrageOpportunity.profitAfterFees a)
    opportunities.

(** A store with two detectable markets: "m" of the detection scenario
    (profit after fees 0.03) and "w" (asks 0.75 and 0.125, profit after
    fees 0.105). *)
Definition lopsidedMarket : MarketData.t :=
  MarketData.mk "w" "cw" (OutcomePrices.mk None (Some (3 # 4)) 0%Z)
    (OutcomePrices.mk None (Some (1 # 8)) 0%Z) 0%Z false.

Definition twoMarketStore : MarketStore.t :=
  MarketStore.mk
    {[ "m"%string := scenarioMarket; "w"%string := lopsidedMarket ]} 30000%Z.

Definition scenarioDetector : ArbitrageDetector.detector :=
  ArbitrageDetector.mkDetector scenarioConfig ∅.

End DetectorMoreTerms.

Section ServiceTerms.
Import ArbitrageConfig ArbitrageDetector PaperExecutionEngine.
Local Open Scope Q_scope.

(** A store holding the lopsided market alone, and the opportunity
    detected in it. *)
Definition lopsidedStore : MarketStore.t :=
  MarketStore.mk {[ "w"%string := lopsidedMarket ]} 30000%Z.

Definition lopsidedOpportunity : ArbitrageOpportunity.t :=
  ArbitrageOpportunity.mk "w" "cw" (3 # 4) (1 # 8) (7 # 8) (1 # 8) (21 # 200)
    lopsidedMarket 0%Z.

End ServiceTerms.

Section EngineMoreTerms.
Import PaperExecutionEngine.
Local Open Scope Q_scope.

(** The engine with other positions, or with another realized PnL and
    identifier count. *)
Definition withPositions (e : t) (positions' : gmap string Position.t) : t :=
  mk positions' (tradeHistory e) (startingCapital e) (currentBalance e)
    (realizedPnL e) (uuidCount e).

Definition withBooks (e : t) (realized : Q) (uuids : nat) : t :=
  mk (positions e) (tradeHistory e) (startingCapital e) (currentBalance e)
    realized uuids.

(** The SELL order that [closePosition] makes for one leg. *)
Definition closingOrder (now : Z) (orderId marketId : string) (side : Side)
    (position : Position.t) (fillPrice : Q) : TradeOrder.t :=
  TradeOrder.mk orderId marketId (Position.conditionId position) side SELL
    (Position.tokens side position * fillPrice) None paper now.

(** The elementary changes the engine's operations are made of: the
    settlement of an accepted order or of a closing leg, a refresh of the
    prices cached in the positions, the deletion of a position, the
    bookkeeping of realized PnL and identifiers, and a redemption.
    [accepts] is what is known of the orders passed to [executeTrade]. *)
Inductive change (accepts : TradeOrder.t -> Prop) : t -> t -> Prop :=
| change_settle now store e order fillPrice :
    accepts order ->
    0 < fillPrice <= 1 ->
    (TradeOrder.action order = BUY -> TradeOrder.size order <= currentBalance e) ->
    change accepts e (settle now store e order fillPrice).2
| change_close now store e orderId marketId side position fillPrice :
    positions e !! marketId = Some position ->
    0 < fillPrice <= 1 ->
    change accepts e
      (settle now store e (closingOrder now orderId marketId side position fillPrice)
         fillPrice).2
| change_refresh e positions' :
    holdings <$> positions' = holdings <$> positions e ->
    change accepts e (withPositions e positions')
| change_delete e marketId :
    change accepts e (withPositions e (delete marketId (positions e)))
| change_books e realized uuids :
    change accepts e (withBooks e realized uuids)
| change_redeem now e marketId winningOutcome :
    change accepts e (redeemPosition now e marketId winningOutcome).

(** The engine is solvent: the balance is not negative and no position is
    short of tokens. *)
Definition solvent (e : t) : Prop :=
  0 <= currentBalance e
  /\ forall marketId position,
       positions e !! marketId = Some position ->
       0 <= Position.yesTokens position /\ 0 <= Position.noTokens position.

(** Every position's entry cost is what its two legs cost. *)
Definition costed (e : t) : Prop :=
  forall marketId position,
    positions e !! marketId = Some position ->
    Position.totalEntryCost position
    == Position.yesTokens position * Position.yesEntryPrice position
       + Position.noTokens position * Position.noEntryPrice position.

(** The orders among a sequence of calls. *)
Definition ordersOf (calls : list (Z * MarketStore.t * call)) : list TradeOrder.t :=
  omap (fun c => match c.2 with ExecuteTrade order => Some order | _ => None end)
    calls.

(** A day of calls: a funded buy, an oversized sale, a close and a
    redemption. *)
Definition busyDay : list (Z * MarketStore.t * call) :=
  [ (1%Z, bidStore, ExecuteTrade firstBuy);
    (2%Z, bidStore, ExecuteTrade
       (TradeOrder.mk "o3" "m" "c" YES SELL 500 None paper 2%Z));
    (3%Z, bidStore, ExecuteTrade secondBuy);
    (4%Z, emptyStore, GetPositions);
    (5%Z, bidStore, ClosePosition "m");
    (6%Z, bidStore, RedeemPosition "m" 0);
    (7%Z, bidStore, CloseAllPositions) ].

End EngineMoreTerms.

Section ScanTerms.
Import ArbitrageConfig ArbitrageDetector.

(** The scenario's detector once it has entered market "w". *)
Definition enteredDetector : ArbitrageDetector.detector :=
  ArbitrageDetector.mkDetector scenarioConfig {[ "w"%string ]}.

(** The number of entries that [slice(-limit).reverse()] returns from a
    list of [len]. *)
Definition returnedCount (len : nat) (limit : Z) : nat :=
  if (0 <? limit)%Z then Z.to_nat limit else (len - Z.to_nat (- limit))%nat.

End ScanTerms.

Section CopyMoreTerms.
Import CopyTradingService.
Local Open Scope Q_scope.

(** The skip rule of [handleNewTrade]: a minimum size is configured, is
    not 0, and the trade is below half of it. *)
Definition tooSmall (config : CopyTradingConfig.t) (trade : PolymarketTrade.t)
  : Prop :=
  exists minimum,
    CopyTradingConfig.minTradeSize config = Some minimum /\
    (~ minimum == 0) /\
    PolymarketTrade.size trade < minimum * (1 # 2).

(** The record [handleNewTrade] pushes has been completed as executed,
    at time [now]. *)
Definition copied (now : Z) (detected : DetectedTrade.t) : Prop :=
  DetectedTrade.executed detected = true /\
  DetectedTrade.executedAt detected = Some now /\
  DetectedTrade.executionError detected = None.

(** The record has been completed with an error. *)
Definition failed (detected : DetectedTrade.t) : Prop :=
  DetectedTrade.executed detected = false /\
  DetectedTrade.executedAt detected = None /\
  is_Some (DetectedTrade.executionError detected).

(** The engine's money and holdings are those of [engine]. *)
Definition untouched (engine engine' : PaperExecutionEngine.t) : Prop :=
  PaperExecutionEngine.currentBalance engine'
  = PaperExecutionEngine.currentBalance engine /\
  PaperExecutionEngine.tradeHistory engine'
  = PaperExecutionEngine.tradeHistory engine /\
  PaperExecutionEngine.realizedPnL engine'
  = PaperExecutionEngine.realizedPnL engine /\
  holdings <$> PaperExecutionEngine.positions engine'
  = holdings <$> PaperExecutionEngine.positions engine.

End CopyMoreTerms.

Section PollingTerms.
Import CopyTradingService.

(** The transaction hashes of the activities of a poll. *)
Definition hashesOf (activities : list PolymarketTrade.t) : gset string :=
  list_to_set (PolymarketTrade.transactionHash <$> activities).

(** A handler that only notes the activity it is given. *)
Definition note (activity : PolymarketTrade.t) (user : TrackedUser.t)
    (handled : list PolymarketTrade.t) : list PolymarketTrade.t :=
  handled ++ [activity].

(** The activities that a later poll hands to a handler, in order. *)
Definition handledOf (user : TrackedUser.t) (seen : gset string)
    (activities : list PolymarketTrade.t) : list PolymarketTrade.t :=
  (processActivities note note false user seen [] activities).2.

(** [sleep] never resumes early. *)
Definition neverEarly (wake : Z -> Z -> Z) : Prop :=
  forall now ms, (now + ms <= wake now ms)%Z.

(** A [sleep] that resumes on time, and a budget used up at time 0. *)
Definition onTime (now ms : Z) : Z := (now + ms)%Z.

Definition usedUp : list Z := repeat 0%Z 200.

(** The addresses of the tracked users, in lower case. *)
Definition lowerAddresses (users : list TrackedUser.t) : list string :=
  (fun u => JS.toLowerCase (TrackedUser.address u)) <$> users.

Definition bob : TrackedUser.t := TrackedUser.mk "0xB0B" None.
Definition ann : TrackedUser.t := TrackedUser.mk "0xAnn" (Some "ann"%string).

End PollingTerms.

Section RoundTripTerms.
Local Open Scope Q_scope.

(** A paper order at an explicit price. *)
Definition pricedOrder (action : TradeAction) (orderId marketId conditionId : string)
    (side : Side) (size price : Q) (now : Z) : TradeOrder.t :=
  TradeOrder.mk orderId marketId conditionId side action size (Some price)
    paper now.

End RoundTripTerms.

Section FillTerms.
Import PaperExecutionEngine.
Local Open Scope Q_scope.

(** What a SELL leaves of [held] tokens: the count is set to 0 when the
    difference is not positive. *)
Definition soldDown (held tokens : Q) : Q :=
  if JS.leb (held - tokens) 0 then 0 else held - tokens.

(** [result] and [e'] are the outcome of filling [order] at [fillPrice]
    from engine [e]: one fill of the full size at that price, the balance
    moved by the size, the outcome's tokens moved by [size / fillPrice],
    one trade recorded, nothing else touched. *)
Definition filledAt (now : Z) (e : t) (order : TradeOrder.t) (fillPrice : Q)
    (result : FillResult.t) (e' : t) : Prop :=
  result
  = FillResult.mk (TradeOrder.orderId order)
      [Fill.mk (JS.uuidv4 (uuidCount e)) (TradeOrder.orderId order) fillPrice
         (TradeOrder.size order) now]
      filled (TradeOrder.size order) fillPrice now
  /\ currentBalance e'
     = match TradeOrder.action order with
       | BUY => currentBalance e - TradeOrder.size order
       | SELL => currentBalance e + TradeOrder.size order
       end
  /\ sideTokens e' (TradeOrder.marketId order) (TradeOrder.side order)
     = match TradeOrder.action order with
       | BUY =>
           sideTokens e (TradeOrder.marketId order) (TradeOrder.side order)
           + TradeOrder.size order / fillPrice
       | SELL =>
           soldDown
             (sideTokens e (TradeOrder.marketId order) (TradeOrder.side order))
             (TradeOrder.size order / fillPrice)
       end
  /\ sideTokens e' (TradeOrder.marketId order) (opposite (TradeOrder.side order))
     = sideTokens e (TradeOrder.marketId order) (opposite (TradeOrder.side order))
  /\ is_Some (positions e' !! TradeOrder.marketId order)
  /\ (forall other,
         other <> TradeOrder.marketId order ->
         positions e' !! other = positions e !! other)
  /\ (exists tradeId,
         tradeHistory e'
         = pushTrade
             (TradeRecord.mk tradeId (TradeOrder.orderId order)
                (TradeOrder.marketId order) (TradeOrder.conditionId order)
                (TradeOrder.side order) (TradeOrder.action order)
                (TradeOrder.size order) fillPrice filled now paper)
             (tradeHistory e))
  /\ realizedPnL e' = realizedPnL e
  /\ startingCapital e' = startingCapital e.


End FillTerms.

(** Terms of the statements over doubles. *)
Module Rounded.
Import IEEE.
Local Open Scope double_scope.

(** A number other than NaN. *)
Definition numeric (x : Double.t) : Prop := Double.isNaN x = false.

(** A number other than NaN and ±Infinity, as [Number.isFinite] has
    it. *)
Definition finite (x : Double.t) : Prop :=
  match x with
  | S754_zero _ | S754_finite _ _ _ => True
  | S754_infinity _ | S754_nan => False
  end.

(** Market "m" with the two asks given, no bid, fresh. *)
Definition quoted (yesAsk noAsk : Double.t) : MarketData.t :=
  MarketData.mk "m" "c" (OutcomePrices.mk None (Some yesAsk) 0%Z)
    (OutcomePrices.mk None (Some noAsk) 0%Z) 0%Z false.

Definition storeOf (market : MarketData.t) : MarketStore.t :=
  MarketStore.mk {[ "m"%string := market ]} 30000%Z.

(** The detector's configuration for [minProfitThreshold = 0.01] and
    [maxPositionSize = 100]: fee buffer [0.01 * 2], safety margin
    [0.01 * 0.5]. *)
Definition detectorConfig : ArbitrageConfig.t :=
  ArbitrageConfig.mk 0.01 0.02 0.005 100 1000%Z true.

(** The same for [minProfitThreshold = 0.03]: fee buffer [0.03 * 2],
    safety margin [0.03 * 0.5]. *)
Definition threePercentConfig : ArbitrageConfig.t :=
  ArbitrageConfig.mk 0.03 0.06 0.015 100 1000%Z true.

(** The opportunity that detection builds from two asks. *)
Definition opportunityAt (now : Z) (config : ArbitrageConfig.t)
    (market : MarketData.t) (yesAsk noAsk : Double.t) : ArbitrageOpportunity.t :=
  ArbitrageOpportunity.mk (MarketData.marketId market)
    (MarketData.conditionId market) yesAsk noAsk (yesAsk + noAsk)
    (1 - (yesAsk + noAsk))
    (1 - (yesAsk + noAsk) - ArbitrageConfig.feeBuffer config) market now.

(** The profit that [createExecutionPlan] compares with the threshold. *)
Definition currentProfitAfterFees (config : ArbitrageConfig.t)
    (yesAsk noAsk : Double.t) : Double.t :=
  1 - (yesAsk + noAsk) - ArbitrageConfig.feeBuffer config
  - ArbitrageConfig.safetyMargin config.

(** The size rule of [createExecutionPlan]. *)
Definition planTotalSize (config : ArbitrageConfig.t)
    (opportunity : ArbitrageOpportunity.t) : Double.t :=
  Double.min (ArbitrageConfig.maxPositionSize config)
    (ArbitrageConfig.maxPositionSize config
     * ArbitrageOpportunity.profitAfterFees opportunity
     / ArbitrageConfig.minProfitThreshold config).

(** Asks 0.071 and 0.894: their margin is at the threshold of the plan. *)
Definition thinOpportunity : ArbitrageOpportunity.t :=
  opportunityAt 0 detectorConfig (quoted 0.071 0.894) 0.071 0.894.

(** The parameters of the sizing as the code reads them: a configured
    value of 0, NaN or none gives the fallback. *)
Definition minTradeSize (config : CopyTradingConfig.t) : Double.t :=
  Double.orElse (CopyTradingConfig.minTradeSize config) 10.
Definition maxTradeSize (config : CopyTradingConfig.t) : Double.t :=
  Double.orElse (CopyTradingConfig.maxTradeSize config) 1000.
Definition minVolumeForScaling (config : CopyTradingConfig.t) : Double.t :=
  Double.orElse (CopyTradingConfig.minVolumeForScaling config) 1000.

(** The user's window; empty when none was created yet. *)
Definition windowOf (userTradeHistory : gmap string (JSMap.t Double.t))
    (userAddress : string) : JSMap.t Double.t :=
  default [] (userTradeHistory !! JS.toLowerCase userAddress).

(** V: the sizes of the window, the entry under [tradeHash] left out,
    added one after the other to 0 in the order of insertion. *)
Definition volumeExcluding (tradeHash : string) (window : JSMap.t Double.t)
  : Double.t :=
  fold_left Double.add
    (map snd
       (List.filter (fun entry => negb (String.eqb (fst entry) tradeHash))
          window))
    0.

(** A window of four trades, 489.94, 399.35, 96.81 and 13.9 dollars. *)
Definition fourTrades : JSMap.t Double.t :=
  [("0x1"%string, 489.94); ("0x2"%string, 399.35); ("0x3"%string, 96.81);
   ("0x4"%string, 13.9)].

(** A window of three trades, 646.9, 79.2 and 273.9 dollars. *)
Definition threeTrades : JSMap.t Double.t :=
  [("0x1"%string, 646.9); ("0x2"%string, 79.2); ("0x3"%string, 273.9)].

(** The history in which [window] is the window of [userAddress]. *)
Definition historyOf (userAddress : string) (window : JSMap.t Double.t)
  : gmap string (JSMap.t Double.t) :=
  {[ userAddress := window ]}.

(** A store without markets, and two limit orders to buy YES of "m": 0
    dollars at 0.4, then 10 dollars at 0.5. *)
Definition noMarkets : MarketStore.t := MarketStore.mk ∅ 30000%Z.

Definition zeroSizeBuy : TradeOrder.t :=
  TradeOrder.mk "o1" "m" "c" YES BUY 0 (Some 0.4) paper 0%Z.

Definition tenAtHalf : TradeOrder.t :=
  TradeOrder.mk "o2" "m" "c" YES BUY 10 (Some 0.5) paper 1%Z.

End Rounded.

(** * Properties *)

(** ** Comparisons and arithmetic of the number model *)

Lemma ltb_lt (x y : Q) : JS.ltb x y = true <-> (x < y)%Q.
Proof.
  unfold JS.ltb. rewrite negb_true_iff, <- not_true_iff_false, Qle_bool_iff.
  split; [apply Qnot_le_lt | apply Qlt_not_le].
Qed.

Lemma ltb_ge (x y : Q) : JS.ltb x y = false <-> (y <= x)%Q.
Proof.
  unfold JS.ltb. rewrite negb_false_iff. apply Qle_bool_iff.
Qed.

Lemma leb_le (x y : Q) : JS.leb x y = true <-> (x <= y)%Q.
Proof. apply Qle_bool_iff. Qed.

Lemma leb_gt (x y : Q) : JS.leb x y = false <-> (y < x)%Q.
Proof.
  unfold JS.leb. rewrite <- not_true_iff_false, Qle_bool_iff.
  split; [apply Qnot_le_lt | apply Qlt_not_le].
Qed.

Lemma truthy_nonzero (x : Q) : JS.truthy x = true <-> ~ (x == 0)%Q.
Proof.
  unfold JS.truthy. rewrite negb_true_iff, <- not_true_iff_false, Qeq_bool_iff.
  reflexivity.
Qed.

(** Turns the boolean tests of the sources, once they are hypotheses,
    into the order facts they decide. *)
Ltac js_tests :=
  repeat match goal with
    | H : JS.ltb _ _ = true |- _ => apply ltb_lt in H
    | H : JS.ltb _ _ = false |- _ => apply ltb_ge in H
    | H : JS.leb _ _ = true |- _ => apply leb_le in H
    | H : JS.leb _ _ = false |- _ => apply leb_gt in H
    | H : _ || _ = false |- _ => apply orb_false_iff in H; destruct H
    | H : _ && _ = true |- _ => apply andb_true_iff in H; destruct H
    end.

(** ** Comparisons of doubles *)

Section DoubleFacts.
Import Rounded.

Lemma SFcompare_antisym (x y : spec_float) :
  SFcompare y x = option_map CompOpp (SFcompare x y).
Proof.
  destruct x as [sx|sx| |sx mx ex], y as [sy|sy| |sy my ey]; cbn;
    try reflexivity;
    try (destruct sx; reflexivity); try (destruct sy; reflexivity);
    try (destruct sx, sy; reflexivity).
  destruct sx, sy; cbn; try reflexivity;
    rewrite (Z.compare_antisym ex ey);
    destruct (ex ?= ey)%Z; cbn; try reflexivity;
    change (Pos.compare_cont Eq my mx) with (Pos.compare my mx);
    change (Pos.compare_cont Eq mx my) with (Pos.compare mx my);
    rewrite (Pos.compare_antisym mx my);
    destruct (mx ?= my)%positive; reflexivity.
Qed.

Lemma SFcompare_numeric (x y : spec_float) :
  numeric x -> numeric y -> is_Some (SFcompare x y).
Proof.
  unfold numeric.
  destruct x as [sx|sx| |sx mx ex], y as [sy|sy| |sy my ey]; cbn;
    intros Hx Hy; try discriminate; eauto.
Qed.

(** Between numbers, [!(x <= y)] is [y < x] and [!(x < y)] is [y <= x]. *)
Lemma leb_false_ltb (x y : Double.t) :
  numeric x -> numeric y ->
  (Double.leb x y = false <-> Double.ltb y x = true).
Proof.
  intros Hx Hy. unfold Double.leb, Double.ltb, SFleb, SFltb.
  rewrite (SFcompare_antisym x y).
  destruct (SFcompare_numeric x y Hx Hy) as [c ->].
  destruct c; cbn; split; congruence.
Qed.

Lemma ltb_false_leb (x y : Double.t) :
  numeric x -> numeric y ->
  (Double.ltb x y = false <-> Double.leb y x = true).
Proof.
  intros Hx Hy. unfold Double.leb, Double.ltb, SFleb, SFltb.
  rewrite (SFcompare_antisym x y).
  destruct (SFcompare_numeric x y Hx Hy) as [c ->].
  destruct c; cbn; split; congruence.
Qed.

Lemma numeric_zero : numeric (Double.decimal 0 0).
Proof. reflexivity. Qed.

Lemma finite_numeric (x : Double.t) : finite x -> numeric x.
Proof. now destruct x. Qed.

(** Rounding never produces NaN: a sum or a difference is NaN only when
    an operand is, or for two infinities. *)
Lemma shr_1_nonneg mrs : (0 <= shr_m mrs -> 0 <= shr_m (shr_1 mrs))%Z.
Proof.
  destruct mrs as [m r s]. cbn.
  destruct m as [|[p|p|]|p]; cbn; lia.
Qed.

Lemma iter_shr_1_nonneg p : forall mrs,
  (0 <= shr_m mrs -> 0 <= shr_m (SpecFloat.iter_pos shr_1 p mrs))%Z.
Proof.
  induction p as [p IH|p IH|]; intros mrs H; cbn.
  - apply IH, IH, shr_1_nonneg, H.
  - apply IH, IH, H.
  - apply shr_1_nonneg, H.
Qed.

Lemma shr_fexp_nonneg m e l :
  (0 <= m -> 0 <= shr_m (shr_fexp Double.prec Double.emax m e l).1)%Z.
Proof.
  intros H. unfold shr_fexp, shr.
  assert (H0 : (0 <= shr_m (shr_record_of_loc m l))%Z)
    by (destruct l as [|[]]; exact H).
  destruct (fexp Double.prec Double.emax (Zdigits2 m + e) - e)%Z; cbn;
    try assumption.
  now apply iter_shr_1_nonneg.
Qed.

Lemma round_nearest_even_nonneg m l :
  (0 <= m -> 0 <= round_nearest_even m l)%Z.
Proof.
  intros H. destruct l as [|[]]; cbn; try lia.
  destruct (Z.even m); lia.
Qed.

Lemma binary_round_aux_numeric sx mx ex lx :
  (0 <= mx)%Z ->
  numeric (binary_round_aux Double.prec Double.emax sx mx ex lx).
Proof.
  intros H. unfold binary_round_aux.
  pose proof (shr_fexp_nonneg mx ex lx H) as H1.
  destruct (shr_fexp Double.prec Double.emax mx ex lx) as [mrs' e'].
  cbn in H1.
  pose proof (shr_fexp_nonneg _ e' loc_Exact
                (round_nearest_even_nonneg _ (loc_of_shr_record mrs') H1))
    as H2.
  destruct (shr_fexp Double.prec Double.emax _ e' loc_Exact) as [mrs'' e''].
  cbn in H2.
  destruct (shr_m mrs'') as [|m|m]; [reflexivity | | lia].
  now destruct (e'' <=? Double.emax - Double.prec)%Z.
Qed.

Lemma binary_normalize_numeric m e szero :
  numeric (binary_normalize Double.prec Double.emax m e szero).
Proof.
  destruct m as [|m|m]; [reflexivity | |];
    unfold binary_normalize, binary_round;
    destruct (shl_align _ _ _) as [mz ez];
    now apply binary_round_aux_numeric.
Qed.

Lemma add_numeric (x y : Double.t) :
  numeric x -> finite y -> numeric (Double.add x y).
Proof.
  unfold Double.add.
  destruct x as [sx|sx| |sx mx ex], y as [sy|sy| |sy my ey]; cbn;
    intros Hx Hy; try discriminate; try contradiction; try reflexivity.
  - now destruct sx, sy.
  - apply binary_normalize_numeric.
Qed.

Lemma sub_numeric (x y : Double.t) :
  numeric x -> finite y -> numeric (Double.sub x y).
Proof.
  unfold Double.sub.
  destruct x as [sx|sx| |sx mx ex], y as [sy|sy| |sy my ey]; cbn;
    intros Hx Hy; try discriminate; try contradiction; try reflexivity.
  - now destruct sx, sy.
  - apply binary_normalize_numeric.
Qed.

Lemma sub_from_finite (x y : Double.t) :
  finite x -> numeric y -> numeric (Double.sub x y).
Proof.
  unfold Double.sub.
  destruct x as [sx|sx| |sx mx ex], y as [sy|sy| |sy my ey]; cbn;
    intros Hx Hy; try discriminate; try contradiction; try reflexivity.
  - now destruct sx, sy.
  - apply binary_normalize_numeric.
Qed.

Lemma finite_one : finite (Double.decimal 1 0).
Proof. exact I. Qed.

(** The arithmetic at work: a sum that rounds, and the quotients by 0. *)
Example double_arithmetic :
  (0.1 + 0.2 = 0.30000000000000004
   /\ (0.1 + 0.2 =? 0.3) = false
   /\ 1 / 0 = Double.Infinity
   /\ 0 / 0 = Double.NaN
   /\ (Double.NaN <=? 0) = false
   /\ (0 <? Double.NaN) = false
   /\ Double.max 10 Double.NaN = Double.NaN
   /\ Double.min Double.Infinity 1000 = 1000)%double.
Proof. repeat split; vm_compute; reflexivity. Qed.

End DoubleFacts.

(** ** Arbitrage detection *)

Section Detection.
Import IEEE IEEE.ArbitrageConfig IEEE.ArbitrageDetector Rounded.
Local Open Scope double_scope.

(** C5, as stated, fails where the arithmetic rounds.  For a threshold
    of 0.03, with the fee buffer 0.06 and the safety margin 0.015 that
    the constructor derives from it, the market with asks 0.04 and 0.87
    meets the three conditions, on these very numbers as on the decimals
    they stand for: the profit after fees is the threshold.  The code
    computes [1 - 0.91] as 0.08999999999999997 and returns nothing.
    The other way round, under the threshold 0.01 of the scenario the
    market with asks 0.1 and 0.87 is returned although its profit after
    fees, taken exactly on these numbers, is below the threshold.  And in
    the scenario of asks 0.45 and 0.50 the margin and the profit after
    fees that the opportunity carries are not the numbers 0.05 and
    0.03. *)
Lemma detectArbitrage_rounds_at_threshold :
  (detectArbitrage 0 threePercentConfig (quoted 0.04 0.87) = None
   /\ (0 < Double.value 0.04 /\ 0 < Double.value 0.87
       /\ Double.value 0.04 + Double.value 0.87
          < 1 - Double.value (feeBuffer threePercentConfig)
            - Double.value (safetyMargin threePercentConfig)
       /\ Double.value (minProfitThreshold threePercentConfig)
          <= 1 - (Double.value 0.04 + Double.value 0.87)
             - Double.value (feeBuffer threePercentConfig))%Q
   /\ ((4 # 100) + (87 # 100) < 1 - (6 # 100) - (15 # 1000)
       /\ 3 # 100 <= 1 - ((4 # 100) + (87 # 100)) - (6 # 100))%Q)
  /\ ((exists opportunity,
          detectArbitrage 0 detectorConfig (quoted 0.1 0.87) = Some opportunity)
      /\ (1 - (Double.value 0.1 + Double.value 0.87)
            - Double.value (feeBuffer detectorConfig)
          < Double.value (minProfitThreshold detectorConfig))%Q)
  /\ (exists opportunity,
         detectArbitrage 0 detectorConfig (quoted 0.45 0.5) = Some opportunity /\
         ArbitrageOpportunity.profitMargin opportunity <> 0.05 /\
         ArbitrageOpportunity.profitAfterFees opportunity <> 0.03 /\
         ~ (Double.value (ArbitrageOpportunity.profitMargin opportunity)
            == 5 # 100)%Q /\
         ~ (Double.value (ArbitrageOpportunity.profitAfterFees opportunity)
            == 3 # 100)%Q).
Proof.
  split.
  { split; [vm_compute; reflexivity|].
    split; repeat split; vm_compute; first [reflexivity | discriminate]. }
  split.
  { split; [eexists; vm_compute; reflexivity | vm_compute; reflexivity]. }
  eexists. split; [vm_compute; reflexivity|].
  repeat split; vm_compute; discriminate.
Qed.

(** C5, amended.  With every sum and difference rounded to the nearest
    double, as the code computes them: [detectArbitrage] returns an
    opportunity exactly when both asks are present, neither is [<= 0],
    [1 - feeBuffer - safetyMargin] is not [<= yesAsk + noAsk] and
    [(1 - (yesAsk + noAsk)) - feeBuffer] is not [< minProfitThreshold];
    for finite asks, fee buffer and safety margin and a threshold other
    than NaN this is: both asks above 0, their sum below
    [1 - feeBuffer - safetyMargin] and the profit after fees at least
    [minProfitThreshold].  The opportunity carries
    [totalCost = yesAsk + noAsk], [profitMargin = 1 - totalCost] and
    [profitAfterFees = profitMargin - feeBuffer].  With asks 0.45 and
    0.50, fee buffer 0.02, safety margin 0.005 and threshold 0.01 an
    opportunity is found; its margin is 0.050000000000000044 and its
    profit after fees 0.030000000000000044, within 10^-16 of 0.05 and
    0.03. *)
Theorem detectArbitrage_in_doubles :
  (forall (now : Z) (config : ArbitrageConfig.t) (market : MarketData.t)
          (opportunity : ArbitrageOpportunity.t),
      detectArbitrage now config market = Some opportunity <->
      exists yesAsk noAsk,
        OutcomePrices.ask (MarketData.yesPrices market) = Some yesAsk /\
        OutcomePrices.ask (MarketData.noPrices market) = Some noAsk /\
        (yesAsk <=? 0) = false /\ (noAsk <=? 0) = false /\
        (1 - feeBuffer config - safetyMargin config <=? yesAsk + noAsk) = false /\
        (1 - (yesAsk + noAsk) - feeBuffer config <? minProfitThreshold config)
        = false /\
        opportunity = opportunityAt now config market yesAsk noAsk)
  /\ (forall (now : Z) (config : ArbitrageConfig.t) (market : MarketData.t)
             (opportunity : ArbitrageOpportunity.t) (yesAsk noAsk : Double.t),
         OutcomePrices.ask (MarketData.yesPrices market) = Some yesAsk ->
         OutcomePrices.ask (MarketData.noPrices market) = Some noAsk ->
         finite yesAsk -> finite noAsk ->
         finite (feeBuffer config) -> finite (safetyMargin config) ->
         numeric (minProfitThreshold config) ->
         (detectArbitrage now config market = Some opportunity <->
          (0 <? yesAsk) = true /\ (0 <? noAsk) = true /\
          (yesAsk + noAsk <? 1 - feeBuffer config - safetyMargin config) = true /\
          (minProfitThreshold config <=? 1 - (yesAsk + noAsk) - feeBuffer config)
          = true /\
          ArbitrageOpportunity.yesAsk opportunity = yesAsk /\
          ArbitrageOpportunity.noAsk opportunity = noAsk /\
          ArbitrageOpportunity.totalCost opportunity = yesAsk + noAsk /\
          ArbitrageOpportunity.profitMargin opportunity
          = 1 - ArbitrageOpportunity.totalCost opportunity /\
          ArbitrageOpportunity.profitAfterFees opportunity
          = ArbitrageOpportunity.profitMargin opportunity - feeBuffer config /\
          ArbitrageOpportunity.marketId opportunity
          = MarketData.marketId market /\
          ArbitrageOpportunity.conditionId opportunity
          = MarketData.conditionId market /\
          ArbitrageOpportunity.marketData opportunity = market /\
          ArbitrageOpportunity.timestamp opportunity = now))
  /\ (exists opportunity,
         detectArbitrage 0 detectorConfig (quoted 0.45 0.5) = Some opportunity /\
         ArbitrageOpportunity.totalCost opportunity = 0.95 /\
         ArbitrageOpportunity.profitMargin opportunity = 0.050000000000000044 /\
         ArbitrageOpportunity.profitAfterFees opportunity
         = 0.030000000000000044 /\
         (Qabs (Double.value (ArbitrageOpportunity.profitMargin opportunity)
                - (5 # 100)) < 1 # 10 ^ 16)%Q /\
         (Qabs (Double.value (ArbitrageOpportunity.profitAfterFees opportunity)
                - (3 # 100)) < 1 # 10 ^ 16)%Q).
Proof.
  assert (Hcode : forall now config market opportunity,
      detectArbitrage now config market = Some opportunity <->
      exists yesAsk noAsk,
        OutcomePrices.ask (MarketData.yesPrices market) = Some yesAsk /\
        OutcomePrices.ask (MarketData.noPrices market) = Some noAsk /\
        (yesAsk <=? 0) = false /\ (noAsk <=? 0) = false /\
        (1 - feeBuffer config - safetyMargin config <=? yesAsk + noAsk) = false /\
        (1 - (yesAsk + noAsk) - feeBuffer config <? minProfitThreshold config)
        = false /\
        opportunity = opportunityAt now config market yesAsk noAsk).
  { intros now config market opportunity. unfold detectArbitrage.
    destruct (OutcomePrices.ask (MarketData.yesPrices market)) as [y|];
      [destruct (OutcomePrices.ask (MarketData.noPrices market)) as [n|]|].
    - destruct (y <=? 0) eqn:Hy0; cbn [orb].
      { split; [discriminate|].
        intros (y' & n' & [= <-] & _ & Hy & _). congruence. }
      destruct (n <=? 0) eqn:Hn0.
      { split; [discriminate|].
        intros (y' & n' & _ & [= <-] & _ & Hn & _). congruence. }
      destruct (1 - feeBuffer config - safetyMargin config <=? y + n) eqn:Hreq.
      { split; [discriminate|].
        intros (y' & n' & [= <-] & [= <-] & _ & _ & H & _). congruence. }
      destruct (1 - (y + n) - feeBuffer config <? minProfitThreshold config)
        eqn:Hmin.
      { split; [discriminate|].
        intros (y' & n' & [= <-] & [= <-] & _ & _ & _ & H & _). congruence. }
      split.
      + intros [= <-]. exists y, n. repeat split; assumption.
      + intros (y' & n' & [= <-] & [= <-] & _ & _ & _ & _ & ->). reflexivity.
    - split; [discriminate|]. intros (y' & n' & _ & [=] & _).
    - split; [discriminate|]. intros (y' & n' & [=] & _). }
  split; [exact Hcode|]. split.
  - intros now config market opportunity yesAsk noAsk Hy Hn Fy Fn Ff Fs Nm.
    pose proof (finite_numeric _ Fy) as Ny.
    pose proof (finite_numeric _ Fn) as Nn.
    pose proof (add_numeric _ _ Ny Fn) as Nt.
    pose proof (sub_numeric _ _
                  (sub_numeric _ _ (finite_numeric _ finite_one) Ff) Fs) as Nr.
    pose proof (sub_numeric _ _ (sub_from_finite _ _ finite_one Nt) Ff) as Np.
    rewrite Hcode. split.
    + intros (y & n & Hy' & Hn' & Hy0 & Hn0 & Hreq & Hmin & ->).
      rewrite Hy in Hy'. rewrite Hn in Hn'.
      injection Hy' as <-. injection Hn' as <-.
      apply (leb_false_ltb _ _ Ny numeric_zero) in Hy0.
      apply (leb_false_ltb _ _ Nn numeric_zero) in Hn0.
      apply (leb_false_ltb _ _ Nr Nt) in Hreq.
      apply (ltb_false_leb _ _ Np Nm) in Hmin.
      cbn. repeat split; assumption.
    + intros (Hy0 & Hn0 & Hreq & Hmin & H1 & H2 & H3 & H4 & H5 & H6 & H7 & H8
              & H9).
      exists yesAsk, noAsk.
      apply (leb_false_ltb _ _ Ny numeric_zero) in Hy0.
      apply (leb_false_ltb _ _ Nn numeric_zero) in Hn0.
      apply (leb_false_ltb _ _ Nr Nt) in Hreq.
      apply (ltb_false_leb _ _ Np Nm) in Hmin.
      repeat split; try assumption.
      destruct opportunity; cbn in *; subst. reflexivity.
  - eexists. split; [vm_compute; reflexivity|].
    repeat split; vm_compute; reflexivity.
Qed.

(** The detection scenario, decided by the tests in their positive
    form. *)
Lemma detectArbitrage_in_doubles_scenario :
  detectArbitrage 0 detectorConfig (quoted 0.45 0.5)
  = Some (opportunityAt 0 detectorConfig (quoted 0.45 0.5) 0.45 0.5).
Proof.
  destruct detectArbitrage_in_doubles as (_ & Hnumbers & _).
  apply (Hnumbers 0%Z detectorConfig (quoted 0.45 0.5)
           (opportunityAt 0 detectorConfig (quoted 0.45 0.5) 0.45 0.5)
           0.45 0.5);
    try reflexivity; try exact I.
  repeat split; vm_compute; reflexivity.
Defined.

(** At asks 0.04 and 0.93 the sum rounds up and nothing is returned. *)
Example detectArbitrage_sum_rounds_up :
  detectArbitrage 0 detectorConfig (quoted 0.04 0.93) = None.
Proof. vm_compute. reflexivity. Qed.

End Detection.

(** ** Execution plans *)

Section Plans.
Import ArbitrageConfig ArbitrageDetector.
Local Open Scope Q_scope.

Lemma getMarket_present (now : Z) (store : MarketStore.t) (id : string)
    (market : MarketData.t) :
  MarketStore.markets store !! id = Some market ->
  exists market',
    (MarketStore.getMarket now store id).1 = Some market' /\
    MarketData.yesPrices market' = MarketData.yesPrices market /\
    MarketData.noPrices market' = MarketData.noPrices market /\
    MarketData.marketId market' = MarketData.marketId market /\
    MarketData.conditionId market' = MarketData.conditionId market.
Proof.
  intros H. unfold MarketStore.getMarket. rewrite H. cbn. eauto 10.
Qed.

Lemma getMarket_absent (now : Z) (store : MarketStore.t) (id : string) :
  MarketStore.markets store !! id = None ->
  MarketStore.getMarket now store id = (None, store).
Proof. intros H. unfold MarketStore.getMarket. now rewrite H. Qed.

(** C1, as stated, fails: the opportunity below is returned by
    [detectArbitrage], its market is still in the store with the same two
    asks, the profit after fees as detection defines it (1/16) reaches the
    threshold (1/16), and yet no plan is returned. *)
Lemma createExecutionPlan_not_detection_profit :
  exists opportunity,
    detectArbitrage 0 tightConfig tightMarket = Some opportunity /\
    MarketStore.markets tightStore !! ArbitrageOpportunity.marketId opportunity
    = Some tightMarket /\
    OutcomePrices.ask (MarketData.yesPrices tightMarket) = Some (1 # 2) /\
    OutcomePrices.ask (MarketData.noPrices tightMarket) = Some (5 # 16) /\
    minProfitThreshold tightConfig
    <= 1 - ((1 # 2) + (5 # 16)) - feeBuffer tightConfig /\
    (createExecutionPlan 0 tightConfig tightStore opportunity).1 = None.
Proof.
  eexists. split; [vm_compute; reflexivity|].
  repeat split; try reflexivity.
  vm_compute. discriminate.
Qed.

End Plans.

Section RoundedPlans.
Import IEEE IEEE.ArbitrageConfig IEEE.ArbitrageDetector Rounded.
Local Open Scope double_scope.

(** C1, amended.  With every operation rounded to the nearest double, as
    the code computes them: for an opportunity whose market is in the
    store with both asks present, [createExecutionPlan] returns a plan
    exactly when [1 - (yesAsk + noAsk) - feeBuffer - safetyMargin] (the
    safety margin is subtracted too) is not [< minProfitThreshold],
    which for finite asks, fee buffer and safety margin and a threshold
    other than NaN is: at least [minProfitThreshold].
    The plan has [yesSize = noSize = totalSize / 2] for
    [totalSize = min(maxPositionSize,
                     maxPositionSize * profitAfterFees / minProfitThreshold)],
    its total cost is [yesSize + noSize], its expected profit that cost
    times the current profit, and its prices are the current asks. *)
Theorem createExecutionPlan_in_doubles (now : Z) (config : ArbitrageConfig.t)
    (store : MarketStore.t) (opportunity : ArbitrageOpportunity.t)
    (market : MarketData.t) (yesAsk noAsk : Double.t) :
  MarketStore.markets store !! ArbitrageOpportunity.marketId opportunity
  = Some market ->
  OutcomePrices.ask (MarketData.yesPrices market) = Some yesAsk ->
  OutcomePrices.ask (MarketData.noPrices market) = Some noAsk ->
  (is_Some (createExecutionPlan now config store opportunity).1 <->
   (currentProfitAfterFees config yesAsk noAsk <? minProfitThreshold config)
   = false)
  /\ (finite yesAsk -> finite noAsk ->
      finite (feeBuffer config) -> finite (safetyMargin config) ->
      numeric (minProfitThreshold config) ->
      (is_Some (createExecutionPlan now config store opportunity).1 <->
       (minProfitThreshold config <=? currentProfitAfterFees config yesAsk noAsk)
       = true))
  /\ (forall plan,
        (createExecutionPlan now config store opportunity).1 = Some plan ->
        ExecutionPlan.yesSize plan = planTotalSize config opportunity / 2 /\
        ExecutionPlan.noSize plan = planTotalSize config opportunity / 2 /\
        ExecutionPlan.totalCost plan
        = ExecutionPlan.yesSize plan + ExecutionPlan.noSize plan /\
        ExecutionPlan.expectedProfit plan
        = ExecutionPlan.totalCost plan
          * currentProfitAfterFees config yesAsk noAsk /\
        ExecutionPlan.yesPrice plan = yesAsk /\
        ExecutionPlan.noPrice plan = noAsk /\
        ExecutionPlan.marketId plan = ArbitrageOpportunity.marketId opportunity /\
        ExecutionPlan.conditionId plan
        = ArbitrageOpportunity.conditionId opportunity /\
        ExecutionPlan.timestamp plan = now).
Proof.
  intros Hm Hy Hn.
  assert (Hcode :
    is_Some (createExecutionPlan now config store opportunity).1 <->
    (currentProfitAfterFees config yesAsk noAsk <? minProfitThreshold config)
    = false).
  { unfold createExecutionPlan, MarketStore.getMarket. rewrite Hm. cbn.
    rewrite Hy, Hn. fold (currentProfitAfterFees config yesAsk noAsk).
    destruct (currentProfitAfterFees config yesAsk noAsk
              <? minProfitThreshold config); cbn.
    - split; [intros [? [=]] | discriminate].
    - split; [reflexivity | eauto]. }
  split; [exact Hcode|]. split.
  - intros Fy Fn Ff Fs Nm. rewrite Hcode.
    apply ltb_false_leb; [|exact Nm].
    unfold currentProfitAfterFees.
    apply sub_numeric; [|exact Fs]. apply sub_numeric; [|exact Ff].
    apply sub_from_finite; [exact finite_one|].
    apply add_numeric; [apply finite_numeric, Fy | exact Fn].
  - intros plan. unfold createExecutionPlan, MarketStore.getMarket.
    rewrite Hm. cbn. rewrite Hy, Hn.
    fold (currentProfitAfterFees config yesAsk noAsk).
    fold (planTotalSize config opportunity).
    destruct (currentProfitAfterFees config yesAsk noAsk
              <? minProfitThreshold config); cbn; [discriminate|].
    intros [= <-]. cbn. repeat split; reflexivity.
Qed.

(** At asks 0.071 and 0.894 a plan is returned: the profit as the code
    rounds it reaches the threshold, while the same expression taken
    exactly on these numbers is below it. *)
Lemma createExecutionPlan_in_doubles_thin :
  is_Some (createExecutionPlan 0 detectorConfig (storeOf (quoted 0.071 0.894))
             thinOpportunity).1
  /\ (1 - (Double.value 0.071 + Double.value 0.894)
        - Double.value (feeBuffer detectorConfig)
        - Double.value (safetyMargin detectorConfig)
      < Double.value (minProfitThreshold detectorConfig))%Q.
Proof.
  split; [|vm_compute; reflexivity].
  destruct (createExecutionPlan_in_doubles 0 detectorConfig
              (storeOf (quoted 0.071 0.894)) thinOpportunity
              (quoted 0.071 0.894) 0.071 0.894)
    as (Hplan & _); [reflexivity | reflexivity | reflexivity |].
  apply Hplan. vm_compute. reflexivity.
Defined.

(** With [minProfitThreshold = 0] the quotient of the size rule is
    +Infinity and the plan has the full size: 50 dollars a side. *)
Example createExecutionPlan_zero_threshold :
  exists plan,
    (createExecutionPlan 0 (ArbitrageConfig.mk 0 0.02 0.005 100 1000%Z true)
       (storeOf (quoted 0.45 0.5))
       (opportunityAt 0 detectorConfig (quoted 0.45 0.5) 0.45 0.5)).1
    = Some plan /\
    ExecutionPlan.yesSize plan = 50 /\
    ExecutionPlan.noSize plan = 50 /\
    ExecutionPlan.totalCost plan = 100.
Proof. eexists. split; [vm_compute; reflexivity|]. repeat split. Qed.

End RoundedPlans.

(** ** The market store *)

Section Store.
Import MarketStore.
Local Open Scope Q_scope.

Lemma extractBestBid_firstLevel (bids : list OrderBookLevel.t) :
  extractBestBid bids = firstLevel bids.
Proof.
  destruct bids as [|level rest]; cbn; [reflexivity|].
  now destruct (JS.parseFloat _).
Qed.

Lemma extractBestAsk_firstLevel (asks : list OrderBookLevel.t) :
  extractBestAsk asks = firstLevel asks.
Proof.
  destruct asks as [|level rest]; cbn; [reflexivity|].
  now destruct (JS.parseFloat _).
Qed.

(** C3, as stated, fails: after one [updateOrderBook] call the store holds
    a bid of 1.5, which is above 1, and an ask of 0, which is not above
    0. *)
Lemma updateOrderBook_keeps_any_parsed_price :
  exists market,
    markets (updateAll (MarketStore.mk ∅ 30000%Z) [(0%Z, wideUpdate)]) !! "m"%string
    = Some market /\
    OutcomePrices.bid (MarketData.yesPrices market) = Some (3 # 2) /\
    OutcomePrices.ask (MarketData.yesPrices market) = Some 0 /\
    1 < 3 # 2 /\ ~ 0 < 0.
Proof.
  eexists. split; [vm_compute; reflexivity|]. cbn.
  repeat split; try reflexivity. intros H. discriminate H.
Qed.

End Store.

(** ** The paper execution engine: acceptance and rejection *)

Section Rejection.
Import PaperExecutionEngine.
Local Open Scope Q_scope.

Lemma pricesOf_getMarket now store id market side :
  MarketStore.markets store !! id = Some market ->
  exists market',
    (MarketStore.getMarket now store id).1 = Some market' /\
    pricesOf side market' = pricesOf side market.
Proof.
  intros H. unfold MarketStore.getMarket. rewrite H. cbn.
  eexists. split; [reflexivity|]. now destruct side.
Qed.

(** [executeTrade] on a paper order, in terms of the resolved price. *)
Lemma executeTrade_paper now store e order :
  TradeOrder.mode order = paper ->
  executeTrade now store e order
  = JS.Return
      match resolvedFillPrice store order with
      | None => (rejectedResult now order, e)
      | Some fillPrice =>
          if Qeq_bool fillPrice 0 || JS.leb fillPrice 0 || JS.ltb 1 fillPrice
          then (rejectedResult now order, e)
          else if match TradeOrder.action order with
                  | BUY => JS.ltb (currentBalance e) (TradeOrder.size order)
                  | SELL => false
                  end
               then (rejectedResult now order, e)
               else settle now store e order fillPrice
      end.
Proof.
  intros Hmode. unfold executeTrade. rewrite Hmode.
  assert (Hmarket :
    match (MarketStore.getMarket now store (TradeOrder.marketId order)).1 with
    | Some market =>
        match TradeOrder.action order with
        | BUY => Some (JS.orElse (OutcomePrices.ask (pricesOf (TradeOrder.side order) market)) 0)
        | SELL => Some (JS.orElse (OutcomePrices.bid (pricesOf (TradeOrder.side order) market)) 0)
        end
    | None => None
    end
    = bestQuote order <$> MarketStore.markets store !! TradeOrder.marketId order).
  { destruct (MarketStore.markets store !! TradeOrder.marketId order)
      as [market|] eqn:Hm.
    - destruct (pricesOf_getMarket now store _ market (TradeOrder.side order) Hm)
        as (market' & -> & Hp).
      cbn. unfold bestQuote. rewrite Hp. now destruct (TradeOrder.action order).
    - now rewrite (getMarket_absent now store _ Hm). }
  unfold resolvedFillPrice, explicitPrice.
  destruct (TradeOrder.price order) as [price|];
    [destruct (JS.truthy price)|]; cbn zeta; rewrite ?Hmarket;
    repeat match goal with
      | |- context [match ?x with _ => _ end] => destruct x
      end; reflexivity.
Qed.

Lemma settle_filled now store e order fillPrice :
  FillResult.status (settle now store e order fillPrice).1 = filled.
Proof. reflexivity. Qed.

Lemma settle_filledAt now store e order fillPrice :
  filledAt now e order fillPrice (settle now store e order fillPrice).1
    (settle now store e order fillPrice).2.
Proof.
  unfold filledAt, sideTokens, soldDown, settle, updatePosition. cbn.
  destruct (positions e !! TradeOrder.marketId order) as [position|];
    destruct (TradeOrder.side order), (TradeOrder.action order); cbn;
    repeat match goal with
      | |- context [if JS.leb ?x ?y then _ else _] => destruct (JS.leb x y)
      end; cbn;
    rewrite lookup_insert_eq; cbn;
    unfold updatePositionPnL;
    destruct (MarketStore.getMarket _ _ _).1; cbn;
    repeat split; eauto;
    intros other Hother; now apply lookup_insert_ne.
Qed.


End Rejection.

(** ** Selling without tokens *)

Section Sells.
Import PaperExecutionEngine.
Local Open Scope Q_scope.

Lemma updatePositionPnL_holdings now store position :
  holdings (updatePositionPnL now store position) = holdings position.
Proof.
  unfold updatePositionPnL. now destruct (MarketStore.getMarket _ _ _).1.
Qed.

Lemma updatePositionPnL_tokens now store side position :
  Position.tokens side (updatePositionPnL now store position)
  = Position.tokens side position.
Proof.
  unfold updatePositionPnL.
  now destruct (MarketStore.getMarket _ _ _).1, side.
Qed.

Lemma getPosition_holdings now store e marketId :
  holdings <$> positions (getPosition now store e marketId).2
  = holdings <$> positions e.
Proof.
  unfold getPosition.
  destruct (positions e !! marketId) as [position|] eqn:Hp; [|reflexivity].
  cbn. apply map_eq. intros id. rewrite !lookup_fmap.
  destruct (decide (marketId = id)) as [<- | Hne].
  - rewrite lookup_insert_eq, Hp. cbn.
    now rewrite updatePositionPnL_holdings.
  - now rewrite lookup_insert_ne.
Qed.

(** C2, as stated, fails: the position holds no YES tokens, and the SELL
    of YES is filled, the balance is credited and a trade is recorded. *)
Lemma executeTrade_sells_without_tokens :
  exists result e',
    Position.tokens YES <$> positions noYesEngine !! "m"%string = Some 0 /\
    executeTrade 0 emptyStore noYesEngine sellYes = JS.Return (result, e') /\
    FillResult.status result = filled /\
    currentBalance noYesEngine == 96 /\
    currentBalance e' == 106 /\
    length (tradeHistory noYesEngine) = 0%nat /\
    length (tradeHistory e') = 1%nat.
Proof.
  eexists _, _. split; [reflexivity|].
  split; [vm_compute; reflexivity|].
  repeat split.
Qed.

Lemma divide_positive copySize price :
  positiveQuotient copySize price ->
  forall available, available == 0 ->
  JS.ltbQuotient available (JS.divide copySize price) = true.
Proof.
  intros Hpositive available Hzero. unfold JS.divide.
  destruct (Qeq_bool price 0) eqn:Hprice.
  - apply Qeq_bool_iff in Hprice.
    assert (Hsize : JS.ltb 0 copySize = true)
      by (apply ltb_lt; destruct Hpositive as [[H _] | [_ H]]; lra).
    now rewrite Hsize.
  - apply Qeq_bool_neq in Hprice. cbn. apply ltb_lt. rewrite Hzero.
    destruct Hpositive as [[Hs Hp] | [Hs Hp]].
    + apply Qlt_shift_div_l; lra.
    + assert (Hsame : copySize / price == (- copySize) / (- price))
        by (field; lra).
      rewrite Hsame. apply Qlt_shift_div_l; lra.
Qed.

(** C2, amended.  [executeTrade] checks no holdings: a paper SELL of a
    size that is not negative, at a price in (0, 1], on an outcome of
    which no token is held, is filled; the balance is credited with the
    size, the token count stays 0 and the trade is recorded.  The
    rejection is the guard of [executeCopyTrade]: the copy of a SELL on
    an outcome for which there is no position, or of which the position
    holds no token while [copySize / price] is above 0 (Infinity at
    price 0 included), is not executed; [executionError] says why, and
    the balance, the trade history, the realized PnL and what every
    position holds are unchanged (the read refreshes only the current
    prices cached in the position). *)
Theorem sell_without_tokens :
  (forall (now : Z) (store : MarketStore.t) (e : PaperExecutionEngine.t)
          (order : TradeOrder.t) (fillPrice : Q),
      TradeOrder.mode order = paper ->
      TradeOrder.action order = SELL ->
      resolvedFillPrice store order = Some fillPrice ->
      0 < fillPrice <= 1 ->
      0 <= TradeOrder.size order ->
      sideTokens e (TradeOrder.marketId order) (TradeOrder.side order) == 0 ->
      exists result e',
        executeTrade now store e order = JS.Return (result, e') /\
        FillResult.status result = filled /\
        FillResult.totalFilled result = TradeOrder.size order /\
        currentBalance e' = currentBalance e + TradeOrder.size order /\
        sideTokens e' (TradeOrder.marketId order) (TradeOrder.side order) = 0 /\
        exists tradeId,
          tradeHistory e'
          = pushTrade
              (TradeRecord.mk tradeId (TradeOrder.orderId order)
                 (TradeOrder.marketId order) (TradeOrder.conditionId order)
                 (TradeOrder.side order) SELL (TradeOrder.size order) fillPrice
                 filled now paper)
              (tradeHistory e))
  /\ (forall (now : Z) (store : MarketStore.t) (engine : PaperExecutionEngine.t)
             (detectedTrade : DetectedTrade.t) (copySize : Q),
         PolymarketTrade.side (DetectedTrade.trade detectedTrade) = SELL ->
         (forall position,
             positions engine
               !! PolymarketTrade.conditionId (DetectedTrade.trade detectedTrade)
             = Some position ->
             Position.tokens (copySide (DetectedTrade.trade detectedTrade))
               position
             == 0
             /\ positiveQuotient copySize
                  (PolymarketTrade.price (DetectedTrade.trade detectedTrade))) ->
         exists detectedTrade' engine' message,
           CopyTradingService.executeCopyTrade now store engine detectedTrade
             copySize
           = (detectedTrade', engine') /\
           DetectedTrade.executionError detectedTrade' = Some message /\
           DetectedTrade.executed detectedTrade'
           = DetectedTrade.executed detectedTrade /\
           match positions engine
                   !! PolymarketTrade.conditionId
                        (DetectedTrade.trade detectedTrade) with
           | None => message = "No position exists to sell"%string
           | Some _ => describesShortfall message
           end /\
           currentBalance engine' = currentBalance engine /\
           tradeHistory engine' = tradeHistory engine /\
           realizedPnL engine' = realizedPnL engine /\
           holdings <$> positions engine' = holdings <$> positions engine).
Proof.
  split.
  - intros now store e order fillPrice Hmode Hsell Hres [Hlow Hhigh] Hsize Hnone.
    rewrite (executeTrade_paper now store e order Hmode), Hres, Hsell.
    assert (Hz : Qeq_bool fillPrice 0 = false).
    { apply not_true_iff_false. rewrite Qeq_bool_iff. lra. }
    assert (Hl : JS.leb fillPrice 0 = false) by (apply leb_gt; lra).
    assert (Hg : JS.ltb 1 fillPrice = false) by (apply ltb_ge; lra).
    rewrite Hz, Hl, Hg. cbn [orb]. clear Hz Hl Hg.
    destruct (settle_filledAt now store e order fillPrice)
      as (Hresult & Hbalance & Htokens & _ & _ & _ & Hhistory & _).
    destruct (settle now store e order fillPrice) as [result e'].
    cbn [fst snd] in *. exists result, e'. split; [reflexivity|].
    rewrite Hsell in Hbalance, Htokens, Hhistory.
    split; [now rewrite Hresult|]. split; [now rewrite Hresult|].
    split; [exact Hbalance|]. split; [|exact Hhistory].
    rewrite Htokens. unfold soldDown.
    assert (Hsold : 0 <= TradeOrder.size order / fillPrice)
      by (apply Qle_shift_div_l; lra).
    destruct (JS.leb _ _) eqn:Hleb; [reflexivity|].
    apply leb_gt in Hleb. lra.
  - intros now store engine detectedTrade copySize Hsell Hzero.
    pose proof (getPosition_holdings now store engine
                  (PolymarketTrade.conditionId
                     (DetectedTrade.trade detectedTrade)))
      as Hhold.
    unfold CopyTradingService.executeCopyTrade. rewrite Hsell.
    fold (copySide (DetectedTrade.trade detectedTrade)).
    unfold getPosition in *.
    destruct (positions engine
                !! PolymarketTrade.conditionId
                     (DetectedTrade.trade detectedTrade))
      as [position|] eqn:Hp.
    + destruct (Hzero position eq_refl) as [Hnone Hpositive].
      rewrite updatePositionPnL_tokens.
      rewrite (divide_positive _ _ Hpositive _ Hnone).
      eexists _, _, _. split; [reflexivity|]. cbn.
      split; [reflexivity|]. split; [reflexivity|].
      split; [eexists _, _; reflexivity|].
      repeat split. exact Hhold.
    + eexists _, _, _. split; [reflexivity|]. cbn. repeat split.
Qed.

Lemma sell_without_tokens_noYes :
  (exists result e',
      executeTrade 0 emptyStore noYesEngine sellYes = JS.Return (result, e') /\
      FillResult.status result = filled /\
      currentBalance e' = currentBalance noYesEngine + 10 /\
      sideTokens e' "m" YES = 0)
  /\ (exists detectedTrade' engine',
         CopyTradingService.executeCopyTrade 0 emptyStore noYesEngine sellCopy 10
         = (detectedTrade', engine') /\
         DetectedTrade.executionError detectedTrade'
         = Some "Insufficient tokens to sell (have: 0.0000, need: 20.0000)"%string /\
         currentBalance engine' = currentBalance noYesEngine /\
         tradeHistory engine' = tradeHistory noYesEngine)
  /\ (exists detectedTrade' engine',
         CopyTradingService.executeCopyTrade 0 emptyStore noYesEngine
           sellCopyAtZero 10
         = (detectedTrade', engine') /\
         DetectedTrade.executionError detectedTrade'
         = Some "Insufficient tokens to sell (have: 0.0000, need: Infinity)"%string /\
         currentBalance engine' = currentBalance noYesEngine /\
         tradeHistory engine' = tradeHistory noYesEngine).
Proof.
  destruct sell_without_tokens as [Htrade Hguard]. split; [|split].
  - destruct (Htrade 0%Z emptyStore noYesEngine sellYes (1 # 2))
      as (result & e' & Hrun & Hfilled & _ & Hbalance & Htokens & _);
      try reflexivity; try (split; [reflexivity | discriminate]);
      try discriminate.
    exists result, e'. auto.
  - destruct (Hguard 0%Z emptyStore noYesEngine sellCopy 10)
      as (d & e' & message & Hrun & Herr & _ & _ & Hbal & Hhist & _).
    + reflexivity.
    + intros position H. vm_compute in H. injection H as <-.
      split; [reflexivity|]. left. split; [reflexivity | discriminate].
    + exists d, e'. split; [exact Hrun|].
      split; [|split; assumption].
      vm_compute in Hrun. injection Hrun as <- _. reflexivity.
  - destruct (Hguard 0%Z emptyStore noYesEngine sellCopyAtZero 10)
      as (d & e' & message & Hrun & Herr & _ & _ & Hbal & Hhist & _).
    + reflexivity.
    + intros position H. vm_compute in H. injection H as <-.
      split; [reflexivity|]. left. split; [reflexivity | discriminate].
    + exists d, e'. split; [exact Hrun|].
      split; [|split; assumption].
      vm_compute in Hrun. injection Hrun as <- _. reflexivity.
Defined.

End Sells.

(** ** Redemption *)

Section Redemption.
Import PaperExecutionEngine.
Local Open Scope Q_scope.

Lemma orElse_number (x : Q) : JS.orElse (Some x) 0 == x.
Proof.
  unfold JS.orElse. destruct (JS.truthy x) eqn:H; [reflexivity|].
  unfold JS.truthy in H. apply negb_false_iff, Qeq_bool_iff in H.
  now rewrite H.
Qed.

Lemma sliceLast_all {A} (n : nat) (l : list A) :
  (length l <= n)%nat -> JS.sliceLast n l = l.
Proof.
  intros H. unfold JS.sliceLast.
  replace (length l - n)%nat with 0%nat by lia. reflexivity.
Qed.

Lemma pushTrade_capped trade history :
  pushTrade trade history = JS.sliceLast 1000 (history ++ [trade]).
Proof.
  unfold pushTrade.
  destruct (1000 <? length (history ++ [trade]))%nat eqn:H; [reflexivity|].
  apply Nat.ltb_ge in H. now rewrite sliceLast_all.
Qed.

Lemma sliceLast_last {A} (n : nat) (l : list A) (x : A) :
  (0 < n)%nat -> last (JS.sliceLast n (l ++ [x])) = Some x.
Proof.
  intros Hn. unfold JS.sliceLast. rewrite length_app. cbn.
  rewrite drop_app_le by lia. apply last_snoc.
Qed.

(** C7.  Redemption of an existing position credits the balance with the
    winning tokens at $1, adds to the realized PnL the sum over both legs
    of [tokens * (settlementValue - entryPrice)] with settlement value 1
    for the winner and 0 for the loser, appends one trade record (a SELL
    of the winning side at price 1, filled; the history keeps its last
    1000 entries) and deletes the position. *)
Theorem redeemPosition_settles (now : Z) (e : PaperExecutionEngine.t)
    (marketId : string) (winningOutcome : nat) (position : Position.t) :
  positions e !! marketId = Some position ->
  currentBalance (redeemPosition now e marketId winningOutcome)
  == currentBalance e + Position.tokens (winner winningOutcome) position * 1
  /\ realizedPnL (redeemPosition now e marketId winningOutcome)
     == realizedPnL e
        + (Position.tokens (winner winningOutcome) position
           * (1 - Position.entryPrice (winner winningOutcome) position)
           + Position.tokens (opposite (winner winningOutcome)) position
             * (0 - Position.entryPrice (opposite (winner winningOutcome)) position))
  /\ (exists record,
         tradeHistory (redeemPosition now e marketId winningOutcome)
         = JS.sliceLast 1000 (tradeHistory e ++ [record]) /\
         last (tradeHistory (redeemPosition now e marketId winningOutcome))
         = Some record /\
         TradeRecord.marketId record = marketId /\
         TradeRecord.side record = winner winningOutcome /\
         TradeRecord.action record = SELL /\
         TradeRecord.size record
         == Position.tokens (winner winningOutcome) position * 1 /\
         TradeRecord.price record = 1 /\
         TradeRecord.status record = filled)
  /\ positions (redeemPosition now e marketId winningOutcome)
     = delete marketId (positions e).
Proof.
  intros Hp. unfold redeemPosition, winner. rewrite Hp.
  pose proof (orElse_number (Position.yesTokens position)) as Hy.
  pose proof (orElse_number (Position.noTokens position)) as Hn.
  destruct (winningOutcome =? 0)%nat; cbn;
    rewrite ?Hy, ?Hn;
    (split; [reflexivity|]); (split; [reflexivity|]);
    (split; [|reflexivity]);
    eexists; rewrite pushTrade_capped;
    (split; [reflexivity|]);
    (split; [apply sliceLast_last; lia|]);
    cbn; rewrite ?Hy, ?Hn; repeat split; reflexivity.
Qed.

Lemma redeemPosition_settles_scenario :
  currentBalance (redeemPosition 0 redemptionEngine "m" 0)
  == currentBalance redemptionEngine + 10
  /\ realizedPnL (redeemPosition 0 redemptionEngine "m" 0)
     == realizedPnL redemptionEngine + (35 # 10)
  /\ length (tradeHistory (redeemPosition 0 redemptionEngine "m" 0)) = 1%nat
  /\ positions (redeemPosition 0 redemptionEngine "m" 0) !! "m"%string = None.
Proof.
  destruct (redeemPosition_settles 0 redemptionEngine "m" 0
              (Position.mk "p" "m" "c" 10 5 (4 # 10) (5 # 10) None None 0%Z 0%Z
                 0 (65 # 10)) eq_refl)
    as (Hbalance & Hpnl & (record & Hhistory & _) & Hpositions).
  split; [rewrite Hbalance; reflexivity|].
  split; [rewrite Hpnl; reflexivity|].
  split; [rewrite Hhistory; reflexivity|].
  rewrite Hpositions. apply lookup_delete_eq.
Defined.

End Redemption.

(** ** Entry prices *)

Section EntryPrices.
Import PaperExecutionEngine.
Local Open Scope Q_scope.

Lemma updatePositionPnL_entryPrice now store side position :
  Position.entryPrice side (updatePositionPnL now store position)
  = Position.entryPrice side position.
Proof.
  unfold updatePositionPnL.
  now destruct (MarketStore.getMarket _ _ _).1, side.
Qed.

Lemma settle_buy now store e order fillPrice :
  TradeOrder.action order = BUY ->
  sideTokens (settle now store e order fillPrice).2 (TradeOrder.marketId order)
    (TradeOrder.side order)
  = sideTokens e (TradeOrder.marketId order) (TradeOrder.side order)
    + TradeOrder.size order / fillPrice
  /\ sideEntryPrice (settle now store e order fillPrice).2
       (TradeOrder.marketId order) (TradeOrder.side order)
     = (sideTokens e (TradeOrder.marketId order) (TradeOrder.side order)
        * sideEntryPrice e (TradeOrder.marketId order) (TradeOrder.side order)
        + TradeOrder.size order)
       / (sideTokens e (TradeOrder.marketId order) (TradeOrder.side order)
          + TradeOrder.size order / fillPrice).
Proof.
  intros Hbuy. unfold sideTokens, sideEntryPrice, settle, updatePosition. cbn.
  rewrite Hbuy.
  destruct (positions e !! TradeOrder.marketId order) as [position|];
    destruct (TradeOrder.side order); cbn;
    rewrite lookup_insert_eq; cbn;
    unfold updatePositionPnL;
    destruct (MarketStore.getMarket _ _ _).1; cbn;
    split; reflexivity.
Qed.

(** A filled paper order was settled at its average price, which lies in
    (0, 1]. *)
Lemma executeTrade_filled now store e order result e' :
  TradeOrder.mode order = paper ->
  executeTrade now store e order = JS.Return (result, e') ->
  FillResult.status result = filled ->
  (result, e') = settle now store e order (FillResult.averagePrice result)
  /\ 0 < FillResult.averagePrice result <= 1.
Proof.
  intros Hmode Hrun Hfilled.
  rewrite (executeTrade_paper now store e order Hmode) in Hrun.
  injection Hrun as Hrun.
  destruct (resolvedFillPrice store order) as [fillPrice|];
    [|injection Hrun as <- <-; discriminate].
  destruct (Qeq_bool fillPrice 0 || JS.leb fillPrice 0 || JS.ltb 1 fillPrice)
    eqn:Hbad; [injection Hrun as <- <-; discriminate|].
  destruct (match TradeOrder.action order with
            | BUY => JS.ltb (currentBalance e) (TradeOrder.size order)
            | SELL => false
            end); [injection Hrun as <- <-; discriminate|].
  apply orb_false_iff in Hbad as [Hbad Hgt].
  apply orb_false_iff in Hbad as [_ Hle]. js_tests.
  pose proof (f_equal (fun x => FillResult.averagePrice x.1) Hrun) as Hprice.
  cbn in Hprice. rewrite <- Hprice.
  split; [now symmetry | split; assumption].
Qed.

(** X28.  A filled paper BUY of positive size S at fill price p on a
    side holding [oldTokens >= 0] at entry price e leaves that side with
    [oldTokens + S / p] tokens, a positive number, at entry price
    [(oldTokens * e + S) / (oldTokens + S / p)].  Consequently, when the
    side was empty and a second filled BUY of the same outcome and of
    positive size follows, the entry price equals the dollars spent,
    [S + S2], divided by the tokens held. *)
Theorem buy_entry_price (now : Z) (store : MarketStore.t)
    (e : PaperExecutionEngine.t) (order : TradeOrder.t)
    (result : FillResult.t) (e' : PaperExecutionEngine.t) :
  TradeOrder.mode order = paper ->
  TradeOrder.action order = BUY ->
  0 < TradeOrder.size order ->
  0 <= sideTokens e (TradeOrder.marketId order) (TradeOrder.side order) ->
  executeTrade now store e order = JS.Return (result, e') ->
  FillResult.status result = filled ->
  sideTokens e' (TradeOrder.marketId order) (TradeOrder.side order)
  = sideTokens e (TradeOrder.marketId order) (TradeOrder.side order)
    + TradeOrder.size order / FillResult.averagePrice result
  /\ 0 < sideTokens e' (TradeOrder.marketId order) (TradeOrder.side order)
  /\ sideEntryPrice e' (TradeOrder.marketId order) (TradeOrder.side order)
     = (sideTokens e (TradeOrder.marketId order) (TradeOrder.side order)
        * sideEntryPrice e (TradeOrder.marketId order) (TradeOrder.side order)
        + TradeOrder.size order)
       / (sideTokens e (TradeOrder.marketId order) (TradeOrder.side order)
          + TradeOrder.size order / FillResult.averagePrice result)
  /\ forall (now2 : Z) (store2 : MarketStore.t) (order2 : TradeOrder.t)
            (result2 : FillResult.t) (e2 : PaperExecutionEngine.t),
       sideTokens e (TradeOrder.marketId order) (TradeOrder.side order) == 0 ->
       0 < TradeOrder.size order2 ->
       TradeOrder.mode order2 = paper ->
       TradeOrder.action order2 = BUY ->
       TradeOrder.marketId order2 = TradeOrder.marketId order ->
       TradeOrder.side order2 = TradeOrder.side order ->
       executeTrade now2 store2 e' order2 = JS.Return (result2, e2) ->
       FillResult.status result2 = filled ->
       sideTokens e2 (TradeOrder.marketId order) (TradeOrder.side order)
       == TradeOrder.size order / FillResult.averagePrice result
          + TradeOrder.size order2 / FillResult.averagePrice result2
       /\ sideEntryPrice e2 (TradeOrder.marketId order) (TradeOrder.side order)
          == (TradeOrder.size order + TradeOrder.size order2)
             / sideTokens e2 (TradeOrder.marketId order) (TradeOrder.side order).
Proof.
  intros Hmode Hbuy Hs1 Hold Hrun Hfilled.
  destruct (executeTrade_filled now store e order result e' Hmode Hrun Hfilled)
    as (Hsettle & Hp1 & _).
  destruct (settle_buy now store e order (FillResult.averagePrice result) Hbuy)
    as (Htokens & Hentry).
  rewrite <- Hsettle in Htokens, Hentry. cbn in Htokens, Hentry.
  assert (Hgot : 0 < TradeOrder.size order / FillResult.averagePrice result)
    by (apply Qlt_shift_div_l; lra).
  split; [exact Htokens|]. split; [rewrite Htokens; lra|].
  split; [exact Hentry|].
  intros now2 store2 order2 result2 e2 Hempty Hs2 Hmode2 Hbuy2 Hid Hside
    Hrun2 Hfilled2.
  destruct (executeTrade_filled now2 store2 e' order2 result2 e2 Hmode2 Hrun2
              Hfilled2) as (Hsettle2 & Hp2 & _).
  destruct (settle_buy now2 store2 e' order2 (FillResult.averagePrice result2)
              Hbuy2) as (Htokens2 & Hentry2).
  rewrite <- Hsettle2, Hid, Hside in Htokens2, Hentry2.
  cbn in Htokens2, Hentry2.
  rewrite Hentry2, Htokens2, Hentry, Htokens.
  clear Hgot.
  set (p1 := FillResult.averagePrice result) in *.
  set (p2 := FillResult.averagePrice result2) in *.
  set (s1 := TradeOrder.size order) in *.
  set (s2 := TradeOrder.size order2) in *.
  rewrite Hempty.
  assert (0 < s1 * p2 + s2 * p1) by nra.
  split; field; repeat split; lra.
Qed.

Lemma buy_entry_price_two_buys :
  exists result e1 result2 e2,
    executeTrade 0 emptyStore (constructor 100) firstBuy = JS.Return (result, e1) /\
    executeTrade 1 emptyStore e1 secondBuy = JS.Return (result2, e2) /\
    sideEntryPrice e1 "m" YES == 1 # 2 /\
    sideTokens e2 "m" YES == 60 /\
    sideEntryPrice e2 "m" YES == 40 / 60.
Proof.
  destruct (executeTrade 0 emptyStore (constructor 100) firstBuy)
    as [[result e1]|] eqn:Hrun1; [|discriminate Hrun1].
  destruct (executeTrade 1 emptyStore e1 secondBuy)
    as [[result2 e2]|] eqn:Hrun2;
    [|vm_compute in Hrun1; injection Hrun1 as <- <-; discriminate Hrun2].
  assert (Hr1 : FillResult.status result = filled
                /\ FillResult.averagePrice result = 1 # 2)
    by (vm_compute in Hrun1; injection Hrun1 as <- <-; split; reflexivity).
  assert (Hr2 : FillResult.status result2 = filled
                /\ FillResult.averagePrice result2 = 3 # 4)
    by (vm_compute in Hrun1; injection Hrun1 as <- <-;
        vm_compute in Hrun2; injection Hrun2 as <- <-; split; reflexivity).
  destruct Hr1 as [Hf1 Ha1], Hr2 as [Hf2 Ha2].
  assert (Hsize : 0 < TradeOrder.size firstBuy) by (cbn; lra).
  assert (Hold : 0 <= sideTokens (constructor 100) (TradeOrder.marketId firstBuy)
                        (TradeOrder.side firstBuy)) by (vm_compute; discriminate).
  destruct (buy_entry_price 0 emptyStore (constructor 100) firstBuy result e1
              eq_refl eq_refl Hsize Hold Hrun1 Hf1) as (_ & _ & Hentry & Htwo).
  destruct (Htwo 1%Z emptyStore secondBuy result2 e2) as (Htokens2 & Hentry2);
    try reflexivity; try assumption.
  exists result, e1, result2, e2.
  split; [reflexivity|]. split; [exact Hrun2|].
  cbn in Hentry, Htokens2, Hentry2. rewrite Ha1 in *. rewrite Ha2 in *.
  split; [rewrite Hentry; reflexivity|].
  split; [rewrite Htokens2; reflexivity|].
  rewrite Hentry2, Htokens2. reflexivity.
Defined.



End EntryPrices.

Section RoundedEntryPrices.
Import IEEE IEEE.PaperExecutionEngine Rounded.
Local Open Scope double_scope.

(** C9 at a BUY of size 0.  In a market without position, a limit order
    to buy YES for 0 dollars at 0.4 is filled, and then one for 10
    dollars at 0.5: two filled buys of the same outcome at different
    prices, from an empty side.  10 dollars were spent and 20 tokens are
    held, so that the entry price should be 0.5; it is NaN, the [0 / 0]
    of the first update, which every later update keeps, and so is the
    position's total entry cost. *)
Theorem buy_of_size_zero_entry_price :
  exists result1 e1 position1 result2 e2 position2,
    executeTrade 0 noMarkets (constructor 100) zeroSizeBuy
    = JS.Return (result1, e1) /\
    FillResult.status result1 = filled /\
    positions e1 !! "m" = Some position1 /\
    Position.yesTokens position1 = 0 /\
    Position.yesEntryPrice position1 = Double.NaN /\
    executeTrade 1 noMarkets e1 tenAtHalf = JS.Return (result2, e2) /\
    FillResult.status result2 = filled /\
    FillResult.averagePrice result2 = 0.5 /\
    currentBalance e2 = 90 /\
    positions e2 !! "m" = Some position2 /\
    Position.yesTokens position2 = 20 /\
    (0 + 10) / Position.yesTokens position2 = 0.5 /\
    Position.yesEntryPrice position2 = Double.NaN /\
    Position.totalEntryCost position2 = Double.NaN.
Proof.
  eexists _, _, _, _, _, _.
  split; [vm_compute; reflexivity|].
  split; [reflexivity|].
  split; [vm_compute; reflexivity|].
  split; [reflexivity|].
  split; [reflexivity|].
  split; [vm_compute; reflexivity|].
  split; [reflexivity|].
  split; [reflexivity|].
  split; [reflexivity|].
  split; [vm_compute; reflexivity|].
  repeat split; vm_compute; reflexivity.
Qed.

End RoundedEntryPrices.

(** ** Closing positions *)

Section Closing.
Import PaperExecutionEngine.
Local Open Scope Q_scope.
#[local] Arguments executeTrade : simpl never.

(** C10 at the failing input.  Closing the position sells the YES leg at
    the bid 0.5: the order is filled, $5 are credited, the trade is
    recorded and the position is deleted; but the realized PnL stays 0,
    where [tokens * (p - entryPrice)] is [10 * (0.5 - 0.4) = 1].  The
    gain is computed from the position after the sale has emptied it. *)
Lemma closePosition_filled_leg_realizes_nothing :
  exists result e',
    closePosition 0 bidStore longYesEngine "m" = JS.Return ([result], e') /\
    FillResult.status result = filled /\
    FillResult.averagePrice result = 1 # 2 /\
    currentBalance e' == currentBalance longYesEngine + 5 /\
    length (tradeHistory e') = 1%nat /\
    positions e' !! "m"%string = None /\
    realizedPnL e' == realizedPnL longYesEngine /\
    ~ realizedPnL e' == realizedPnL longYesEngine + 10 * ((1 # 2) - (4 # 10)).
Proof.
  eexists _, _. split; [vm_compute; reflexivity|].
  cbn. repeat split. intros H. discriminate H.
Qed.

(** When the store has no data for the market, every leg is rejected and
    the position is deleted all the same: the balance and the trade
    history are untouched, and each leg adds
    [tokens * (entryPrice - entryPrice)], nothing, to the realized PnL. *)
Lemma closePosition_without_market now store e marketId position :
  positions e !! marketId = Some position ->
  MarketStore.markets store !! marketId = None ->
  exists results e',
    closePosition now store e marketId = JS.Return (results, e') /\
    Forall (fun result => FillResult.status result = rejected) results /\
    length results
    = ((if JS.ltb 0 (Position.yesTokens position) then 1 else 0)
       + (if JS.ltb 0 (Position.noTokens position) then 1 else 0))%nat /\
    positions e' = delete marketId (positions e) /\
    currentBalance e' = currentBalance e /\
    tradeHistory e' = tradeHistory e /\
    realizedPnL e' == realizedPnL e.
Proof.
  intros Hp Hm. unfold closePosition, closeLeg. rewrite Hp.
  rewrite (getMarket_absent now store marketId Hm). cbn [fst JS.orElse].
  assert (Hrej : forall e0 order,
             TradeOrder.mode order = paper ->
             TradeOrder.price order = None ->
             TradeOrder.marketId order = marketId ->
             executeTrade now store e0 order
             = JS.Return (rejectedResult now order, e0)).
  { intros e0 order Hmode Hprice Hid.
    rewrite (executeTrade_paper now store e0 order Hmode).
    unfold resolvedFillPrice, explicitPrice. now rewrite Hprice, Hid, Hm. }
  destruct (JS.ltb 0 (Position.yesTokens position));
    rewrite ?Hrej by reflexivity; cbn; unfold reread; cbn; rewrite Hp; cbn;
    destruct (JS.ltb 0 (Position.noTokens position));
    rewrite ?Hrej by reflexivity; cbn; unfold reread; cbn; rewrite ?Hp; cbn;
    eexists _, _; (split; [reflexivity|]); cbn;
    repeat split; repeat constructor; ring.
Qed.

Lemma orElse_truthy (x d : Q) : ~ x == 0 -> JS.orElse (Some x) d = x.
Proof.
  intros H. unfold JS.orElse. apply truthy_nonzero in H. now rewrite H.
Qed.

(** The defect does not depend on the numbers: whenever the store quotes
    a valid bid, the leg is filled at it, the sale empties the side, and
    the gain computed afterwards is 0. *)
Lemma closeLeg_filled_realizes_nothing now store e marketId side position
    market bid :
  positions e !! marketId = Some position ->
  MarketStore.markets store !! marketId = Some market ->
  OutcomePrices.bid (pricesOf side market) = Some bid ->
  0 < bid <= 1 ->
  exists result e1,
    closeLeg side now store e marketId position = JS.Return ([result], e1) /\
    FillResult.status result = filled /\
    FillResult.averagePrice result = bid /\
    currentBalance e1 = currentBalance e + Position.tokens side position * bid /\
    realizedPnL e1 == realizedPnL e.
Proof.
  intros Hp Hm Hbid [Hpos Hle]. unfold closeLeg.
  destruct (pricesOf_getMarket now store marketId market side Hm)
    as (market' & -> & Hprices).
  rewrite Hprices, Hbid, orElse_truthy by lra.
  rewrite executeTrade_paper by reflexivity.
  unfold resolvedFillPrice, explicitPrice, bestQuote. cbn.
  rewrite Hm. cbn. rewrite Hbid, orElse_truthy by lra.
  assert (Hz : Qeq_bool bid 0 = false).
  { apply not_true_iff_false. rewrite Qeq_bool_iff. lra. }
  assert (Hl : JS.leb bid 0 = false) by (apply leb_gt; lra).
  assert (Hg : JS.ltb 1 bid = false) by (apply ltb_ge; lra).
  rewrite Hz, Hl, Hg. cbn.
  unfold settle, updatePosition, reread. cbn. rewrite Hp.
  assert (Hsold : forall tokens, JS.leb (tokens - tokens * bid / bid) 0 = true).
  { intros tokens. apply leb_le.
    assert (tokens * bid / bid == tokens) by (field; lra). lra. }
  destruct side; cbn; rewrite Hsold; cbn; rewrite lookup_insert_eq; cbn;
    unfold updatePositionPnL; destruct (MarketStore.getMarket _ _ _).1; cbn;
    eexists _, _; (split; [reflexivity|]); cbn; repeat split; ring.
Qed.

End Closing.

(** ** The per-user trade window *)

Section JSMapFacts.
Context {V : Type}.
Implicit Types (key : string) (value : V) (m : JSMap.t V).






End JSMapFacts.

(** The history loop under a fixed capacity: [capacity] is the number
    the code compares the size with, [W] the count it stands for. *)
Section Capacity.
Import CopyTradingService.
Local Open Scope Q_scope.

Variables (capacity : Q) (W : nat).
Hypothesis capacity_W : capacity == inject_Z (Z.of_nat W).




End Capacity.

Section Window.
Import CopyTradingService.
Local Open Scope Q_scope.


End Window.

Section WindowExample.
Import CopyTradingService.
Local Open Scope Q_scope.



End WindowExample.

(** ** Proportional sizing *)

Section Sizing.
Import IEEE IEEE.CopyTradingService Rounded.
Local Open Scope double_scope.

Lemma recentVolume_from tradeHash (window : JSMap.t Double.t) : forall start,
  fold_left
    (fun volume '(hash, size) =>
       if String.eqb hash tradeHash then volume else volume + size)
    window start
  = fold_left Double.add
      (map snd
         (List.filter (fun entry => negb (String.eqb (fst entry) tradeHash))
            window))
      start.
Proof.
  induction window as [|[hash size] rest IH]; intros start; cbn;
    [reflexivity|].
  rewrite IH. now destruct (String.eqb hash tradeHash).
Qed.

Lemma recentVolume_sum tradeHash window :
  recentVolume tradeHash window = volumeExcluding tradeHash window.
Proof. apply recentVolume_from. Qed.

(** C4, as stated, fails where the sum of the window rounds.  The
    window holds trades of 489.94, 399.35, 96.81 and 13.9 dollars, whose
    sum is not below 1000, the [minVolumeForScaling] of the constructor's
    configuration, on these very numbers as on the decimals they stand
    for; the copy of a fifth trade, of 500 dollars, would be the
    proportional one, 500 dollars or a little less.  The code adds the
    four sizes up to 999.9999999999999 and copies
    [max(10, 1000 * 0.05) = 50] dollars.  The other way round, the sizes
    646.9, 79.2 and 273.9 sum to less than 1000, the code adds them up
    to 1000 and copies 500 dollars where the sum gives 50. *)
Lemma calculateProportionalSize_sum_rounds :
  ((1000 <= Double.value 489.94 + Double.value 399.35 + Double.value 96.81
             + Double.value 13.9
    /\ (48994 # 100) + (39935 # 100) + (9681 # 100) + (1390 # 100) == 1000)%Q
   /\ minVolumeForScaling (defaultConfig []) = 1000
   /\ volumeExcluding "0x5" fourTrades = 999.9999999999999
   /\ (volumeExcluding "0x5" fourTrades <? 1000) = true
   /\ Double.min (Double.max 10 (1000 * (500 / 1000))) 1000 = 500
   /\ calculateProportionalSize (defaultConfig []) (historyOf "0xabc" fourTrades)
        500 "0x5" "0xabc"
      = 50)
  /\ ((Double.value 646.9 + Double.value 79.2 + Double.value 273.9 < 1000)%Q
      /\ Double.max (minTradeSize (defaultConfig []))
           (maxTradeSize (defaultConfig []) * 0.05) = 50
      /\ volumeExcluding "0x4" threeTrades = 1000
      /\ calculateProportionalSize (defaultConfig [])
           (historyOf "0xabc" threeTrades) 500 "0x4" "0xabc"
         = 500).
Proof.
  repeat split; vm_compute; first [reflexivity | discriminate].
Qed.

(** C4, amended.  With every operation rounded to the nearest double,
    as the code computes them, and V the sizes of the user's window
    apart from the trade's own hash, added one after the other to 0 in
    the order of insertion: the copy of a trade of size S is
    [max(minTradeSize, maxTradeSize * 0.1)] when the window has fewer
    than 2 entries, [max(minTradeSize, maxTradeSize * 0.05)] when
    [V < minVolumeForScaling], and otherwise
    [min(max(minTradeSize, (maxTradeSize * ((S / V) * 100)) / 100),
         maxTradeSize)]. *)
Theorem calculateProportionalSize_in_doubles (config : CopyTradingConfig.t)
    (userTradeHistory : gmap string (JSMap.t Double.t)) (tradeSize : Double.t)
    (tradeHash userAddress : string) :
  ((JSMap.size (windowOf userTradeHistory userAddress) < 2)%nat /\
   calculateProportionalSize config userTradeHistory tradeSize tradeHash
     userAddress
   = Double.max (minTradeSize config) (maxTradeSize config * 0.1))
  \/ ((2 <= JSMap.size (windowOf userTradeHistory userAddress))%nat /\
      (volumeExcluding tradeHash (windowOf userTradeHistory userAddress)
       <? minVolumeForScaling config) = true /\
      calculateProportionalSize config userTradeHistory tradeSize tradeHash
        userAddress
      = Double.max (minTradeSize config) (maxTradeSize config * 0.05))
  \/ ((2 <= JSMap.size (windowOf userTradeHistory userAddress))%nat /\
      (volumeExcluding tradeHash (windowOf userTradeHistory userAddress)
       <? minVolumeForScaling config) = false /\
      calculateProportionalSize config userTradeHistory tradeSize tradeHash
        userAddress
      = Double.min
          (Double.max (minTradeSize config)
             (maxTradeSize config
              * (tradeSize
                 / volumeExcluding tradeHash
                     (windowOf userTradeHistory userAddress)
                 * 100)
              / 100))
          (maxTradeSize config)).
Proof.
  unfold calculateProportionalSize, windowOf.
  fold (minTradeSize config) (maxTradeSize config) (minVolumeForScaling config).
  destruct (userTradeHistory !! JS.toLowerCase userAddress) as [window|];
    cbn [default from_option id].
  - destruct (JSMap.size window <? 2)%nat eqn:Hsize.
    + apply Nat.ltb_lt in Hsize. left. split; [exact Hsize | reflexivity].
    + apply Nat.ltb_ge in Hsize. right.
      rewrite (recentVolume_sum tradeHash window).
      destruct (volumeExcluding tradeHash window <? minVolumeForScaling config)
        eqn:Hvol.
      * left. split; [exact Hsize|]. split; reflexivity.
      * right. split; [exact Hsize|]. split; reflexivity.
  - left. split; [unfold JSMap.size; cbn; lia | reflexivity].
Qed.

(** With a negative [minVolumeForScaling] and a window without volume,
    the quotient [S / V] is +Infinity, and the copy is [maxTradeSize],
    or it is NaN, and so is the copy. *)
Example calculateProportionalSize_without_volume :
  let config :=
    CopyTradingConfig.mk 5000 false [] (Some 10) (Some 1000) (Some 15)
      (Some (-5)) in
  let history : gmap string (JSMap.t Double.t) :=
    {[ "0xabc"%string := [("0x1"%string, 0); ("0x2"%string, 0)] ]} in
  calculateProportionalSize config history 500 "0x4" "0xabc" = 1000
  /\ calculateProportionalSize config history 0 "0x4" "0xabc" = Double.NaN.
Proof. split; vm_compute; reflexivity. Qed.

End Sizing.


(** * Further properties of the sources *)

(** ** The market store: reads, counts and filters *)

Section StoreMore.
Import MarketStore.
Local Open Scope Q_scope.

(** X1.  Reading a market back after [updateOrderBook]: the updated
    outcome carries exactly the first bid and ask of the update (null for
    an empty or unparsable side, whatever was stored before, and whatever
    the update's timestamp), the other outcome is as it was, the market's
    [lastUpdate] is the greater of the old one and the update's, and no
    other market is touched. *)
Theorem updateOrderBook_read_back (now now' : Z) (s : MarketStore.t)
    (update : OrderBookUpdate.t) :
  exists market,
    (getMarket now' (updateOrderBook now s update).1 (keyOf update)).1
    = Some market /\
    OutcomePrices.bid
      (PaperExecutionEngine.pricesOf (OrderBookUpdate.outcome update) market)
    = firstLevel (OrderBookUpdate.bids update) /\
    OutcomePrices.ask
      (PaperExecutionEngine.pricesOf (OrderBookUpdate.outcome update) market)
    = firstLevel (OrderBookUpdate.asks update) /\
    PaperExecutionEngine.pricesOf (opposite (OrderBookUpdate.outcome update))
      market
    = match markets s !! keyOf update with
      | Some old =>
          PaperExecutionEngine.pricesOf
            (opposite (OrderBookUpdate.outcome update)) old
      | None => createEmptyPrices
      end /\
    MarketData.lastUpdate market
    = match markets s !! keyOf update with
      | Some old =>
          Z.max (MarketData.lastUpdate old) (OrderBookUpdate.timestamp update)
      | None => OrderBookUpdate.timestamp update
      end /\
    forall key,
      key <> keyOf update ->
      markets (updateOrderBook now s update).1 !! key = markets s !! key.
Proof.
  unfold getMarket, updateOrderBook. cbn. fold (keyOf update).
  rewrite lookup_insert_eq. cbn.
  rewrite extractBestBid_firstLevel, extractBestAsk_firstLevel.
  eexists. split; [reflexivity|].
  destruct (markets s !! keyOf update) as [old|],
    (OrderBookUpdate.outcome update); cbn;
    repeat split; try reflexivity; try (apply Z.max_id);
    intros key Hkey; now rewrite lookup_insert_ne.
Qed.

Lemma updateOrderBook_lookup now s update :
  markets (updateOrderBook now s update).1 !! keyOf update
  = Some
      (let old :=
         match markets s !! keyOf update with
         | Some md => md
         | None =>
             MarketData.mk
               (JS.strOr (OrderBookUpdate.marketId update)
                  (OrderBookUpdate.assetId update))
               (JS.strOr (OrderBookUpdate.conditionId update)
                  (OrderBookUpdate.assetId update))
               createEmptyPrices createEmptyPrices
               (OrderBookUpdate.timestamp update) false
         end in
       let prices :=
         OutcomePrices.mk (extractBestBid (OrderBookUpdate.bids update))
           (extractBestAsk (OrderBookUpdate.asks update))
           (OrderBookUpdate.timestamp update) in
       MarketData.mk (MarketData.marketId old) (MarketData.conditionId old)
         match OrderBookUpdate.outcome update with
         | YES => prices
         | NO => MarketData.yesPrices old
         end
         match OrderBookUpdate.outcome update with
         | YES => MarketData.noPrices old
         | NO => prices
         end
         (Z.max (MarketData.lastUpdate old) (OrderBookUpdate.timestamp update))
         (isStale now s
            (Z.max (MarketData.lastUpdate old) (OrderBookUpdate.timestamp update)))).
Proof. unfold updateOrderBook. cbn. fold (keyOf update). apply lookup_insert_eq. Qed.

Lemma updateOrderBook_other now s update key :
  key <> keyOf update ->
  markets (updateOrderBook now s update).1 !! key = markets s !! key.
Proof.
  intros H. unfold updateOrderBook. cbn. fold (keyOf update).
  now rewrite lookup_insert_ne.
Qed.

Lemma updateOrderBook_stamped calls s now update :
  stamped calls s ->
  stamped (calls ++ [(now, update)]) (updateOrderBook now s update).1.
Proof.
  intros Hinv key. specialize (Hinv key).
  destruct (decide (key = keyOf update)) as [-> | Hne].
  - rewrite updateOrderBook_lookup. cbn.
    destruct (markets s !! keyOf update) as [old|]; cbn.
    + destruct Hinv as [(now0 & u0 & Hin & Hkey & Hts) Hmax]. split.
      * destruct (Z.max_spec (MarketData.lastUpdate old)
                    (OrderBookUpdate.timestamp update)) as [[_ ->] | [_ ->]].
        -- exists now, update. rewrite in_app_iff. cbn. tauto.
        -- exists now0, u0. rewrite in_app_iff. tauto.
      * intros now1 u1 Hin1 Hkey1. apply in_app_iff in Hin1 as [Hin1 | Hin1].
        -- specialize (Hmax now1 u1 Hin1 Hkey1). lia.
        -- destruct Hin1 as [[= <- <-] | []]. lia.
    + rewrite Z.max_id. split.
      * exists now, update. rewrite in_app_iff. cbn. tauto.
      * intros now1 u1 Hin1 Hkey1. apply in_app_iff in Hin1 as [Hin1 | Hin1].
        -- now destruct (Hinv now1 u1 Hin1).
        -- destruct Hin1 as [[= <- <-] | []]. lia.
  - rewrite updateOrderBook_other by exact Hne.
    destruct (markets s !! key) as [market|].
    + destruct Hinv as [(now0 & u0 & Hin & Hkey & Hts) Hmax]. split.
      * exists now0, u0. rewrite in_app_iff. tauto.
      * intros now1 u1 Hin1 Hkey1. apply in_app_iff in Hin1 as [Hin1 | Hin1].
        -- now apply (Hmax now1 u1).
        -- destruct Hin1 as [[= <- <-] | []]. congruence.
    + intros now1 u1 Hin1. apply in_app_iff in Hin1 as [Hin1 | Hin1].
      * now apply (Hinv now1 u1).
      * destruct Hin1 as [[= <- <-] | []]. congruence.
Qed.

Lemma updateAll_stamped rest : forall calls s,
  stamped calls s -> stamped (calls ++ rest) (updateAll s rest).
Proof.
  induction rest as [|[now update] rest IH]; intros calls s Hinv; cbn.
  - now rewrite app_nil_r.
  - replace (calls ++ (now, update) :: rest)
      with ((calls ++ [(now, update)]) ++ rest)
      by (now rewrite <- app_assoc).
    apply IH. now apply updateOrderBook_stamped.
Qed.

(** X2.  After any sequence of updates of an empty store, a market's
    [lastUpdate] is the greatest timestamp among the updates filed under
    its key: an update stamped earlier than the market never moves it
    back. *)
Theorem lastUpdate_is_latest (staleThresholdMs : Z)
    (calls : list (Z * OrderBookUpdate.t)) (key : string)
    (market : MarketData.t) :
  markets (updateAll (MarketStore.mk ∅ staleThresholdMs) calls) !! key
  = Some market ->
  latestOf calls key (MarketData.lastUpdate market).
Proof.
  intros Hm.
  pose proof (updateAll_stamped calls [] (MarketStore.mk ∅ staleThresholdMs))
    as Hinv.
  cbn in Hinv.
  assert (Hempty : stamped [] (MarketStore.mk ∅ staleThresholdMs)).
  { intros k. cbn. rewrite lookup_empty. intros _ _ []. }
  specialize (Hinv Hempty key). now rewrite Hm in Hinv.
Qed.

Lemma lastUpdate_is_latest_out_of_order :
  latestOf [(60%Z, yesAt50); (61%Z, noAt20)] "m" 50%Z.
Proof.
  apply (lastUpdate_is_latest 30000%Z [(60%Z, yesAt50); (61%Z, noAt20)] "m"
           (MarketData.mk "m" "c"
              (OutcomePrices.mk (Some (2 # 5)) (Some (9 # 20)) 50%Z)
              (OutcomePrices.mk None (Some (1 # 2)) 20%Z) 50%Z false)).
  vm_compute. reflexivity.
Defined.

Lemma updateOrderBook_dom now s update :
  dom (markets (updateOrderBook now s update).1)
  = {[keyOf update]} ∪ dom (markets s).
Proof.
  unfold updateOrderBook. cbn. fold (keyOf update). apply dom_insert_L.
Qed.

Lemma updateAll_dom calls : forall s,
  dom (markets (updateAll s calls)) = keysOf calls ∪ dom (markets s).
Proof.
  induction calls as [|[now update] rest IH]; intros s.
  - change (keysOf []) with (∅ : gset string). cbn [updateAll].
    now rewrite (left_id_L ∅ (∪)).
  - change (keysOf ((now, update) :: rest))
      with ({[keyOf update]} ∪ keysOf rest).
    cbn [updateAll]. rewrite IH, updateOrderBook_dom.
    rewrite (assoc_L (∪)), (comm_L (∪) (keysOf rest)). reflexivity.
Qed.

(** X3.  After any sequence of updates of an empty store,
    [getMarketCount] is the number of distinct keys the updates were
    filed under: an update creates a market once and only once. *)
Theorem getMarketCount_distinct_keys (staleThresholdMs : Z)
    (calls : list (Z * OrderBookUpdate.t)) :
  getMarketCount (updateAll (MarketStore.mk ∅ staleThresholdMs) calls)
  = size (keysOf calls).
Proof.
  unfold getMarketCount. rewrite <- size_dom, updateAll_dom. cbn.
  now rewrite dom_empty_L, (right_id_L ∅ (∪)).
Qed.

Lemma updatesOf_snoc calls now update key side :
  updatesOf (calls ++ [(now, update)]) key side
  = updatesOf calls key side
    ++ (if bool_decide (keyOf update = key /\ OrderBookUpdate.outcome update = side)
        then [update] else []).
Proof.
  unfold updatesOf. rewrite fmap_app, List.filter_app. cbn.
  now destruct (bool_decide _).
Qed.

Lemma updatesOf_none calls key side :
  (forall now update, In (now, update) calls -> keyOf update <> key) ->
  updatesOf calls key side = [].
Proof.
  intros Hnone. unfold updatesOf.
  induction calls as [|[now update] rest IH]; cbn; [reflexivity|].
  rewrite bool_decide_eq_false_2.
  - apply IH. intros now0 update0 Hin. apply (Hnone now0). now right.
  - intros [Hkey _]. apply (Hnone now update); [now left | exact Hkey].
Qed.

Lemma latestQuotes_other calls now update key side :
  ~ (keyOf update = key /\ OrderBookUpdate.outcome update = side) ->
  latestQuotes (calls ++ [(now, update)]) key side = latestQuotes calls key side.
Proof.
  intros Hother. unfold latestQuotes.
  now rewrite updatesOf_snoc, (bool_decide_eq_false_2 _ Hother), app_nil_r.
Qed.

Lemma latestQuotes_this calls now update :
  latestQuotes (calls ++ [(now, update)]) (keyOf update)
    (OrderBookUpdate.outcome update)
  = (firstLevel (OrderBookUpdate.bids update),
     firstLevel (OrderBookUpdate.asks update)).
Proof.
  unfold latestQuotes.
  rewrite updatesOf_snoc, bool_decide_eq_true_2 by (split; reflexivity).
  now rewrite last_snoc.
Qed.

Lemma updateOrderBook_latest calls s now update :
  latest calls s -> latest (calls ++ [(now, update)]) (updateOrderBook now s update).1.
Proof.
  intros Hinv key. specialize (Hinv key).
  destruct (decide (key = keyOf update)) as [-> | Hne].
  - rewrite updateOrderBook_lookup. cbn. intros side.
    destruct (decide (OrderBookUpdate.outcome update = side)) as [<- | Hside].
    + rewrite latestQuotes_this.
      rewrite <- extractBestBid_firstLevel, <- extractBestAsk_firstLevel.
      now destruct (OrderBookUpdate.outcome update).
    + rewrite latestQuotes_other by (intros [_ H]; contradiction).
      destruct (markets s !! keyOf update) as [old|].
      * rewrite <- (Hinv side).
        destruct side, (OrderBookUpdate.outcome update);
          first [reflexivity | contradiction].
      * unfold latestQuotes. rewrite (updatesOf_none _ _ _ Hinv).
        destruct side, (OrderBookUpdate.outcome update);
          first [reflexivity | contradiction].
  - rewrite updateOrderBook_other by exact Hne.
    destruct (markets s !! key) as [market|].
    + intros side. rewrite latestQuotes_other; [apply Hinv|].
      intros [H _]. now apply Hne.
    + intros now1 update1 Hin. apply in_app_iff in Hin as [Hin | Hin].
      * now apply (Hinv now1).
      * destruct Hin as [[= <- <-] | []]. intros H. now apply Hne.
Qed.

Lemma updateAll_latest rest : forall calls s,
  latest calls s -> latest (calls ++ rest) (updateAll s rest).
Proof.
  induction rest as [|[now update] rest IH]; intros calls s Hinv; cbn.
  - now rewrite app_nil_r.
  - replace (calls ++ (now, update) :: rest)
      with ((calls ++ [(now, update)]) ++ rest)
      by (now rewrite <- app_assoc).
    apply IH. now apply updateOrderBook_latest.
Qed.

(** C3, amended.  After any sequence of [updateOrderBook] calls on an
    empty store, the bid and ask stored for an outcome of a market are
    those of the latest update filed for that market and outcome, and
    both null while there has been none: a field is null for a book side
    that is empty or whose first price does not parse (never a default
    price), and otherwise it is the parsed first price, whatever its
    value; the store checks no range. *)
Theorem stored_quotes_latest (staleThresholdMs : Z)
    (calls : list (Z * OrderBookUpdate.t)) (key : string)
    (market : MarketData.t) (side : Side) :
  markets (updateAll (MarketStore.mk ∅ staleThresholdMs) calls) !! key
  = Some market ->
  quotesOf (PaperExecutionEngine.pricesOf side market)
  = latestQuotes calls key side.
Proof.
  intros Hm.
  pose proof (updateAll_latest calls [] (MarketStore.mk ∅ staleThresholdMs))
    as Hinv.
  assert (Hempty : latest [] (MarketStore.mk ∅ staleThresholdMs)).
  { intros k. cbn. rewrite lookup_empty. intros _ _ []. }
  specialize (Hinv Hempty key). cbn in Hinv. rewrite Hm in Hinv. apply Hinv.
Qed.

(** A bid of 1.5 and an ask of 0, then an update of the same outcome
    with an empty book: the wide quotes, then none. *)
Lemma stored_quotes_latest_wide :
  quotesOf (OutcomePrices.mk (Some (3 # 2)) (Some 0) 0%Z)
  = latestQuotes [(0%Z, wideUpdate)] "m" YES
  /\ quotesOf (OutcomePrices.mk None None 5%Z)
     = latestQuotes [(0%Z, wideUpdate); (9%Z, emptiedUpdate)] "m" YES.
Proof.
  split.
  - apply (stored_quotes_latest 30000%Z [(0%Z, wideUpdate)] "m"
             (MarketData.mk "m" "c"
                (OutcomePrices.mk (Some (3 # 2)) (Some 0) 0%Z)
                (OutcomePrices.mk None None 0%Z) 0%Z false) YES).
    vm_compute. reflexivity.
  - apply (stored_quotes_latest 30000%Z
             [(0%Z, wideUpdate); (9%Z, emptiedUpdate)] "m"
             (MarketData.mk "m" "c"
                (OutcomePrices.mk None None 5%Z)
                (OutcomePrices.mk None None 0%Z) 5%Z false) YES).
    vm_compute. reflexivity.
Defined.

End StoreMore.

Section RoundedStore.
Import IEEE IEEE.MarketStore Rounded.
Local Open Scope double_scope.

(** X4.  A market is listed by [getArbitrageOpportunities(feeBuffer)]
    exactly when it is a market of the store (with its stale flag
    refreshed) whose two asks are present, their sum as the code rounds
    it is below the rounded [1 - feeBuffer], and it is not stale. *)
Theorem getArbitrageOpportunities_iff (now : Z) (s : MarketStore.t)
    (feeBuffer : Double.t) (listed : MarketData.t) :
  In listed (getArbitrageOpportunities now s feeBuffer) <->
  exists key market yesAsk noAsk,
    markets s !! key = Some market /\
    listed = refresh now s market /\
    OutcomePrices.ask (MarketData.yesPrices market) = Some yesAsk /\
    OutcomePrices.ask (MarketData.noPrices market) = Some noAsk /\
    (yesAsk + noAsk <? 1 - feeBuffer) = true /\
    (now - MarketData.lastUpdate market <= MarketStore.staleThresholdMs s)%Z.
Proof.
  unfold getArbitrageOpportunities, getAllMarkets. cbn.
  rewrite filter_In, <- list_elem_of_In, list_elem_of_fmap. split.
  - intros [([key market] & -> & Hin) Hkeep].
    apply elem_of_map_to_list in Hin. cbn in Hkeep.
    destruct (OutcomePrices.ask (MarketData.yesPrices market)) as [y|] eqn:Hy;
      [|discriminate].
    destruct (OutcomePrices.ask (MarketData.noPrices market)) as [n|] eqn:Hn;
      [|discriminate].
    apply andb_true_iff in Hkeep as [Hcost Hfresh].
    apply negb_true_iff in Hfresh.
    unfold isStale in Hfresh. apply Z.ltb_ge in Hfresh.
    exists key, market, y, n. repeat split; assumption.
  - intros (key & market & y & n & Hm & -> & Hy & Hn & Hcost & Hfresh). split.
    + exists (key, market). split; [reflexivity|].
      now apply elem_of_map_to_list.
    + cbn. rewrite Hy, Hn. apply andb_true_iff. split.
      * exact Hcost.
      * apply negb_true_iff. unfold isStale. now apply Z.ltb_ge.
Qed.

(** Asks 0.01 and 0.99 add up to 1 and the market is not listed for a
    fee buffer of 0; asks 0.172 and 0.823 are listed for 0.005. *)
Example getArbitrageOpportunities_rounded_sums :
  getArbitrageOpportunities 0 (storeOf (quoted 0.01 0.99)) 0 = []
  /\ getArbitrageOpportunities 0 (storeOf (quoted 0.172 0.823)) 0.005
     = [quoted 0.172 0.823].
Proof. split; vm_compute; reflexivity. Qed.

End RoundedStore.

(** ** The detector: scanning, ranking and tracking *)

Section SortFacts.
Context {A : Type} (key : A -> Q).
Local Open Scope Q_scope.

Let byKeyDescending (a b : A) : Q := key b - key a.
Let above (a b : A) : Prop := key b <= key a.

Lemma sortInsert_permutation (x : A) (l : list A) :
  Permutation (JS.sortInsert byKeyDescending x l) (x :: l).
Proof.
  induction l as [|y rest IH]; cbn; [reflexivity|].
  destruct (Qle_bool _ 0); [reflexivity|].
  rewrite IH. apply perm_swap.
Qed.

Lemma sort_permutation (l : list A) : Permutation (JS.sort byKeyDescending l) l.
Proof.
  induction l as [|x rest IH]; cbn; [reflexivity|].
  now rewrite sortInsert_permutation, IH.
Qed.

Lemma sortInsert_sorted (x : A) (l : list A) :
  StronglySorted above l ->
  StronglySorted above (JS.sortInsert byKeyDescending x l).
Proof.
  induction 1 as [|y rest Hsorted IH Hall]; cbn.
  - repeat constructor.
  - destruct (Qle_bool (byKeyDescending x y) 0) eqn:Hxy.
    + apply Qle_bool_iff in Hxy. unfold byKeyDescending in Hxy.
      constructor; [now constructor|].
      constructor; [unfold above; lra|].
      eapply Forall_impl; [exact Hall|]. unfold above. intros z Hz. cbn in *. lra.
    + assert (Hyx : key x < key y).
      { apply Qnot_le_lt. intros Hle.
        apply not_true_iff_false in Hxy. apply Hxy, Qle_bool_iff.
        unfold byKeyDescending. lra. }
      constructor; [exact IH|].
      rewrite sortInsert_permutation. constructor; [unfold above; lra | exact Hall].
Qed.

Lemma sort_sorted (l : list A) : StronglySorted above (JS.sort byKeyDescending l).
Proof.
  induction l as [|x rest IH]; cbn; [constructor|].
  now apply sortInsert_sorted.
Qed.

End SortFacts.

Section DetectorMore.
Import ArbitrageConfig ArbitrageDetector.
Local Open Scope Q_scope.

(** X5.  [scanOpportunities] returns its opportunities ranked by profit
    after fees, highest first: no opportunity is followed by a more
    profitable one. *)
Theorem scanOpportunities_ranked (now : Z) (d : ArbitrageDetector.detector)
    (store : MarketStore.t) :
  ranked (scanOpportunities now d store).
Proof.
  unfold scanOpportunities, ranked.
  apply (sort_sorted ArbitrageOpportunity.profitAfterFees).
Qed.

(** X6.  An opportunity is returned by [scanOpportunities] exactly when
    it is what [detectArbitrage] finds in a market of the store that is
    not stale and whose [marketId] is not tracked. *)
Theorem scanOpportunities_iff (now : Z) (d : ArbitrageDetector.detector)
    (store : MarketStore.t) (opportunity : ArbitrageOpportunity.t) :
  In opportunity (scanOpportunities now d store) <->
  exists key market,
    MarketStore.markets store !! key = Some market /\
    (now - MarketData.lastUpdate market <= MarketStore.staleThresholdMs store)%Z /\
    (MarketData.marketId market ∉ trackedMarkets d) /\
    detectArbitrage now (config d) (MarketStore.refresh now store market)
    = Some opportunity.
Proof.
  unfold scanOpportunities.
  rewrite <- list_elem_of_In,
    (sort_permutation ArbitrageOpportunity.profitAfterFees),
    list_elem_of_omap.
  unfold MarketStore.getAllMarkets. cbn. split.
  - intros (listed & Hin & Hfound).
    apply list_elem_of_fmap in Hin as ([key market] & -> & Hin).
    apply elem_of_map_to_list in Hin. cbn in Hfound.
    destruct (MarketStore.isStale now store (MarketData.lastUpdate market))
      eqn:Hstale; [discriminate|].
    destruct (bool_decide _) eqn:Htracked; [discriminate|].
    apply bool_decide_eq_false in Htracked.
    unfold MarketStore.isStale in Hstale. apply Z.ltb_ge in Hstale.
    exists key, market. repeat split; assumption.
  - intros (key & market & Hm & Hfresh & Htracked & Hfound).
    exists (MarketStore.refresh now store market). split.
    + apply list_elem_of_fmap. exists (key, market). split; [reflexivity|].
      now apply elem_of_map_to_list.
    + cbn. unfold MarketStore.isStale.
      apply Z.ltb_ge in Hfresh. rewrite Hfresh.
      now rewrite (bool_decide_eq_false_2 _ Htracked).
Qed.

Lemma scanOpportunities_untracked now d store opportunity :
  In opportunity (scanOpportunities now d store) ->
  ArbitrageOpportunity.marketId opportunity ∉ trackedMarkets d.
Proof.
  unfold scanOpportunities.
  rewrite <- list_elem_of_In,
    (sort_permutation ArbitrageOpportunity.profitAfterFees),
    list_elem_of_omap.
  intros (listed & _ & Hfound).
  destruct (MarketData.isStale listed); [discriminate|].
  destruct (bool_decide _) eqn:Htracked; [discriminate|].
  apply bool_decide_eq_false in Htracked.
  unfold detectArbitrage in Hfound.
  repeat match type of Hfound with
         | match ?x with _ => _ end = _ => destruct x; try discriminate
         | (if ?x then _ else _) = _ => destruct x; try discriminate
         end.
  now injection Hfound as <-.
Qed.

(** X7.  Once a market is marked as tracked, [scanOpportunities] returns
    no opportunity for it, whatever its prices; and unmarking a market
    that was not tracked before gives back the scan there was. *)
Theorem tracked_market_excluded (now : Z) (d : ArbitrageDetector.detector)
    (store : MarketStore.t) (marketId : string) :
  (forall opportunity,
      In opportunity (scanOpportunities now (markMarketTracked d marketId) store) ->
      ArbitrageOpportunity.marketId opportunity <> marketId)
  /\ isMarketTracked (markMarketTracked d marketId) marketId = true
  /\ (isMarketTracked d marketId = false ->
      scanOpportunities now (unmarkMarket (markMarketTracked d marketId) marketId)
        store
      = scanOpportunities now d store).
Proof.
  split; [|split].
  - intros opportunity Hin <-.
    apply scanOpportunities_untracked in Hin. cbn in Hin.
    apply Hin, elem_of_union_l, elem_of_singleton. reflexivity.
  - apply bool_decide_eq_true. cbn.
    apply elem_of_union_l, elem_of_singleton. reflexivity.
  - intros Hfree. apply bool_decide_eq_false in Hfree.
    assert (Hsame : unmarkMarket (markMarketTracked d marketId) marketId = d).
    { destruct d as [cfg tracked]. unfold unmarkMarket, markMarketTracked. cbn in *.
      f_equal. apply set_eq. intros x.
      rewrite elem_of_difference, elem_of_union, !elem_of_singleton.
      split; [tauto|]. intros Hx. split; [tauto|]. congruence. }
    now rewrite Hsame.
Qed.

Lemma detectArbitrage_profit now config market opportunity :
  detectArbitrage now config market = Some opportunity ->
  minProfitThreshold config <= ArbitrageOpportunity.profitAfterFees opportunity.
Proof.
  unfold detectArbitrage. intros Hfound.
  repeat match type of Hfound with
         | match ?x with _ => _ end = _ =>
             let H := fresh "Htest" in destruct x eqn:H; try discriminate
         end.
  injection Hfound as <-. cbn. js_tests. assumption.
Qed.

(** X8.  For an opportunity that [detectArbitrage] returned, under a
    positive threshold and a non-negative [maxPositionSize], the
    plan's size is always the cap: yesSize = noSize = maxPositionSize / 2.
    The profit-proportional term never is the smaller one. *)
Theorem plan_size_is_cap (now0 now : Z) (config : ArbitrageConfig.t)
    (detected : MarketData.t) (store : MarketStore.t)
    (opportunity : ArbitrageOpportunity.t) (plan : ExecutionPlan.t) :
  detectArbitrage now0 config detected = Some opportunity ->
  0 < minProfitThreshold config ->
  0 <= maxPositionSize config ->
  (createExecutionPlan now config store opportunity).1 = Some plan ->
  ExecutionPlan.yesSize plan == maxPositionSize config / 2 /\
  ExecutionPlan.noSize plan == maxPositionSize config / 2 /\
  ExecutionPlan.totalCost plan == maxPositionSize config.
Proof.
  intros Hfound Hthreshold Hmax Hplan.
  apply detectArbitrage_profit in Hfound.
  assert (Hcap : Qmin (maxPositionSize config)
                   (maxPositionSize config
                    * ArbitrageOpportunity.profitAfterFees opportunity
                    / minProfitThreshold config)
                 == maxPositionSize config).
  { apply Q.min_l.
    apply Qle_shift_div_l; [exact Hthreshold|]. nra. }
  unfold createExecutionPlan in Hplan.
  destruct (MarketStore.getMarket now store _) as [[current|] store'];
    [|discriminate].
  cbn in Hplan.
  destruct (OutcomePrices.ask (MarketData.yesPrices current)) as [y|];
    [|discriminate].
  destruct (OutcomePrices.ask (MarketData.noPrices current)) as [n|];
    [|discriminate].
  destruct (JS.ltb _ _); [discriminate|].
  cbn in Hplan. injection Hplan as <-. cbn.
  rewrite Hcap. repeat split; try reflexivity. field.
Qed.

Lemma plan_size_is_cap_scenario :
  exists plan,
    (createExecutionPlan 5 scenarioConfig scenarioStore scenarioOpportunity).1
    = Some plan /\
    ExecutionPlan.totalCost plan == 100.
Proof.
  destruct (detectArbitrage 0 scenarioConfig scenarioMarket)
    as [opportunity|] eqn:Hfound; [|discriminate Hfound].
  destruct (createExecutionPlan 5 scenarioConfig scenarioStore opportunity).1
    as [plan|] eqn:Hplan;
    [|vm_compute in Hfound; injection Hfound as <-; discriminate Hplan].
  destruct (plan_size_is_cap 0 5 scenarioConfig scenarioMarket scenarioStore
              opportunity plan Hfound) as (_ & _ & Hcost);
    [reflexivity | discriminate | exact Hplan |].
  exists plan. split; [|exact Hcost].
  vm_compute in Hfound. injection Hfound as <-.
  vm_compute in Hplan. injection Hplan as <-. reflexivity.
Defined.

End DetectorMore.

(** ** The arbitrage service: entering a position *)

Section ServiceMore.
Import ArbitrageConfig ArbitrageDetector PaperExecutionEngine.
Local Open Scope Q_scope.
#[local] Arguments executeTrade : simpl never.
#[local] Arguments settle : simpl never.
#[local] Arguments createExecutionPlan : simpl never.

Lemma createExecutionPlan_fields now config store opportunity plan :
  (createExecutionPlan now config store opportunity).1 = Some plan ->
  ExecutionPlan.totalCost plan
  = ExecutionPlan.yesSize plan + ExecutionPlan.noSize plan
  /\ ExecutionPlan.noSize plan = ExecutionPlan.yesSize plan
  /\ ExecutionPlan.marketId plan = ArbitrageOpportunity.marketId opportunity.
Proof.
  unfold createExecutionPlan.
  destruct (MarketStore.getMarket now store _) as [[current|] store'];
    [|discriminate].
  cbn.
  destruct (OutcomePrices.ask (MarketData.yesPrices current)) as [y|];
    [|discriminate].
  destruct (OutcomePrices.ask (MarketData.noPrices current)) as [n|];
    [|discriminate].
  destruct (JS.ltb _ _); [discriminate|].
  cbn. intros [= <-]. cbn. repeat split.
Qed.

(** A BUY with a valid limit price that the balance covers is settled
    at that price. *)
Lemma executeTrade_buy_settles now store e order price :
  TradeOrder.mode order = paper ->
  TradeOrder.action order = BUY ->
  TradeOrder.price order = Some price ->
  0 < price <= 1 ->
  TradeOrder.size order <= currentBalance e ->
  executeTrade now store e order = JS.Return (settle now store e order price).
Proof.
  intros Hmode Hbuy Hprice [Hpos Hle] Hfunds.
  rewrite (executeTrade_paper now store e order Hmode).
  unfold resolvedFillPrice, explicitPrice. rewrite Hprice, Hbuy.
  assert (Ht : JS.truthy price = true) by (apply truthy_nonzero; lra).
  rewrite Ht.
  assert (Hz : Qeq_bool price 0 = false).
  { apply not_true_iff_false. rewrite Qeq_bool_iff. lra. }
  assert (Hl : JS.leb price 0 = false) by (apply leb_gt; lra).
  assert (Hg : JS.ltb 1 price = false) by (apply ltb_ge; lra).
  assert (Hb : JS.ltb (currentBalance e) (TradeOrder.size order) = false)
    by (apply ltb_ge; lra).
  now rewrite Hz, Hl, Hg, Hb.
Qed.

(** What a settled BUY changes: the balance, and the bought side of the
    position; the other side is as it was. *)
Lemma settle_buy_frame now store e order fillPrice :
  TradeOrder.action order = BUY ->
  currentBalance (settle now store e order fillPrice).2
  = currentBalance e - TradeOrder.size order
  /\ sideTokens (settle now store e order fillPrice).2 (TradeOrder.marketId order)
       (opposite (TradeOrder.side order))
     = sideTokens e (TradeOrder.marketId order) (opposite (TradeOrder.side order))
  /\ sideEntryPrice (settle now store e order fillPrice).2
       (TradeOrder.marketId order) (opposite (TradeOrder.side order))
     = sideEntryPrice e (TradeOrder.marketId order)
         (opposite (TradeOrder.side order))
  /\ is_Some (positions (settle now store e order fillPrice).2
               !! TradeOrder.marketId order)
  /\ realizedPnL (settle now store e order fillPrice).2 = realizedPnL e.
Proof.
  intros Hbuy. unfold sideTokens, sideEntryPrice, settle, updatePosition. cbn.
  rewrite Hbuy.
  destruct (positions e !! TradeOrder.marketId order) as [position|];
    destruct (TradeOrder.side order); cbn;
    rewrite lookup_insert_eq; cbn;
    unfold updatePositionPnL;
    destruct (MarketStore.getMarket _ _ _).1; cbn;
    repeat split; eauto.
Qed.

(** The engine after both legs, when the plan passes the three checks
    and its prices are valid. *)
Lemma executeArbitrage_run now store d engine opportunity plan :
  (createExecutionPlan now (config d) store opportunity).1 = Some plan ->
  positions engine !! ExecutionPlan.marketId plan = None ->
  ExecutionPlan.totalCost plan <= currentBalance engine ->
  0 < ExecutionPlan.yesPrice plan <= 1 ->
  0 < ExecutionPlan.noPrice plan <= 1 ->
  0 <= ExecutionPlan.yesSize plan ->
  exists engine',
    ArbitrageService.executeArbitrage now store d engine opportunity
    = (markMarketTracked d (ExecutionPlan.marketId plan), engine') /\
    currentBalance engine'
    == currentBalance engine - ExecutionPlan.totalCost plan /\
    realizedPnL engine' = realizedPnL engine /\
    is_Some (positions engine' !! ExecutionPlan.marketId plan) /\
    sideTokens engine' (ExecutionPlan.marketId plan) YES
    == ExecutionPlan.yesSize plan / ExecutionPlan.yesPrice plan /\
    sideTokens engine' (ExecutionPlan.marketId plan) NO
    == ExecutionPlan.noSize plan / ExecutionPlan.noPrice plan.
Proof.
  intros Hplan Hnone Hfunds Hyes Hno Hsize.
  destruct (createExecutionPlan_fields _ _ _ _ _ Hplan) as (Hcost & Hsame & _).
  unfold ArbitrageService.executeArbitrage. rewrite Hplan.
  unfold getPosition, getBalance. rewrite Hnone.
  assert (Hcheck : JS.ltb (currentBalance engine) (ExecutionPlan.totalCost plan)
                   = false) by (now apply ltb_ge).
  rewrite Hcheck.
  set (engine0 := PaperExecutionEngine.mk _ _ _ _ _ _).
  set (yesOrder := TradeOrder.mk _ _ _ YES _ _ _ _ _).
  set (noOrder := TradeOrder.mk _ _ _ NO _ _ _ _ _).
  rewrite (executeTrade_buy_settles now store engine0 yesOrder
             (ExecutionPlan.yesPrice plan)); try reflexivity; try assumption;
    [|cbn; rewrite Hcost, Hsame in Hfunds; lra].
  destruct (settle now store engine0 yesOrder (ExecutionPlan.yesPrice plan))
    as [yesResult engine1] eqn:Hleg1.
  pose proof (settle_filled now store engine0 yesOrder
                (ExecutionPlan.yesPrice plan)) as Hfilled1.
  destruct (settle_buy now store engine0 yesOrder (ExecutionPlan.yesPrice plan)
              eq_refl) as (Htokens1 & _).
  destruct (settle_buy_frame now store engine0 yesOrder
              (ExecutionPlan.yesPrice plan) eq_refl)
    as (Hbalance1 & Hother1 & _ & _ & Hpnl1).
  rewrite Hleg1 in Hfilled1, Htokens1, Hbalance1, Hother1, Hpnl1.
  cbn in Hfilled1, Htokens1, Hbalance1, Hother1, Hpnl1.
  rewrite (executeTrade_buy_settles now store engine1 noOrder
             (ExecutionPlan.noPrice plan)); try reflexivity; try assumption;
    [|cbn; rewrite Hbalance1; rewrite Hcost in Hfunds; lra].
  destruct (settle now store engine1 noOrder (ExecutionPlan.noPrice plan))
    as [noResult engine2] eqn:Hleg2.
  pose proof (settle_filled now store engine1 noOrder
                (ExecutionPlan.noPrice plan)) as Hfilled2.
  destruct (settle_buy now store engine1 noOrder (ExecutionPlan.noPrice plan)
              eq_refl) as (Htokens2 & _).
  destruct (settle_buy_frame now store engine1 noOrder
              (ExecutionPlan.noPrice plan) eq_refl)
    as (Hbalance2 & Hother2 & _ & Hsome2 & Hpnl2).
  rewrite Hleg2 in Hfilled2, Htokens2, Hbalance2, Hother2, Hsome2, Hpnl2.
  cbn in Hfilled2, Htokens2, Hbalance2, Hother2, Hsome2, Hpnl2.
  rewrite Hfilled1, Hfilled2.
  exists engine2. split; [reflexivity|].
  unfold sideTokens in Htokens1, Hother1. cbn in Htokens1, Hother1.
  rewrite Hnone in Htokens1, Hother1. cbn in Htokens1, Hother1.
  split; [rewrite Hbalance2, Hbalance1, Hcost; cbn; ring|].
  split; [now rewrite Hpnl2, Hpnl1|].
  split; [exact Hsome2|].
  fold (sideTokens engine1 (ExecutionPlan.marketId plan) YES) in Htokens1.
  fold (sideTokens engine1 (ExecutionPlan.marketId plan) NO) in Hother1.
  split.
  - rewrite Hother2, Htokens1. ring.
  - rewrite Htokens2, Hother1. ring.
Qed.

(** X9.  [executeArbitrage] trades nothing when no plan is made, when
    the engine already has a position in the plan's market, or when the
    balance is below the plan's total cost: the market is not marked as
    tracked, and the balance, the trade history, the realized PnL and
    what every position holds are unchanged. *)
Theorem executeArbitrage_aborts (now : Z) (store : MarketStore.t)
    (d : ArbitrageDetector.detector) (engine : PaperExecutionEngine.t)
    (opportunity : ArbitrageOpportunity.t) :
  (createExecutionPlan now (config d) store opportunity).1 = None
  \/ (exists plan,
        (createExecutionPlan now (config d) store opportunity).1 = Some plan /\
        (is_Some (positions engine !! ExecutionPlan.marketId plan)
         \/ currentBalance engine < ExecutionPlan.totalCost plan)) ->
  (ArbitrageService.executeArbitrage now store d engine opportunity).1 = d
  /\ currentBalance
       (ArbitrageService.executeArbitrage now store d engine opportunity).2
     = currentBalance engine
  /\ tradeHistory
       (ArbitrageService.executeArbitrage now store d engine opportunity).2
     = tradeHistory engine
  /\ realizedPnL
       (ArbitrageService.executeArbitrage now store d engine opportunity).2
     = realizedPnL engine
  /\ holdings
     <$> positions
           (ArbitrageService.executeArbitrage now store d engine opportunity).2
     = holdings <$> positions engine.
Proof.
  unfold ArbitrageService.executeArbitrage.
  intros [-> | (plan & -> & Hstop)]; [repeat split|].
  pose proof (getPosition_holdings now store engine (ExecutionPlan.marketId plan))
    as Hheld.
  unfold getPosition, getBalance in *.
  destruct (positions engine !! ExecutionPlan.marketId plan) as [position|];
    [cbn in *; repeat split; exact Hheld|].
  destruct Hstop as [[? [=]] | Hshort].
  apply ltb_lt in Hshort. rewrite Hshort. repeat split.
Qed.

Lemma executeArbitrage_aborts_unfunded :
  currentBalance
    (ArbitrageService.executeArbitrage 5 scenarioStore scenarioDetector
       (constructor 60) scenarioOpportunity).2
  = 60
  /\ (ArbitrageService.executeArbitrage 5 scenarioStore scenarioDetector
        (constructor 60) scenarioOpportunity).1
     = scenarioDetector.
Proof.
  destruct (createExecutionPlan 5 (config scenarioDetector) scenarioStore
              scenarioOpportunity).1 as [plan|] eqn:Hplan;
    [|discriminate Hplan].
  destruct (executeArbitrage_aborts 5 scenarioStore scenarioDetector
              (constructor 60) scenarioOpportunity)
    as (Hd & Hbalance & _); [|now split].
  right. exists plan. split; [exact Hplan|]. right.
  vm_compute in Hplan. injection Hplan as <-. reflexivity.
Defined.

(** X10.  When the plan exists, the engine has no position in its
    market, the balance covers its total cost, its two prices lie in
    (0, 1] and its leg size is not negative, [executeArbitrage] fills both
    legs: the market becomes tracked, the balance drops by the total
    cost, and the position holds [yesSize / yesPrice] YES tokens and
    [noSize / noPrice] NO tokens. *)
Theorem executeArbitrage_fills_both_legs (now : Z) (store : MarketStore.t)
    (d : ArbitrageDetector.detector) (engine : PaperExecutionEngine.t)
    (opportunity : ArbitrageOpportunity.t) (plan : ExecutionPlan.t) :
  (createExecutionPlan now (config d) store opportunity).1 = Some plan ->
  positions engine !! ExecutionPlan.marketId plan = None ->
  ExecutionPlan.totalCost plan <= currentBalance engine ->
  0 < ExecutionPlan.yesPrice plan <= 1 ->
  0 < ExecutionPlan.noPrice plan <= 1 ->
  0 <= ExecutionPlan.yesSize plan ->
  isMarketTracked
    (ArbitrageService.executeArbitrage now store d engine opportunity).1
    (ExecutionPlan.marketId plan)
  = true
  /\ currentBalance
       (ArbitrageService.executeArbitrage now store d engine opportunity).2
     == currentBalance engine - ExecutionPlan.totalCost plan
  /\ sideTokens
       (ArbitrageService.executeArbitrage now store d engine opportunity).2
       (ExecutionPlan.marketId plan) YES
     == ExecutionPlan.yesSize plan / ExecutionPlan.yesPrice plan
  /\ sideTokens
       (ArbitrageService.executeArbitrage now store d engine opportunity).2
       (ExecutionPlan.marketId plan) NO
     == ExecutionPlan.noSize plan / ExecutionPlan.noPrice plan.
Proof.
  intros Hplan Hnone Hfunds Hyes Hno Hsize.
  destruct (executeArbitrage_run now store d engine opportunity plan Hplan
              Hnone Hfunds Hyes Hno Hsize)
    as (engine' & -> & Hbalance & _ & _ & Hyt & Hnt).
  cbn [fst snd]. repeat split; try assumption.
  apply bool_decide_eq_true. cbn.
  apply elem_of_union_l, elem_of_singleton. reflexivity.
Qed.

Lemma executeArbitrage_fills_both_legs_lopsided :
  currentBalance
    (ArbitrageService.executeArbitrage 5 lopsidedStore scenarioDetector
       (constructor 1000) lopsidedOpportunity).2
  == 900
  /\ sideTokens
       (ArbitrageService.executeArbitrage 5 lopsidedStore scenarioDetector
          (constructor 1000) lopsidedOpportunity).2 "w" NO
     == 400.
Proof.
  destruct (createExecutionPlan 5 (config scenarioDetector) lopsidedStore
              lopsidedOpportunity).1 as [plan|] eqn:Hplan;
    [|discriminate Hplan].
  assert (Hfields : ExecutionPlan.marketId plan = "w"%string
                    /\ ExecutionPlan.totalCost plan == 100
                    /\ ExecutionPlan.yesSize plan == 50
                    /\ ExecutionPlan.noSize plan == 50
                    /\ ExecutionPlan.yesPrice plan = 3 # 4
                    /\ ExecutionPlan.noPrice plan = 1 # 8).
  { vm_compute in Hplan. injection Hplan as <-. repeat split. }
  destruct Hfields as (Hid & Hcost & Hy & Hn & Hyp & Hnp).
  destruct (executeArbitrage_fills_both_legs 5 lopsidedStore scenarioDetector
              (constructor 1000) lopsidedOpportunity plan Hplan)
    as (_ & Hbalance & _ & Hno).
  - now rewrite Hid.
  - rewrite Hcost. cbn. lra.
  - rewrite Hyp. lra.
  - rewrite Hnp. lra.
  - rewrite Hy. lra.
  - rewrite Hbalance, Hcost. rewrite Hid, Hn, Hnp in Hno.
    split; [reflexivity | exact Hno].
Defined.

Lemma redeemPosition_balance now e marketId winningOutcome :
  is_Some (positions e !! marketId) ->
  currentBalance (redeemPosition now e marketId winningOutcome)
  == currentBalance e + sideTokens e marketId (winner winningOutcome).
Proof.
  intros [position Hp]. unfold redeemPosition, sideTokens, winner. rewrite Hp.
  pose proof (orElse_number (Position.yesTokens position)) as Hy.
  pose proof (orElse_number (Position.noTokens position)) as Hn.
  destruct (winningOutcome =? 0)%nat; cbn; rewrite ?Hy, ?Hn; ring.
Qed.

(** X11.  An arbitrage entry followed by the redemption of the position:
    the balance ends at the initial balance, minus the plan's total cost,
    plus the winning leg's dollars divided by its ask.  The legs are
    equal in dollars, not in tokens, so when the winning outcome was
    bought above 0.5, be it YES or NO, the redemption pays back less than
    the entry cost. *)
Theorem arbitrage_then_redemption (now now' : Z) (store : MarketStore.t)
    (d : ArbitrageDetector.detector) (engine : PaperExecutionEngine.t)
    (opportunity : ArbitrageOpportunity.t) (plan : ExecutionPlan.t)
    (winningOutcome : nat) :
  (createExecutionPlan now (config d) store opportunity).1 = Some plan ->
  positions engine !! ExecutionPlan.marketId plan = None ->
  ExecutionPlan.totalCost plan <= currentBalance engine ->
  0 < ExecutionPlan.yesPrice plan <= 1 ->
  0 < ExecutionPlan.noPrice plan <= 1 ->
  0 <= ExecutionPlan.yesSize plan ->
  currentBalance
    (redeemPosition now'
       (ArbitrageService.executeArbitrage now store d engine opportunity).2
       (ExecutionPlan.marketId plan) winningOutcome)
  == currentBalance engine - ExecutionPlan.totalCost plan
     + (if (winningOutcome =? 0)%nat
        then ExecutionPlan.yesSize plan / ExecutionPlan.yesPrice plan
        else ExecutionPlan.noSize plan / ExecutionPlan.noPrice plan)
  /\ (1 # 2 < (if (winningOutcome =? 0)%nat
               then ExecutionPlan.yesPrice plan
               else ExecutionPlan.noPrice plan) ->
      0 < ExecutionPlan.yesSize plan ->
      currentBalance
        (redeemPosition now'
           (ArbitrageService.executeArbitrage now store d engine opportunity).2
           (ExecutionPlan.marketId plan) winningOutcome)
      < currentBalance engine).
Proof.
  intros Hplan Hnone Hfunds Hyes Hno Hsize.
  destruct (createExecutionPlan_fields _ _ _ _ _ Hplan) as (Hcost & Hsame & _).
  destruct (executeArbitrage_run now store d engine opportunity plan Hplan
              Hnone Hfunds Hyes Hno Hsize)
    as (engine' & -> & Hbalance & _ & Hsome & Hyt & Hnt).
  cbn [fst snd].
  pose proof (redeemPosition_balance now' engine' (ExecutionPlan.marketId plan)
                winningOutcome Hsome) as Hredeem.
  assert (Hend : currentBalance
                   (redeemPosition now' engine' (ExecutionPlan.marketId plan)
                      winningOutcome)
                 == currentBalance engine - ExecutionPlan.totalCost plan
                    + (if (winningOutcome =? 0)%nat
                       then ExecutionPlan.yesSize plan / ExecutionPlan.yesPrice plan
                       else ExecutionPlan.noSize plan / ExecutionPlan.noPrice plan)).
  { rewrite Hredeem, Hbalance. unfold winner.
    destruct (winningOutcome =? 0)%nat; [rewrite Hyt | rewrite Hnt]; reflexivity. }
  split; [exact Hend|].
  intros Hhigh Hpositive. rewrite Hend, Hcost, Hsame.
  assert (Hpay : forall price,
             1 # 2 < price ->
             ExecutionPlan.yesSize plan / price < 2 * ExecutionPlan.yesSize plan).
  { intros price Hprice. apply Qlt_shift_div_r; [lra | nra]. }
  destruct (winningOutcome =? 0)%nat; specialize (Hpay _ Hhigh); lra.
Qed.

Lemma arbitrage_then_redemption_lopsided :
  currentBalance
    (redeemPosition 9
       (ArbitrageService.executeArbitrage 5 lopsidedStore scenarioDetector
          (constructor 1000) lopsidedOpportunity).2 "w" 0)
  < 1000.
Proof.
  destruct (createExecutionPlan 5 (config scenarioDetector) lopsidedStore
              lopsidedOpportunity).1 as [plan|] eqn:Hplan;
    [|discriminate Hplan].
  assert (Hfields : ExecutionPlan.marketId plan = "w"%string
                    /\ ExecutionPlan.totalCost plan == 100
                    /\ ExecutionPlan.yesSize plan == 50
                    /\ ExecutionPlan.yesPrice plan = 3 # 4
                    /\ ExecutionPlan.noPrice plan = 1 # 8).
  { vm_compute in Hplan. injection Hplan as <-. repeat split. }
  destruct Hfields as (Hid & Hcost & Hy & Hyp & Hnp).
  destruct (arbitrage_then_redemption 5 9 lopsidedStore scenarioDetector
              (constructor 1000) lopsidedOpportunity plan 0 Hplan)
    as (_ & Hloss).
  - now rewrite Hid.
  - rewrite Hcost. cbn. lra.
  - rewrite Hyp. lra.
  - rewrite Hnp. lra.
  - rewrite Hy. lra.
  - rewrite Hid in Hloss. apply Hloss; [cbn; rewrite Hyp; lra | rewrite Hy; lra].
Defined.

End ServiceMore.

(** ** The engine: what every sequence of calls preserves *)

Section EngineChanges.
Import PaperExecutionEngine.
Local Open Scope Q_scope.
#[local] Arguments executeTrade : simpl never.
#[local] Arguments settle : simpl never.
#[local] Arguments closeLeg : simpl never.
#[local] Arguments closePosition : simpl never.
#[local] Arguments redeemPosition : simpl never.

Variable accepts : TradeOrder.t -> Prop.

Abbreviation changes := (rtc (change accepts)).

Lemma settle_positions now store e order fillPrice :
  exists position',
    positions (settle now store e order fillPrice).2
    = <[TradeOrder.marketId order := position']> (positions e).
Proof.
  unfold settle, updatePosition. cbn.
  destruct (positions e !! TradeOrder.marketId order),
    (TradeOrder.side order), (TradeOrder.action order); cbn;
    repeat match goal with
      | |- context [if ?x then _ else _] => destruct x
      end; cbn; eexists; reflexivity.
Qed.

Lemma orElse_fallback (x : option Q) (d p : Q) :
  JS.orElse x 0 = p -> 0 < p -> JS.orElse x d = p.
Proof.
  unfold JS.orElse. destruct x as [v|]; [destruct (JS.truthy v)|];
    intros <- Hp; try reflexivity; exfalso; lra.
Qed.

(** A paper order is either rejected, leaving the engine as it is, or
    settled at a valid price the balance allows. *)
Lemma executeTrade_outcome now store e order :
  TradeOrder.mode order = paper ->
  executeTrade now store e order = JS.Return (rejectedResult now order, e)
  \/ exists fillPrice,
      executeTrade now store e order
      = JS.Return (settle now store e order fillPrice) /\
      resolvedFillPrice store order = Some fillPrice /\
      0 < fillPrice <= 1 /\
      (TradeOrder.action order = BUY ->
       TradeOrder.size order <= currentBalance e).
Proof.
  intros Hmode. rewrite (executeTrade_paper now store e order Hmode).
  destruct (resolvedFillPrice store order) as [fillPrice|]; [|now left].
  destruct (Qeq_bool fillPrice 0 || JS.leb fillPrice 0 || JS.ltb 1 fillPrice)
    eqn:Hbad; [now left|].
  apply orb_false_iff in Hbad as [Hbad Hgt].
  apply orb_false_iff in Hbad as [_ Hle]. js_tests.
  destruct (TradeOrder.action order) eqn:Hact.
  - destruct (JS.ltb (currentBalance e) (TradeOrder.size order)) eqn:Hfunds;
      [now left|]. js_tests.
    right. exists fillPrice. repeat split; auto.
  - right. exists fillPrice. repeat split; auto. discriminate.
Qed.

Lemma executeTrade_changes now store e order :
  accepts order ->
  changes e
    match executeTrade now store e order with
    | JS.Return (_, e') => e'
    | JS.Throw _ => e
    end.
Proof.
  intros Hok. destruct (TradeOrder.mode order) eqn:Hmode.
  - destruct (executeTrade_outcome now store e order Hmode)
      as [-> | (fillPrice & -> & _ & Hprice & Hfunds)]; [reflexivity|].
    destruct (settle now store e order fillPrice) as [result e'] eqn:Hs.
    apply rtc_once. replace e' with (settle now store e order fillPrice).2
      by (now rewrite Hs).
    now constructor.
  - unfold executeTrade. rewrite Hmode. reflexivity.
Qed.

(** One leg of [closePosition] never throws; it leaves a position in the
    market, the same positions elsewhere, and its result tells whether the
    balance and the history were touched. *)
Lemma closeLeg_changes side now store e marketId position :
  positions e !! marketId = Some position ->
  exists result e1,
    closeLeg side now store e marketId position = JS.Return ([result], e1) /\
    changes e e1 /\
    is_Some (positions e1 !! marketId) /\
    delete marketId (positions e1) = delete marketId (positions e).
Proof.
  intros Hp. unfold closeLeg.
  set (fillPrice := JS.orElse _ (Position.entryPrice side position)).
  set (order := TradeOrder.mk _ _ _ _ _ _ _ _ _).
  set (e0 := PaperExecutionEngine.mk _ _ _ _ _ _).
  assert (He0 : changes e e0).
  { apply rtc_once. apply (change_books accepts e (realizedPnL e) (S (uuidCount e))). }
  destruct (executeTrade_outcome now store e0 order eq_refl)
    as [-> | (price & -> & Hres & Hprice & _)]; cbn [JS.bind].
  - eexists _, _. split; [reflexivity|]. split; [|split].
    + etrans; [exact He0|]. apply rtc_once.
      apply (change_books accepts e0).
    + cbn. unfold reread. cbn. rewrite Hp. eauto.
    + reflexivity.
  - assert (Hfill : fillPrice = price).
    { unfold resolvedFillPrice, explicitPrice, bestQuote in Hres. cbn in Hres.
      subst fillPrice.
      destruct (MarketStore.markets store !! marketId) as [market|] eqn:Hm;
        [|discriminate].
      destruct (pricesOf_getMarket now store marketId market side Hm)
        as (market' & -> & ->).
      cbn in Hres. injection Hres as Hres.
      apply orElse_fallback; [exact Hres | tauto]. }
    destruct (settle now store e0 order price) as [result e1] eqn:Hs.
    assert (Hstep : change accepts e0 e1).
    { replace e1 with (settle now store e0 order price).2 by (now rewrite Hs).
      subst order. rewrite Hfill.
      apply (change_close accepts now store e0 _ marketId side position price);
        [exact Hp | exact Hprice]. }
    destruct (settle_positions now store e0 order price) as (position' & Hpos).
    rewrite Hs in Hpos. cbn in Hpos.
    eexists _, _. split; [reflexivity|]. split; [|split].
    + etrans; [exact He0|]. etrans; [apply rtc_once, Hstep|].
      apply rtc_once. apply (change_books accepts e1).
    + cbn. rewrite Hpos, lookup_insert_eq. eauto.
    + cbn. rewrite Hpos. apply delete_insert_eq.
Qed.

(** [closePosition] never throws, and the positions it leaves are the
    former ones without the market's. *)
Lemma closePosition_changes now store e marketId :
  exists results e',
    closePosition now store e marketId = JS.Return (results, e') /\
    changes e e' /\
    positions e' = delete marketId (positions e).
Proof.
  unfold closePosition.
  destruct (positions e !! marketId) as [position|] eqn:Hp.
  - assert (Hleg1 : exists results1 e1,
               (if JS.ltb 0 (Position.yesTokens position)
                then closeLeg YES now store e marketId position
                else JS.Return ([], e))
               = JS.Return (results1, e1) /\
               changes e e1 /\
               is_Some (positions e1 !! marketId) /\
               delete marketId (positions e1) = delete marketId (positions e)).
    { destruct (JS.ltb 0 (Position.yesTokens position)).
      - destruct (closeLeg_changes YES now store e marketId position Hp)
          as (r & e1 & H); eauto.
      - eexists _, _. split; [reflexivity|]. rewrite Hp. repeat split; eauto.
        reflexivity. }
    destruct Hleg1 as (results1 & e1 & -> & Hchanges1 & [position1 Hp1] & Hdel1).
    cbn [JS.bind]. unfold reread. rewrite Hp1. cbn [default from_option id].
    assert (Hleg2 : exists results2 e2,
               (if JS.ltb 0 (Position.noTokens position1)
                then closeLeg NO now store e1 marketId position1
                else JS.Return ([], e1))
               = JS.Return (results2, e2) /\
               changes e1 e2 /\
               delete marketId (positions e2) = delete marketId (positions e1)).
    { destruct (JS.ltb 0 (Position.noTokens position1)).
      - destruct (closeLeg_changes NO now store e1 marketId position1 Hp1)
          as (r & e2 & H1 & H2 & _ & H3); eauto 6.
      - eexists _, _. split; [reflexivity|]. split; reflexivity. }
    destruct Hleg2 as (results2 & e2 & -> & Hchanges2 & Hdel2).
    cbn [JS.bind]. eexists _, _. split; [reflexivity|]. split.
    + etrans; [exact Hchanges1|]. etrans; [exact Hchanges2|].
      apply rtc_once. apply (change_delete accepts e2 marketId).
    + cbn. now rewrite Hdel2, Hdel1.
  - eexists _, _. split; [reflexivity|]. split; [reflexivity|].
    symmetry. now apply delete_id.
Qed.

Lemma closeEach_changes now store marketIds : forall e,
  exists results e',
    closeEach now store e marketIds = JS.Return (results, e') /\
    changes e e' /\
    positions e' = foldr delete (positions e) marketIds.
Proof.
  induction marketIds as [|marketId rest IH]; intros e; cbn [closeEach].
  - eexists _, _. split; [reflexivity|]. split; reflexivity.
  - destruct (closePosition_changes now store e marketId)
      as (results & e1 & -> & Hchanges1 & Hpos1).
    cbn [JS.bind].
    destruct (IH e1) as (allResults & e2 & -> & Hchanges2 & Hpos2).
    cbn [JS.bind]. eexists _, _. split; [reflexivity|]. split.
    + etrans; eassumption.
    + rewrite Hpos2, Hpos1. cbn.
      clear. induction rest as [|k rest IH]; cbn; [reflexivity|].
      rewrite IH. apply delete_delete.
Qed.

Lemma perform_changes now store e c :
  (forall order, c = ExecuteTrade order -> accepts order) ->
  changes e (perform now store e c).
Proof.
  intros Hok. destruct c as [order|marketId| |marketId| |marketId w]; cbn [perform].
  - apply executeTrade_changes. now apply Hok.
  - assert (Hshape : (getPosition now store e marketId).2
                     = withPositions e
                         (positions (getPosition now store e marketId).2)).
    { unfold getPosition. destruct (positions e !! marketId); cbn;
        [reflexivity | now destruct e]. }
    rewrite Hshape. apply rtc_once. constructor.
    apply getPosition_holdings.
  - apply rtc_once.
    apply (change_refresh accepts e (updatePositionPnL now store <$> positions e)).
    rewrite <- map_fmap_compose. apply map_fmap_ext.
    intros k position _. apply updatePositionPnL_holdings.
  - destruct (closePosition_changes now store e marketId)
      as (results & e' & -> & Hchanges & _). exact Hchanges.
  - unfold closeAllPositions.
    destruct (closeEach_changes now store (map_to_list (positions e)).*1 e)
      as (results & e' & -> & Hchanges & _). exact Hchanges.
  - apply rtc_once. constructor.
Qed.

Lemma performAll_changes calls : forall e,
  Forall accepts (ordersOf calls) ->
  changes e (performAll e calls).
Proof.
  induction calls as [|[[now store] c] rest IH]; intros e Hok; cbn [performAll].
  - reflexivity.
  - etrans; [apply perform_changes | apply IH].
    + intros order ->. unfold ordersOf in Hok. cbn in Hok.
      now apply Forall_cons in Hok as [Hok _].
    + unfold ordersOf in *. cbn in Hok. destruct c; cbn in Hok; try exact Hok.
      now apply Forall_cons in Hok as [_ Hok].
Qed.

End EngineChanges.

Section EngineInvariants.
Import PaperExecutionEngine.
Local Open Scope Q_scope.
#[local] Arguments executeTrade : simpl never.

Lemma refreshed_lookup (positions' positions0 : gmap string Position.t)
    (marketId : string) (position' : Position.t) :
  holdings <$> positions' = holdings <$> positions0 ->
  positions' !! marketId = Some position' ->
  exists position,
    positions0 !! marketId = Some position /\ holdings position = holdings position'.
Proof.
  intros Hsame Hp.
  assert (H : (holdings <$> positions0) !! marketId = Some (holdings position'))
    by (now rewrite <- Hsame, lookup_fmap, Hp).
  rewrite lookup_fmap in H.
  destruct (positions0 !! marketId) as [position|]; [|discriminate].
  change (Some (holdings position) = Some (holdings position')) in H.
  exists position. split; [reflexivity | congruence].
Qed.

Lemma pushTrade_length trade history :
  (length (pushTrade trade history) <= 1000)%nat.
Proof.
  unfold pushTrade.
  destruct (1000 <? length (history ++ [trade]))%nat eqn:H.
  - unfold JS.sliceLast. rewrite length_drop. lia.
  - now apply Nat.ltb_ge in H.
Qed.

Lemma settle_solvent now store e order fillPrice :
  0 <= TradeOrder.size order ->
  0 < fillPrice ->
  (TradeOrder.action order = BUY -> TradeOrder.size order <= currentBalance e) ->
  solvent e -> solvent (settle now store e order fillPrice).2.
Proof.
  intros Hsize Hprice Hfunds [Hbalance Htokens].
  assert (Hbought : 0 <= TradeOrder.size order / fillPrice).
  { apply Qle_shift_div_l; [exact Hprice | lra]. }
  assert (Hold : forall position,
             positions e !! TradeOrder.marketId order = Some position ->
             0 <= Position.yesTokens position /\ 0 <= Position.noTokens position)
    by (intros position; apply Htokens).
  split.
  - unfold settle, updatePosition. cbn.
    destruct (positions e !! TradeOrder.marketId order);
      destruct (TradeOrder.side order), (TradeOrder.action order); cbn;
      repeat match goal with
        | |- context [if JS.leb ?x ?y then _ else _] =>
            destruct (JS.leb x y) eqn:?
        end; cbn;
      first [specialize (Hfunds eq_refl); lra | lra].
  - intros marketId position'.
    destruct (decide (marketId = TradeOrder.marketId order)) as [-> | Hne].
    + destruct (positions e !! TradeOrder.marketId order) as [old|] eqn:Hp.
      * destruct (Hold old eq_refl) as [Hy Hn].
        unfold settle, updatePosition. cbn. rewrite Hp.
        destruct (TradeOrder.side order), (TradeOrder.action order); cbn;
          repeat match goal with
            | |- context [if JS.leb ?x ?y then _ else _] =>
                destruct (JS.leb x y) eqn:?
            end; cbn; rewrite lookup_insert_eq; intros [= <-];
          unfold updatePositionPnL; destruct (MarketStore.getMarket _ _ _).1;
          cbn; js_tests; split; lra.
      * unfold settle, updatePosition. cbn. rewrite Hp.
        destruct (TradeOrder.side order), (TradeOrder.action order); cbn;
          repeat match goal with
            | |- context [if JS.leb ?x ?y then _ else _] =>
                destruct (JS.leb x y) eqn:?
            end; cbn; rewrite lookup_insert_eq; intros [= <-];
          unfold updatePositionPnL; destruct (MarketStore.getMarket _ _ _).1;
          cbn; js_tests; split; lra.
    + destruct (settle_positions now store e order fillPrice) as (p' & ->).
      rewrite lookup_insert_ne by congruence. apply Htokens.
Qed.

Lemma settle_costed now store e order fillPrice :
  costed e -> costed (settle now store e order fillPrice).2.
Proof.
  intros Hcost marketId position'.
  destruct (decide (marketId = TradeOrder.marketId order)) as [-> | Hne].
  - unfold settle, updatePosition. cbn.
    destruct (positions e !! TradeOrder.marketId order) as [old|];
      destruct (TradeOrder.side order), (TradeOrder.action order); cbn;
      repeat match goal with
        | |- context [if JS.leb ?x ?y then _ else _] =>
            destruct (JS.leb x y) eqn:?
        end; cbn; rewrite lookup_insert_eq; intros [= <-];
      unfold updatePositionPnL; destruct (MarketStore.getMarket _ _ _).1;
      cbn; reflexivity.
  - destruct (settle_positions now store e order fillPrice) as (p' & ->).
    rewrite lookup_insert_ne by congruence. apply Hcost.
Qed.

Lemma settle_history now store e order fillPrice :
  (length (tradeHistory (settle now store e order fillPrice).2) <= 1000)%nat.
Proof.
  unfold settle. cbn. apply pushTrade_length.
Qed.

Section Preserved.
Variable accepts : TradeOrder.t -> Prop.

Lemma change_solvent e e' :
  (forall order, accepts order -> 0 <= TradeOrder.size order) ->
  change accepts e e' -> solvent e -> solvent e'.
Proof.
  intros Hsizes Hchange Hsolvent.
  destruct Hchange
    as [now store e order p Hok [Hp _] Hfunds
       | now store e oid marketId side position p Hpos [Hp _]
       | e positions' Hsame | e marketId | e realized uuids
       | now e marketId w].
  - apply settle_solvent; auto.
  - apply settle_solvent; auto; [|discriminate]. cbn.
    destruct Hsolvent as [_ Htokens]. destruct (Htokens _ _ Hpos) as [Hy Hn].
    destruct side; cbn; nra.
  - destruct Hsolvent as [Hbalance Htokens]. split; [exact Hbalance|].
    intros marketId position' Hp'. cbn in Hp'.
    destruct (refreshed_lookup _ _ _ _ Hsame Hp') as (position & Hp & Hheld).
    destruct (Htokens _ _ Hp) as [Hy Hn].
    unfold holdings in Hheld. injection Hheld as <- <- _ _ _. now split.
  - destruct Hsolvent as [Hbalance Htokens]. split; [exact Hbalance|].
    intros k position' Hp'. cbn in Hp'.
    apply lookup_delete_Some in Hp' as [_ Hp']. now apply (Htokens k).
  - exact Hsolvent.
  - destruct Hsolvent as [Hbalance Htokens]. unfold redeemPosition.
    destruct (positions e !! marketId) as [position|] eqn:Hp; [|now split].
    destruct (Htokens _ _ Hp) as [Hy Hn].
    pose proof (orElse_number (Position.yesTokens position)) as Hyes.
    pose proof (orElse_number (Position.noTokens position)) as Hno.
    split.
    + destruct (w =? 0)%nat; cbn; rewrite ?Hyes, ?Hno; lra.
    + intros k position' Hp'.
      destruct (w =? 0)%nat; cbn in Hp';
        apply lookup_delete_Some in Hp' as [_ Hp']; now apply (Htokens k).
Qed.

Lemma change_costed e e' : change accepts e e' -> costed e -> costed e'.
Proof.
  intros Hchange Hcost.
  destruct Hchange
    as [now store e order p _ _ _
       | now store e oid marketId side position p _ _
       | e positions' Hsame | e marketId | e realized uuids
       | now e marketId w].
  - now apply settle_costed.
  - now apply settle_costed.
  - intros marketId position' Hp'. cbn in Hp'.
    destruct (refreshed_lookup _ _ _ _ Hsame Hp') as (position & Hp & Hheld).
    specialize (Hcost _ _ Hp).
    unfold holdings in Hheld. injection Hheld as <- <- <- <- <-. exact Hcost.
  - intros k position' Hp'. cbn in Hp'.
    apply lookup_delete_Some in Hp' as [_ Hp']. now apply (Hcost k).
  - exact Hcost.
  - unfold redeemPosition.
    destruct (positions e !! marketId) as [position|]; [|exact Hcost].
    intros k position' Hp'.
    destruct (w =? 0)%nat; cbn in Hp';
      apply lookup_delete_Some in Hp' as [_ Hp']; now apply (Hcost k).
Qed.

Lemma change_history e e' :
  change accepts e e' ->
  (length (tradeHistory e) <= 1000)%nat ->
  (length (tradeHistory e') <= 1000)%nat.
Proof.
  intros Hchange Hcap.
  destruct Hchange
    as [now store e order p _ _ _
       | now store e oid marketId side position p _ _
       | e positions' Hsame | e marketId | e realized uuids
       | now e marketId w]; try exact Hcap.
  - apply settle_history.
  - apply settle_history.
  - unfold redeemPosition.
    destruct (positions e !! marketId) as [position|]; [|exact Hcap].
    destruct (w =? 0)%nat; cbn; apply pushTrade_length.
Qed.

End Preserved.

(** X12.  The engine stays solvent: from a starting capital that is not
    negative, after any sequence of calls of its interface whose orders
    have sizes that are not negative, the balance is not negative and no
    position holds a negative number of tokens. *)
Theorem engine_stays_solvent (capital : Q)
    (calls : list (Z * MarketStore.t * call)) :
  0 <= capital ->
  Forall (fun order => 0 <= TradeOrder.size order) (ordersOf calls) ->
  solvent (performAll (constructor capital) calls).
Proof.
  intros Hcapital Hsizes.
  pose proof (performAll_changes (fun order => 0 <= TradeOrder.size order)
                calls (constructor capital) Hsizes) as Hchanges.
  assert (Hstart : solvent (constructor capital)).
  { split; [exact Hcapital|]. intros k position H. cbn in H.
    now rewrite lookup_empty in H. }
  induction Hchanges as [e | e e1 e2 Hstep _ IH]; [exact Hstart|].
  apply IH. eapply change_solvent; [|exact Hstep | exact Hstart]. auto.
Qed.

Lemma engine_stays_solvent_busyDay :
  solvent (performAll (constructor 100) busyDay).
Proof.
  apply engine_stays_solvent; [lra|].
  unfold ordersOf, busyDay. cbn [omap list_omap snd].
  repeat (apply List.Forall_cons; [cbn; lra|]). apply List.Forall_nil.
Defined.

(** X13.  After any sequence of calls on a new engine in which the
    orders passed to [executeTrade] have positive sizes (so that no buy
    divides by a token count of 0), the [totalEntryCost] of every
    position is [yesTokens * yesEntryPrice + noTokens * noEntryPrice]. *)
Theorem entry_cost_kept (capital : Q) (calls : list (Z * MarketStore.t * call)) :
  Forall (fun order => 0 < TradeOrder.size order) (ordersOf calls) ->
  costed (performAll (constructor capital) calls).
Proof.
  intros Hsizes.
  pose proof (performAll_changes (fun order => 0 < TradeOrder.size order)
                calls (constructor capital) Hsizes) as Hchanges.
  assert (Hstart : costed (constructor capital)).
  { intros k position H. cbn in H. now rewrite lookup_empty in H. }
  induction Hchanges as [e | e e1 e2 Hstep _ IH]; [exact Hstart|].
  apply IH. eapply change_costed; eassumption.
Qed.

Lemma entry_cost_kept_busyDay :
  costed (performAll (constructor 100) busyDay).
Proof.
  apply entry_cost_kept.
  unfold ordersOf, busyDay. cbn [omap list_omap snd].
  repeat (apply List.Forall_cons; [cbn; lra|]). apply List.Forall_nil.
Defined.

(** X14.  After any sequence of calls on a new engine, the trade history
    holds at most 1000 records. *)
Theorem trade_history_capped (capital : Q)
    (calls : list (Z * MarketStore.t * call)) :
  (length (tradeHistory (performAll (constructor capital) calls)) <= 1000)%nat.
Proof.
  pose proof (performAll_changes (fun _ => True) calls (constructor capital))
    as Hchanges.
  assert (Hstart : (length (tradeHistory (constructor capital)) <= 1000)%nat)
    by (cbn; lia).
  specialize (Hchanges ltac:(apply Forall_forall; auto)).
  induction Hchanges as [e | e e1 e2 Hstep _ IH]; [exact Hstart|].
  apply IH. eapply change_history; eassumption.
Qed.

End EngineInvariants.

Section EngineClosing.
Import PaperExecutionEngine.
Local Open Scope Q_scope.

(** X15.  [closePosition] never throws, and when it returns the market
    has no position any more, whether its closing orders were filled or
    rejected; the positions of the other markets are as they were. *)
Theorem closePosition_removes (now : Z) (store : MarketStore.t) (e : t)
    (marketId : string) :
  exists results e',
    closePosition now store e marketId = JS.Return (results, e') /\
    positions e' !! marketId = None /\
    forall other, other <> marketId -> positions e' !! other = positions e !! other.
Proof.
  destruct (closePosition_changes (fun _ => True) now store e marketId)
    as (results & e' & Hrun & _ & Hpositions).
  exists results, e'. split; [exact Hrun|]. rewrite Hpositions. split.
  - apply lookup_delete_eq.
  - intros other Hother. now apply lookup_delete_ne.
Qed.

(** X16.  [closeAllPositions] never throws and leaves the engine without
    any position. *)
Theorem closeAllPositions_empties (now : Z) (store : MarketStore.t) (e : t) :
  exists results e',
    closeAllPositions now store e = JS.Return (results, e') /\
    positions e' = ∅.
Proof.
  unfold closeAllPositions.
  destruct (closeEach_changes (fun _ => True) now store
              (map_to_list (positions e)).*1 e)
    as (results & e' & Hrun & _ & Hpositions).
  exists results, e'. split; [exact Hrun|]. rewrite Hpositions.
  apply map_eq. intros k. rewrite lookup_empty.
  destruct (positions e !! k) as [position|] eqn:Hk.
  - apply lookup_foldr_delete, list_elem_of_fmap.
    exists (k, position). split; [reflexivity|].
    now apply elem_of_map_to_list.
  - destruct (foldr delete (positions e) (map_to_list (positions e)).*1 !! k)
      as [position|] eqn:Hfound; [|reflexivity].
    apply lookup_foldr_delete_Some in Hfound as [_ Hfound]. congruence.
Qed.

Lemma slice_newest_first {A} (limit : Z) (l : list A) :
  reverse (JS.slice (- limit) l) = take (returnedCount (length l) limit) (reverse l).
Proof.
  unfold JS.slice, returnedCount. rewrite reverse_drop.
  destruct (0 <? limit)%Z eqn:Hlimit.
  - apply Z.ltb_lt in Hlimit.
    assert (Hneg : (- limit <? 0)%Z = true) by (apply Z.ltb_lt; lia).
    rewrite Hneg.
    destruct (decide (Z.of_nat (length l) <= limit)%Z) as [Hall | Hsome].
    + rewrite Z.max_r by lia. cbn. rewrite Nat.sub_0_r.
      rewrite <- (length_reverse l) at 1.
      rewrite firstn_all, take_ge; [reflexivity|].
      rewrite length_reverse. lia.
    + f_equal. lia.
  - apply Z.ltb_ge in Hlimit.
    assert (Hneg : (- limit <? 0)%Z = false) by (apply Z.ltb_ge; lia).
    rewrite Hneg. f_equal. lia.
Qed.

(** X17.  [getTradeHistory(limit)] and [getDetectedTrades(limit)] return
    the newest entries first: the [limit] most recent ones for a positive
    [limit], all but the [-limit] oldest for a negative one; a [limit] of
    0 returns the whole list, not an empty one. *)
Theorem history_newest_first (e : t) (detectedTrades : list DetectedTrade.t)
    (limit : Z) :
  getTradeHistory e limit
  = take (returnedCount (length (tradeHistory e)) limit) (reverse (tradeHistory e))
  /\ CopyTradingService.getDetectedTrades detectedTrades limit
     = take (returnedCount (length detectedTrades) limit) (reverse detectedTrades)
  /\ getTradeHistory e 0 = reverse (tradeHistory e)
  /\ CopyTradingService.getDetectedTrades detectedTrades 0 = reverse detectedTrades.
Proof.
  unfold getTradeHistory, CopyTradingService.getDetectedTrades.
  rewrite !slice_newest_first. repeat split.
  - unfold returnedCount. cbn. rewrite Nat.sub_0_r.
    rewrite <- (length_reverse (tradeHistory e)). apply firstn_all.
  - unfold returnedCount. cbn. rewrite Nat.sub_0_r.
    rewrite <- (length_reverse detectedTrades). apply firstn_all.
Qed.

End EngineClosing.

Section ScanMore.
Import ArbitrageConfig ArbitrageDetector PaperExecutionEngine.
Local Open Scope Q_scope.
#[local] Arguments executeTrade : simpl never.

Lemma executeTrade_elsewhere now store e order other :
  TradeOrder.mode order = paper ->
  other <> TradeOrder.marketId order ->
  exists result e',
    executeTrade now store e order = JS.Return (result, e') /\
    positions e' !! other = positions e !! other.
Proof.
  intros Hmode Hother.
  destruct (executeTrade_outcome now store e order Hmode)
    as [-> | (fillPrice & -> & _)].
  - eexists _, _. split; reflexivity.
  - destruct (settle now store e order fillPrice) as [result e'] eqn:Hsettle.
    exists result, e'. split; [reflexivity|].
    destruct (settle_positions now store e order fillPrice) as (position' & Hp).
    rewrite Hsettle in Hp. cbn in Hp. rewrite Hp.
    now apply lookup_insert_ne.
Qed.

Lemma executeArbitrage_elsewhere now store d engine opportunity other :
  other <> ArbitrageOpportunity.marketId opportunity ->
  positions (ArbitrageService.executeArbitrage now store d engine opportunity).2
    !! other
  = positions engine !! other
  /\ trackedMarkets d
     ⊆ trackedMarkets
         (ArbitrageService.executeArbitrage now store d engine opportunity).1.
Proof.
  intros Hother. unfold ArbitrageService.executeArbitrage.
  destruct (createExecutionPlan now (config d) store opportunity).1
    as [plan|] eqn:Hplan; [|now split].
  destruct (createExecutionPlan_fields _ _ _ _ _ Hplan) as (_ & _ & Hid).
  rewrite <- Hid in Hother.
  unfold getPosition.
  destruct (positions engine !! ExecutionPlan.marketId plan) as [held|];
    cbn [fst snd].
  { cbn. split; [now apply lookup_insert_ne | reflexivity]. }
  destruct (JS.ltb _ _); [now split|].
  match goal with
  | |- context [executeTrade now store ?e0 ?order] =>
      destruct (executeTrade_elsewhere now store e0 order other eq_refl Hother)
        as (yesResult & engine1 & -> & Hyes)
  end.
  match goal with
  | |- context [executeTrade now store engine1 ?order] =>
      destruct (executeTrade_elsewhere now store engine1 order other eq_refl
                  Hother)
        as (noResult & engine2 & -> & Hno)
  end.
  cbn in Hyes.
  destruct (FillResult.status yesResult), (FillResult.status noResult);
    cbn [fst snd]; (split; [congruence|]);
    first [reflexivity | cbn; set_solver].
Qed.

(** X18.  A scan never trades a market that the detector tracks: after
    [scanAndExecute] the position of a tracked market is what it was, and
    the market is still tracked. *)
Theorem scanAndExecute_spares_tracked (now : Z) (store : MarketStore.t)
    (d : ArbitrageDetector.detector) (engine : PaperExecutionEngine.t)
    (marketId : string) :
  isMarketTracked d marketId = true ->
  positions (ArbitrageService.scanAndExecute now store d engine).2 !! marketId
  = positions engine !! marketId
  /\ isMarketTracked (ArbitrageService.scanAndExecute now store d engine).1
       marketId
     = true.
Proof.
  intros Htracked. apply bool_decide_eq_true in Htracked.
  unfold ArbitrageService.scanAndExecute, isMarketTracked.
  destruct (negb (isEnabled d)); [split; [reflexivity | now apply bool_decide_eq_true]|].
  destruct (scanOpportunities now d store) as [|best rest] eqn:Hscan;
    [split; [reflexivity | now apply bool_decide_eq_true]|].
  assert (Hbest : ArbitrageOpportunity.marketId best ∉ trackedMarkets d).
  { apply (scanOpportunities_untracked now d store). rewrite Hscan. now left. }
  assert (Hother : marketId <> ArbitrageOpportunity.marketId best)
    by (intros ->; contradiction).
  destruct (executeArbitrage_elsewhere now store d engine best marketId Hother)
    as [Hpositions Hkept].
  split; [exact Hpositions|]. apply bool_decide_eq_true. set_solver.
Qed.

Lemma scanAndExecute_spares_tracked_entered :
  positions
    (ArbitrageService.scanAndExecute 0 twoMarketStore enteredDetector
       (constructor 1000)).2 !! "w"%string
  = None
  /\ isMarketTracked
       (ArbitrageService.scanAndExecute 0 twoMarketStore enteredDetector
          (constructor 1000)).1 "w"
     = true.
Proof.
  apply (scanAndExecute_spares_tracked 0 twoMarketStore enteredDetector
           (constructor 1000) "w").
  reflexivity.
Defined.

End ScanMore.

Section CopyMore.
Import CopyTradingService PaperExecutionEngine.
Local Open Scope Q_scope.
#[local] Arguments executeTrade : simpl never.

(** X19.  When the effective minimum does not exceed the effective
    maximum, the maximum is not negative and the effective
    [minVolumeForScaling] is positive (so that the proportional branch is
    reached with a positive volume only, and never divides by 0), the
    copy size lies between the minimum and the maximum, whatever the
    user's window and the size of the trade. *)
Theorem calculateProportionalSize_bounded (config : CopyTradingConfig.t)
    (userTradeHistory : gmap string (JSMap.t Q)) (tradeSize : Q)
    (tradeHash userAddress : string) :
  minTradeSize config <= maxTradeSize config ->
  0 <= maxTradeSize config ->
  0 < minVolumeForScaling config ->
  minTradeSize config
  <= calculateProportionalSize config userTradeHistory tradeSize tradeHash
       userAddress
  <= maxTradeSize config.
Proof.
  intros Hordered Hmax Hvolume.
  unfold calculateProportionalSize.
  fold (minTradeSize config) (maxTradeSize config) (minVolumeForScaling config).
  assert (Hdefault : forall share,
             0 <= share <= 1 ->
             minTradeSize config
             <= Qmax (minTradeSize config) (maxTradeSize config * share)
             <= maxTradeSize config).
  { intros share [Hlow Hhigh]. split; [apply Q.le_max_l|].
    apply Q.max_lub; [exact Hordered | nra]. }
  destruct (userTradeHistory !! JS.toLowerCase userAddress) as [window|].
  - destruct (JSMap.size window <? 2)%nat; [apply Hdefault; lra|].
    destruct (JS.ltb _ _); [apply Hdefault; lra|].
    split; [|apply Q.le_min_r].
    apply Q.min_glb; [apply Q.le_max_l | exact Hordered].
  - apply Hdefault; lra.
Qed.

Lemma calculateProportionalSize_bounded_default :
  10 <= calculateProportionalSize (defaultConfig []) ∅ 5 "h" "0xA" <= 1000.
Proof.
  apply (calculateProportionalSize_bounded (defaultConfig []) ∅ 5 "h" "0xA");
    vm_compute; first [discriminate | reflexivity].
Defined.

Lemma settle_balance now store e order fillPrice :
  currentBalance (settle now store e order fillPrice).2
  = match TradeOrder.action order with
    | BUY => currentBalance e - TradeOrder.size order
    | SELL => currentBalance e + TradeOrder.size order
    end.
Proof.
  unfold settle, updatePosition. cbn.
  destruct (positions e !! TradeOrder.marketId order);
    destruct (TradeOrder.side order), (TradeOrder.action order); cbn;
    repeat match goal with
      | |- context [if JS.leb ?x ?y then _ else _] => destruct (JS.leb x y)
      end; reflexivity.
Qed.

Lemma getPosition_untouched now store engine marketId :
  untouched engine (getPosition now store engine marketId).2.
Proof.
  pose proof (getPosition_holdings now store engine marketId) as Hheld.
  unfold untouched. split; [|split; [|split; [|exact Hheld]]];
    unfold getPosition; now destruct (positions engine !! marketId).
Qed.

Lemma executeCopyTrade_outcome now store engine detectedTrade copySize :
  DetectedTrade.executed detectedTrade = false ->
  DetectedTrade.executedAt detectedTrade = None ->
  DetectedTrade.executionError detectedTrade = None ->
  exists detected engine',
    executeCopyTrade now store engine detectedTrade copySize
    = (detected, engine') /\
    DetectedTrade.trade detected = DetectedTrade.trade detectedTrade /\
    DetectedTrade.trackedUser detected = DetectedTrade.trackedUser detectedTrade /\
    DetectedTrade.detectedAt detected = DetectedTrade.detectedAt detectedTrade /\
    (copied now detected /\
     currentBalance engine'
     = match PolymarketTrade.side (DetectedTrade.trade detectedTrade) with
       | BUY => currentBalance engine - copySize
       | SELL => currentBalance engine + copySize
       end
     \/ failed detected /\ untouched engine engine').
Proof.
  intros Hexecuted Hat Herror. unfold executeCopyTrade.
  set (trade := DetectedTrade.trade detectedTrade).
  set (side := match PolymarketTrade.outcome trade with
               | Some "Yes"%string | Some "YES"%string => YES
               | _ => NO
               end).
  assert (Hrun : forall engine0,
    untouched engine engine0 ->
    exists detected engine',
      match
        executeTrade now store
          (PaperExecutionEngine.mk (positions engine0) (tradeHistory engine0)
             (startingCapital engine0) (currentBalance engine0)
             (realizedPnL engine0) (S (uuidCount engine0)))
          (TradeOrder.mk (JS.uuidv4 (uuidCount engine0))
             (PolymarketTrade.conditionId trade)
             (PolymarketTrade.conditionId trade) side
             (PolymarketTrade.side trade) copySize
             (Some (PolymarketTrade.price trade)) paper now)
      with
      | JS.Return (result, engine') =>
          match FillResult.status result with
          | filled | partial =>
              (DetectedTrade.mk trade (DetectedTrade.trackedUser detectedTrade)
                 (DetectedTrade.detectedAt detectedTrade) true (Some now)
                 (DetectedTrade.executionError detectedTrade),
               engine')
          | pending =>
              (DetectedTrade.mk trade (DetectedTrade.trackedUser detectedTrade)
                 (DetectedTrade.detectedAt detectedTrade)
                 (DetectedTrade.executed detectedTrade)
                 (DetectedTrade.executedAt detectedTrade)
                 (Some "Trade status: pending"%string),
               engine')
          | rejected =>
              (DetectedTrade.mk trade (DetectedTrade.trackedUser detectedTrade)
                 (DetectedTrade.detectedAt detectedTrade)
                 (DetectedTrade.executed detectedTrade)
                 (DetectedTrade.executedAt detectedTrade)
                 (Some "Trade status: rejected"%string),
               engine')
          | cancelled =>
              (DetectedTrade.mk trade (DetectedTrade.trackedUser detectedTrade)
                 (DetectedTrade.detectedAt detectedTrade)
                 (DetectedTrade.executed detectedTrade)
                 (DetectedTrade.executedAt detectedTrade)
                 (Some "Trade status: cancelled"%string),
               engine')
          end
      | JS.Throw message =>
          (DetectedTrade.mk trade (DetectedTrade.trackedUser detectedTrade)
             (DetectedTrade.detectedAt detectedTrade)
             (DetectedTrade.executed detectedTrade)
             (DetectedTrade.executedAt detectedTrade) (Some message),
           PaperExecutionEngine.mk (positions engine0) (tradeHistory engine0)
             (startingCapital engine0) (currentBalance engine0)
             (realizedPnL engine0) (S (uuidCount engine0)))
      end
      = (detected, engine') /\
      DetectedTrade.trade detected = trade /\
      DetectedTrade.trackedUser detected = DetectedTrade.trackedUser detectedTrade /\
      DetectedTrade.detectedAt detected = DetectedTrade.detectedAt detectedTrade /\
      (copied now detected /\
       currentBalance engine'
       = match PolymarketTrade.side trade with
         | BUY => currentBalance engine - copySize
         | SELL => currentBalance engine + copySize
         end
       \/ failed detected /\ untouched engine engine')).
  { intros engine0 (Hbalance & Hhistory & Hrealized & Hheld).
    match goal with
    | |- context [executeTrade now store ?e0 ?order] =>
        destruct (executeTrade_outcome now store e0 order eq_refl)
          as [-> | (fillPrice & -> & _)]
    end.
    - eexists _, _. split; [reflexivity|]. cbn.
      repeat split; try reflexivity. right.
      split; [repeat split; auto; rewrite ?Hexecuted, ?Hat; eauto|].
      repeat split; assumption.
    - match goal with
      | |- context [settle now store ?e0 ?order fillPrice] =>
          pose proof (settle_balance now store e0 order fillPrice) as Hsettled;
          pose proof (settle_filled now store e0 order fillPrice) as Hfilled;
          destruct (settle now store e0 order fillPrice) as [result engine']
      end.
      cbn in Hfilled, Hsettled.
      rewrite Hfilled. eexists _, _. split; [reflexivity|]. cbn.
      repeat split; try reflexivity. left.
      split; [repeat split; auto|].
      rewrite Hsettled, Hbalance. reflexivity. }
  destruct (PolymarketTrade.side trade) eqn:Haction.
  - apply Hrun. repeat split.
  - pose proof (getPosition_untouched now store engine
                  (PolymarketTrade.conditionId trade)) as Hsame.
    destruct (getPosition now store engine (PolymarketTrade.conditionId trade))
      as [[existingPosition|] engine0]; cbn [snd] in Hsame.
    + destruct (JS.ltbQuotient _ _).
      * eexists _, _. split; [reflexivity|]. cbn.
        repeat split; try reflexivity. right.
        split; [repeat split; auto; eauto | exact Hsame].
      * now apply Hrun.
    + eexists _, _. split; [reflexivity|]. cbn.
      repeat split; try reflexivity. right.
      split; [repeat split; auto; eauto | exact Hsame].
Qed.

(** X20.  [handleNewTrade] ignores a trade below half of a configured,
    non-zero minimum size: nothing is recorded and the engine is as it
    was.  Any other trade adds exactly one record to the detected trades,
    for this trade and user, detected now; the record ends either
    executed, the balance having moved by the copy size, or with an
    error, the engine's balance, trade history and holdings being as they
    were. *)
Theorem handleNewTrade_records (now : Z) (store : MarketStore.t)
    (config : CopyTradingConfig.t) (userTradeHistory : gmap string (JSMap.t Q))
    (detectedTrades : list DetectedTrade.t) (engine : PaperExecutionEngine.t)
    (trade : PolymarketTrade.t) (user : TrackedUser.t) :
  (tooSmall config trade /\
   handleNewTrade now store config userTradeHistory detectedTrades engine trade
     user
   = (detectedTrades, engine))
  \/ (~ tooSmall config trade /\
      exists detected engine',
        handleNewTrade now store config userTradeHistory detectedTrades engine
          trade user
        = (detectedTrades ++ [detected], engine') /\
        DetectedTrade.trade detected = trade /\
        DetectedTrade.trackedUser detected = user /\
        DetectedTrade.detectedAt detected = now /\
        (copied now detected /\
         currentBalance engine'
         = (let copySize :=
              calculateProportionalSize config userTradeHistory
                (PolymarketTrade.size trade)
                (PolymarketTrade.transactionHash trade)
                (JS.toLowerCase (TrackedUser.address user)) in
            match PolymarketTrade.side trade with
            | BUY => currentBalance engine - copySize
            | SELL => currentBalance engine + copySize
            end)
         \/ failed detected /\ untouched engine engine')).
Proof.
  unfold handleNewTrade.
  destruct (JS.truthy (JS.orElse (CopyTradingConfig.minTradeSize config) 0)
            && JS.ltb (PolymarketTrade.size trade)
                 (JS.orElse (CopyTradingConfig.minTradeSize config) 0 * (1 # 2)))
    eqn:Hskip.
  - left. split; [|reflexivity].
    apply andb_true_iff in Hskip as [Htruthy Hbelow].
    unfold JS.orElse in Htruthy, Hbelow.
    destruct (CopyTradingConfig.minTradeSize config) as [minimum|]
      eqn:Hconfigured; [|discriminate].
    destruct (JS.truthy minimum) eqn:Hminimum; [|discriminate].
    exists minimum. split; [exact Hconfigured|].
    split; [now apply truthy_nonzero | now apply ltb_lt].
  - right. split.
    + intros (minimum & Hconfigured & Hnonzero & Hbelow).
      rewrite Hconfigured in Hskip. unfold JS.orElse in Hskip.
      apply truthy_nonzero in Hnonzero. rewrite Hnonzero in Hskip.
      apply ltb_lt in Hbelow. rewrite Hnonzero, Hbelow in Hskip. discriminate.
    + destruct (executeCopyTrade_outcome now store engine
                  (DetectedTrade.mk trade user now false None None)
                  (calculateProportionalSize config userTradeHistory
                     (PolymarketTrade.size trade)
                     (PolymarketTrade.transactionHash trade)
                     (JS.toLowerCase (TrackedUser.address user)))
                  eq_refl eq_refl eq_refl)
        as (detected & engine' & -> & Htrade & Huser & Hat & Hend).
      exists detected, engine'. split; [reflexivity|]. cbn in *. auto.
Qed.

End CopyMore.

Section Polling.
Import CopyTradingService.
#[local] Set Warnings "-clear-no-such-hyp".
Context {S : Type}.
Variables (handleRedemption handleTrade : PolymarketTrade.t -> TrackedUser.t -> S -> S).

Lemma processActivity_seen user seen st activity :
  (processActivity handleRedemption handleTrade user (seen, st) activity).1
  = {[PolymarketTrade.transactionHash activity]} ∪ seen.
Proof.
  unfold processActivity.
  destruct (bool_decide _) eqn:Hseen.
  - apply bool_decide_eq_true in Hseen. cbn. set_solver.
  - now destruct (PolymarketTrade.type activity) as [[]|].
Qed.

Lemma processActivities_seen isInitialPoll user activities : forall seen st,
  (processActivities handleRedemption handleTrade isInitialPoll user seen st
     activities).1
  = hashesOf activities ∪ seen.
Proof.
  unfold processActivities, hashesOf. destruct isInitialPoll; cbn [fst].
  - induction activities as [|activity rest IH]; intros seen st; cbn.
    + set_solver.
    + rewrite (IH _ st). set_solver.
  - induction activities as [|activity rest IH]; intros seen st; cbn [fold_left].
    + cbn. set_solver.
    + destruct (processActivity handleRedemption handleTrade user (seen, st)
                  activity) as [seen1 st1] eqn:Hstep.
      rewrite IH.
      pose proof (processActivity_seen user seen st activity) as Hseen.
      rewrite Hstep in Hseen. cbn in Hseen. rewrite Hseen. cbn. set_solver.
Qed.

Lemma processActivities_all_seen user activities : forall seen st,
  hashesOf activities ⊆ seen ->
  processActivities handleRedemption handleTrade false user seen st activities
  = (seen, st).
Proof.
  unfold processActivities, hashesOf.
  induction activities as [|activity rest IH]; intros seen st Hseen;
    cbn [fold_left]; [reflexivity|].
  cbn in Hseen.
  assert (Hin : PolymarketTrade.transactionHash activity ∈ seen) by set_solver.
  unfold processActivity at 2. rewrite (bool_decide_eq_true_2 _ Hin).
  apply IH. set_solver.
Qed.

End Polling.

Section PollingMore.
Import CopyTradingService.
#[local] Set Warnings "-clear-no-such-hyp".

(** X21.  After a poll, initial or not, every activity of the poll is in
    the set of seen hashes, so polling the same activities again calls
    no handler and changes nothing; and an initial poll calls no handler
    at all. *)
Theorem processActivities_replay {S : Type}
    (handleRedemption handleTrade : PolymarketTrade.t -> TrackedUser.t -> S -> S)
    (isInitialPoll : bool) (user : TrackedUser.t) (seen : gset string) (st : S)
    (activities : list PolymarketTrade.t) :
  (processActivities handleRedemption handleTrade isInitialPoll user seen st
     activities).1
  = hashesOf activities ∪ seen
  /\ processActivities handleRedemption handleTrade false user
       (processActivities handleRedemption handleTrade isInitialPoll user seen
          st activities).1
       (processActivities handleRedemption handleTrade isInitialPoll user seen
          st activities).2
       activities
     = processActivities handleRedemption handleTrade isInitialPoll user seen st
         activities
  /\ (processActivities handleRedemption handleTrade true user seen st
        activities).2
     = st.
Proof.
  split; [apply processActivities_seen|]. split; [|reflexivity].
  rewrite processActivities_all_seen.
  - now destruct (processActivities _ _ _ _ _ _ _).
  - rewrite processActivities_seen. set_solver.
Qed.

Lemma handled_step user activity handled seen :
  exists seen' extra,
    processActivity note note user (seen, handled) activity
    = (seen', handled ++ extra)
    /\ (forall hash, hash ∈ seen -> hash ∈ seen')
    /\ (extra = []
        \/ (extra = [activity]
            /\ (PolymarketTrade.transactionHash activity ∉ seen)
            /\ PolymarketTrade.transactionHash activity ∈ seen'
            /\ PolymarketTrade.type activity <> Some SPLIT
            /\ PolymarketTrade.type activity <> Some MERGE
            /\ PolymarketTrade.type activity <> Some REWARD
            /\ PolymarketTrade.type activity <> Some CONVERSION)).
Proof.
  unfold processActivity, note.
  destruct (bool_decide _) eqn:Hseen.
  - exists seen, []. rewrite app_nil_r. auto.
  - apply bool_decide_eq_false in Hseen.
    exists ({[PolymarketTrade.transactionHash activity]} ∪ seen).
    assert (Hgrows : forall hash,
               hash ∈ seen ->
               hash ∈ ({[PolymarketTrade.transactionHash activity]} ∪ seen))
      by (intros hash Hhash; apply elem_of_union; now right).
    assert (Hnew : PolymarketTrade.transactionHash activity
                   ∈ ({[PolymarketTrade.transactionHash activity]} ∪ seen))
      by (apply elem_of_union; left; now apply elem_of_singleton).
    destruct (PolymarketTrade.type activity) as [[]|] eqn:Htype.
    all: first
      [ exists [activity]; split; [reflexivity|]; split; [exact Hgrows|];
        right; repeat split; solve [assumption | discriminate]
      | exists []; rewrite app_nil_r; split; [reflexivity|];
        split; [exact Hgrows | now left] ].
Qed.

Lemma handled_fresh user activities : forall seen handled,
  NoDup (PolymarketTrade.transactionHash <$> handled) ->
  (forall activity,
      activity ∈ handled -> (PolymarketTrade.transactionHash activity ∈ seen)) ->
  NoDup
    (PolymarketTrade.transactionHash
     <$> (fold_left (processActivity note note user) activities (seen, handled)).2)
  /\ forall activity,
       activity
       ∈ (fold_left (processActivity note note user) activities (seen, handled)).2 ->
       activity ∈ handled
       \/ (activity ∈ activities
           /\ (PolymarketTrade.transactionHash activity ∉ seen)
           /\ PolymarketTrade.type activity <> Some SPLIT
           /\ PolymarketTrade.type activity <> Some MERGE
           /\ PolymarketTrade.type activity <> Some REWARD
           /\ PolymarketTrade.type activity <> Some CONVERSION).
Proof.
  induction activities as [|activity rest IH]; intros seen handled Hdistinct Hseen;
    cbn [fold_left].
  - cbn. split; [exact Hdistinct | auto].
  - destruct (handled_step user activity handled seen)
      as (seen' & extra & -> & Hgrows & Hextra).
    assert (Hlater : forall a,
               a ∈ rest
               /\ (PolymarketTrade.transactionHash a ∉ seen')
               /\ PolymarketTrade.type a <> Some SPLIT
               /\ PolymarketTrade.type a <> Some MERGE
               /\ PolymarketTrade.type a <> Some REWARD
               /\ PolymarketTrade.type a <> Some CONVERSION ->
               a ∈ activity :: rest
               /\ (PolymarketTrade.transactionHash a ∉ seen)
               /\ PolymarketTrade.type a <> Some SPLIT
               /\ PolymarketTrade.type a <> Some MERGE
               /\ PolymarketTrade.type a <> Some REWARD
               /\ PolymarketTrade.type a <> Some CONVERSION).
    { intros a (Hrest & Hunseen & Htypes).
      split; [now apply list_elem_of_further|]. split; [|exact Htypes].
      intros Hin. apply Hunseen, Hgrows, Hin. }
    destruct Hextra as [-> | (-> & Hfresh & Hmarked & Htypes)].
    + rewrite app_nil_r.
      destruct (IH seen' handled Hdistinct) as [Hnodup Hfrom];
        [intros a Ha; apply Hgrows, Hseen, Ha|].
      split; [exact Hnodup|]. intros a Ha.
      destruct (Hfrom a Ha) as [Hold | Hnew]; [now left | right; auto].
    + destruct (IH seen' (handled ++ [activity])) as [Hnodup Hfrom].
      * rewrite fmap_app. apply NoDup_app. split; [exact Hdistinct|].
        split; [|apply NoDup_singleton].
        intros hash Hhash Hhash'.
        apply list_elem_of_fmap in Hhash as (a & -> & Ha).
        cbn in Hhash'. apply list_elem_of_singleton in Hhash'.
        apply Hfresh. rewrite <- Hhash'. now apply Hseen.
      * intros a Ha. apply elem_of_app in Ha as [Ha | Ha].
        -- apply Hgrows, Hseen, Ha.
        -- apply list_elem_of_singleton in Ha as ->. exact Hmarked.
      * split; [exact Hnodup|]. intros a Ha.
        destruct (Hfrom a Ha) as [Hold | Hnew]; [|right; auto].
        apply elem_of_app in Hold as [Hold | Hold]; [now left|].
        apply list_elem_of_singleton in Hold as ->. right.
        split; [apply list_elem_of_here|]. split; [exact Hfresh | exact Htypes].
Qed.

(** X22.  In a later poll no activity is handled twice: the activities
    handed to the handlers have distinct transaction hashes, none of
    which had been seen, and are trades, redemptions or activities
    without a type. *)
Theorem handled_at_most_once (user : TrackedUser.t) (seen : gset string)
    (activities : list PolymarketTrade.t) :
  NoDup (PolymarketTrade.transactionHash <$> handledOf user seen activities)
  /\ forall activity,
       activity ∈ handledOf user seen activities ->
       activity ∈ activities
       /\ (PolymarketTrade.transactionHash activity ∉ seen)
       /\ PolymarketTrade.type activity <> Some SPLIT
       /\ PolymarketTrade.type activity <> Some MERGE
       /\ PolymarketTrade.type activity <> Some REWARD
       /\ PolymarketTrade.type activity <> Some CONVERSION.
Proof.
  unfold handledOf, processActivities.
  destruct (handled_fresh user activities seen []) as [Hnodup Hfrom].
  - apply NoDup_nil_2.
  - intros a Ha. now apply elem_of_nil in Ha.
  - split; [exact Hnodup|]. intros a Ha.
    destruct (Hfrom a Ha) as [Hold | Hnew]; [|exact Hnew].
    now apply elem_of_nil in Hold.
Qed.

End PollingMore.

Section RateLimit.
Import CopyTradingService.
Local Open Scope Z_scope.

Lemma inWindow_filter (now : Z) (requests : list Z) :
  Forall (fun timestamp => now - timestamp < RATE_LIMIT_WINDOW_MS)
    (List.filter (fun timestamp => now - timestamp <? RATE_LIMIT_WINDOW_MS)
       requests).
Proof.
  apply List.Forall_forall. intros timestamp Hin.
  apply List.filter_In in Hin as [_ Hin]. now apply Z.ltb_lt.
Qed.

Lemma waitForRateLimit_returns (wake : Z -> Z -> Z) :
  forall (fuel : nat) (now : Z) (requests : list Z),
  neverEarly wake ->
  (length
     (List.filter (fun timestamp => (now - timestamp <? RATE_LIMIT_WINDOW_MS)%Z)
        requests)
   < fuel)%nat ->
  exists now' requests',
    waitForRateLimit wake fuel now requests = Some (now', requests') /\
    now <= now' /\
    (length requests' < RATE_LIMIT_REQUESTS)%nat /\
    Forall (fun timestamp => now' - timestamp < RATE_LIMIT_WINDOW_MS) requests' /\
    incl requests' requests.
Proof.
  intros fuel. induction fuel as [|fuel IH]; intros now requests Hwake Hfuel;
    [lia|].
  cbn [waitForRateLimit].
  pose proof (inWindow_filter now requests) as Hwindow.
  assert (Hincl : incl
                    (List.filter
                       (fun timestamp => now - timestamp <? RATE_LIMIT_WINDOW_MS)
                       requests)
                    requests) by apply List.incl_filter.
  set (tracked := List.filter _ requests) in *.
  destruct (RATE_LIMIT_REQUESTS <=? length tracked)%nat eqn:Hfull.
  - destruct tracked as [|oldestRequest rest] eqn:Htracked; [discriminate|].
    apply List.Forall_cons_iff in Hwindow as [Holdest Hrest].
    assert (Hwait : 0 < RATE_LIMIT_WINDOW_MS - (now - oldestRequest) + 100)
      by lia.
    rewrite (proj2 (Z.ltb_lt _ _) Hwait).
    pose proof (Hwake now (RATE_LIMIT_WINDOW_MS - (now - oldestRequest) + 100))
      as Hwoke.
    set (now1 := wake now _) in *.
    destruct (IH now1 (oldestRequest :: rest))
      as (now' & requests' & -> & Hlater & Hcount & Hin & Hsub).
    + exact Hwake.
    + cbn [List.filter].
      assert (Hdropped : (now1 - oldestRequest <? RATE_LIMIT_WINDOW_MS) = false)
        by (apply Z.ltb_ge; lia).
      rewrite Hdropped.
      pose proof (List.filter_length_le
                    (fun timestamp => now1 - timestamp <? RATE_LIMIT_WINDOW_MS)
                    rest) as Hle.
      cbn [length] in Hfuel. lia.
    + exists now', requests'. split; [reflexivity|]. split; [lia|].
      split; [exact Hcount|]. split; [exact Hin|].
      intros timestamp Htimestamp. apply Hincl, Hsub, Htimestamp.
  - exists now, tracked. split; [reflexivity|]. split; [lia|].
    apply Nat.leb_gt in Hfull. auto.
Qed.

(** X23.  Provided [sleep] never resumes early and the recursion is
    given more fuel than there are tracked requests, [fetchWithRateLimit]
    returns, not before it was called, and the requests then tracked, the
    new one included, are at most 200 and all less than 10 seconds old. *)
Theorem fetchWithRateLimit_within_budget (wake : Z -> Z -> Z) (fuel : nat)
    (now : Z) (rateLimitRequests : list Z) :
  neverEarly wake ->
  (length rateLimitRequests < fuel)%nat ->
  exists now' requests,
    fetchWithRateLimit wake fuel now rateLimitRequests = Some (now', requests) /\
    now <= now' /\
    (length requests <= 200)%nat /\
    Forall (fun timestamp => now' - timestamp < 10000) requests /\
    last requests = Some now'.
Proof.
  intros Hwake Hfuel. unfold fetchWithRateLimit.
  destruct (waitForRateLimit_returns wake fuel now rateLimitRequests Hwake)
    as (now' & requests' & -> & Hlater & Hcount & Hwindow & _).
  { pose proof (List.filter_length_le
                  (fun timestamp => now - timestamp <? RATE_LIMIT_WINDOW_MS)
                  rateLimitRequests). lia. }
  exists now', (requests' ++ [now']). split; [reflexivity|].
  split; [exact Hlater|]. split.
  - rewrite length_app. cbn. unfold RATE_LIMIT_REQUESTS in Hcount. lia.
  - split; [|apply last_snoc].
    apply Forall_app. split.
    + eapply List.Forall_impl; [|exact Hwindow].
      intros timestamp Hrecent. unfold RATE_LIMIT_WINDOW_MS in Hrecent. cbn beta.
      lia.
    + apply List.Forall_cons; [lia | apply List.Forall_nil].
Qed.

Lemma fetchWithRateLimit_within_budget_usedUp :
  exists now' requests,
    fetchWithRateLimit onTime 201 5000 usedUp = Some (now', requests) /\
    5000 <= now' /\
    (length requests <= 200)%nat /\
    Forall (fun timestamp => now' - timestamp < 10000) requests /\
    last requests = Some now'.
Proof.
  apply (fetchWithRateLimit_within_budget onTime 201 5000 usedUp).
  - intros now ms. unfold onTime. lia.
  - unfold usedUp. rewrite repeat_length. lia.
Defined.

End RateLimit.

Section TrackedUsers.
Import CopyTradingService.

Lemma sameAddress_spec address u :
  sameAddress address u = true
  <-> JS.toLowerCase (TrackedUser.address u) = JS.toLowerCase address.
Proof. unfold sameAddress. apply String.eqb_eq. Qed.

Lemma untracked_spec address users :
  existsb (sameAddress address) users = false
  <-> JS.toLowerCase address ∉ lowerAddresses users.
Proof.
  unfold lowerAddresses. split.
  - intros Hnone Hin. apply list_elem_of_fmap in Hin as (u & Heq & Hu).
    assert (Hsome : existsb (sameAddress address) users = true).
    { apply existsb_exists. exists u. split; [now apply list_elem_of_In|].
      now apply sameAddress_spec. }
    congruence.
  - intros Hout. destruct (existsb (sameAddress address) users) eqn:Hsome;
      [|reflexivity].
    apply existsb_exists in Hsome as (u & Hu & Hsame). exfalso. apply Hout.
    apply list_elem_of_fmap. exists u.
    split; [symmetry; now apply sameAddress_spec | now apply list_elem_of_In].
Qed.

(** X24.  [addTrackedUser] keeps the tracked addresses distinct up to
    letter case, and adding a user whose address is already tracked, in
    any letter case, changes nothing. *)
Theorem addTrackedUser_distinct (users : list TrackedUser.t)
    (user : TrackedUser.t) :
  NoDup (lowerAddresses users) ->
  NoDup (lowerAddresses (addTrackedUser users user))
  /\ JS.toLowerCase (TrackedUser.address user)
     ∈ lowerAddresses (addTrackedUser users user)
  /\ (JS.toLowerCase (TrackedUser.address user) ∈ lowerAddresses users ->
      addTrackedUser users user = users).
Proof.
  intros Hdistinct. unfold addTrackedUser.
  destruct (existsb (sameAddress (TrackedUser.address user)) users) eqn:Htracked.
  - split; [exact Hdistinct|]. split; [|reflexivity].
    apply existsb_exists in Htracked as (u & Hu & Hsame).
    unfold lowerAddresses. apply list_elem_of_fmap. exists u.
    split; [symmetry; now apply sameAddress_spec | now apply list_elem_of_In].
  - apply untracked_spec in Htracked.
    unfold lowerAddresses in *. rewrite fmap_app. cbn. split.
    + apply NoDup_app. split; [exact Hdistinct|].
      split; [|apply NoDup_singleton].
      intros address Hin Hnew. apply list_elem_of_singleton in Hnew as ->.
      contradiction.
    + split; [|contradiction].
      apply elem_of_app. right. apply list_elem_of_here.
Qed.

Lemma addTrackedUser_distinct_ann :
  NoDup (lowerAddresses (addTrackedUser [bob] ann))
  /\ JS.toLowerCase (TrackedUser.address ann)
     ∈ lowerAddresses (addTrackedUser [bob] ann)
  /\ (JS.toLowerCase (TrackedUser.address ann) ∈ lowerAddresses [bob] ->
      addTrackedUser [bob] ann = [bob]).
Proof.
  apply (addTrackedUser_distinct [bob] ann).
  apply NoDup_singleton.
Defined.

Lemma removeFirst_last address users user :
  existsb (sameAddress address) users = false ->
  sameAddress address user = true ->
  removeFirst address (users ++ [user]) = users.
Proof.
  intros Hnone Hsame. induction users as [|u rest IH]; cbn.
  - now rewrite Hsame.
  - cbn in Hnone. apply orb_false_iff in Hnone as [Hu Hrest].
    rewrite Hu. f_equal. now apply IH.
Qed.

(** X25.  Removing a user that was just added, by the same address in
    any letter case, gives back the list of tracked users as it was,
    provided the address was not tracked before. *)
Theorem add_then_remove (users : list TrackedUser.t) (user : TrackedUser.t)
    (address : string) :
  JS.toLowerCase (TrackedUser.address user) ∉ lowerAddresses users ->
  JS.toLowerCase address = JS.toLowerCase (TrackedUser.address user) ->
  removeTrackedUser (addTrackedUser users user) address = users.
Proof.
  intros Hnew Hsame. unfold removeTrackedUser, addTrackedUser.
  rewrite (proj2 (untracked_spec _ _) Hnew).
  apply removeFirst_last.
  - apply untracked_spec. now rewrite Hsame.
  - apply sameAddress_spec. now symmetry.
Qed.

Lemma add_then_remove_ann :
  removeTrackedUser (addTrackedUser [bob] ann) "0XANN" = [bob].
Proof.
  apply (add_then_remove [bob] ann "0XANN"); [|reflexivity].
  vm_compute. intros Hin. apply list_elem_of_singleton in Hin. discriminate.
Defined.

End TrackedUsers.

Section RoundTrip.
Import PaperExecutionEngine.
Local Open Scope Q_scope.
#[local] Arguments executeTrade : simpl never.

Lemma executeTrade_sell_settles now store e order price :
  TradeOrder.mode order = paper ->
  TradeOrder.action order = SELL ->
  TradeOrder.price order = Some price ->
  0 < price <= 1 ->
  executeTrade now store e order = JS.Return (settle now store e order price).
Proof.
  intros Hmode Hsell Hprice [Hpos Hle].
  rewrite (executeTrade_paper now store e order Hmode).
  unfold resolvedFillPrice, explicitPrice. rewrite Hprice, Hsell.
  assert (Ht : JS.truthy price = true) by (apply truthy_nonzero; lra).
  rewrite Ht.
  assert (Hz : Qeq_bool price 0 = false).
  { apply not_true_iff_false. rewrite Qeq_bool_iff. lra. }
  assert (Hl : JS.leb price 0 = false) by (apply leb_gt; lra).
  assert (Hg : JS.ltb 1 price = false) by (apply ltb_ge; lra).
  now rewrite Hz, Hl, Hg.
Qed.

Lemma settle_sell_out now store e order fillPrice :
  TradeOrder.action order = SELL ->
  sideTokens e (TradeOrder.marketId order) (TradeOrder.side order)
  <= TradeOrder.size order / fillPrice ->
  is_Some (positions (settle now store e order fillPrice).2
             !! TradeOrder.marketId order)
  /\ sideTokens (settle now store e order fillPrice).2 (TradeOrder.marketId order)
       (TradeOrder.side order)
     = 0
  /\ sideEntryPrice (settle now store e order fillPrice).2
       (TradeOrder.marketId order) (TradeOrder.side order)
     = 0.
Proof.
  intros Hsell Hall. unfold sideTokens, sideEntryPrice in *.
  unfold settle, updatePosition. cbn. rewrite Hsell.
  destruct (positions e !! TradeOrder.marketId order) as [position|];
    destruct (TradeOrder.side order); cbn in *;
    (destruct (JS.leb _ _) eqn:Hleb; [|apply leb_gt in Hleb; lra]);
    cbn; rewrite lookup_insert_eq; cbn;
    unfold updatePositionPnL;
    destruct (MarketStore.getMarket _ _ _).1; cbn;
    repeat split; eauto.
Qed.

(** X26.  Buying into a market without position and selling the same
    size back at the same price: both orders are filled, the balance is
    back where it was, and the position is still there, with no tokens
    and a zero entry price on that side; [executeTrade] does not remove
    it. *)
Theorem buy_then_sell_back (now now' : Z) (store store' : MarketStore.t) (e : t)
    (buyId sellId marketId conditionId : string) (side : Side) (size price : Q) :
  positions e !! marketId = None ->
  0 < price <= 1 ->
  0 < size <= currentBalance e ->
  exists bought e1 sold e2,
    executeTrade now store e
      (pricedOrder BUY buyId marketId conditionId side size price now)
    = JS.Return (bought, e1) /\
    executeTrade now' store' e1
      (pricedOrder SELL sellId marketId conditionId side size price now')
    = JS.Return (sold, e2) /\
    FillResult.status bought = filled /\
    FillResult.status sold = filled /\
    sideTokens e1 marketId side == size / price /\
    currentBalance e2 == currentBalance e /\
    is_Some (positions e2 !! marketId) /\
    sideTokens e2 marketId side = 0 /\
    sideEntryPrice e2 marketId side = 0.
Proof.
  intros Hnone Hprice [Hsize Hfunds].
  set (buy := pricedOrder BUY buyId marketId conditionId side size price now).
  set (sell := pricedOrder SELL sellId marketId conditionId side size price now').
  pose proof (executeTrade_buy_settles now store e buy price eq_refl eq_refl
                eq_refl Hprice Hfunds) as Hbought.
  pose proof (settle_filled now store e buy price) as Hfilled1.
  destruct (settle_buy now store e buy price eq_refl) as [Htokens1 _].
  pose proof (settle_balance now store e buy price) as Hbalance1.
  destruct (settle now store e buy price) as [bought e1].
  cbn [fst snd] in *.
  pose proof (executeTrade_sell_settles now' store' e1 sell price eq_refl eq_refl
                eq_refl Hprice) as Hsold.
  pose proof (settle_filled now' store' e1 sell price) as Hfilled2.
  pose proof (settle_balance now' store' e1 sell price) as Hbalance2.
  assert (Hheld : sideTokens e1 marketId side == size / price).
  { change (TradeOrder.marketId buy) with marketId in Htokens1.
    change (TradeOrder.side buy) with side in Htokens1.
    change (TradeOrder.size buy) with size in Htokens1.
    rewrite Htokens1. unfold sideTokens at 1. rewrite Hnone. cbn. ring. }
  destruct (settle_sell_out now' store' e1 sell price eq_refl)
    as (Hkept & Htokens2 & Hentry2).
  { change (TradeOrder.marketId sell) with marketId.
    change (TradeOrder.side sell) with side.
    change (TradeOrder.size sell) with size. rewrite Hheld. lra. }
  destruct (settle now' store' e1 sell price) as [sold e2].
  cbn [fst snd] in *.
  exists bought, e1, sold, e2.
  split; [exact Hbought|]. split; [exact Hsold|].
  split; [exact Hfilled1|]. split; [exact Hfilled2|].
  split; [exact Hheld|]. split.
  - rewrite Hbalance2, Hbalance1. cbn. ring.
  - split; [exact Hkept|]. split; [exact Htokens2 | exact Hentry2].
Qed.

Lemma buy_then_sell_back_ten :
  exists bought e1 sold e2,
    executeTrade 1 emptyStore (constructor 100)
      (pricedOrder BUY "b" "m" "c" YES 10 (1 # 2) 1)
    = JS.Return (bought, e1) /\
    executeTrade 2 emptyStore e1
      (pricedOrder SELL "s" "m" "c" YES 10 (1 # 2) 2)
    = JS.Return (sold, e2) /\
    FillResult.status bought = filled /\
    FillResult.status sold = filled /\
    sideTokens e1 "m" YES == 10 / (1 # 2) /\
    currentBalance e2 == currentBalance (constructor 100) /\
    is_Some (positions e2 !! "m"%string) /\
    sideTokens e2 "m" YES = 0 /\
    sideEntryPrice e2 "m" YES = 0.
Proof.
  apply (buy_then_sell_back 1 2 emptyStore emptyStore (constructor 100)
           "b" "s" "m" "c" YES 10 (1 # 2)).
  - reflexivity.
  - split; [reflexivity | discriminate].
  - split; [reflexivity | discriminate].
Defined.

End RoundTrip.

Section StoreRoundTrip.
Import MarketStore.

(** X27.  Removing a market that an update has just created gives the
    store back as it was: [removeMarket] answers [true], and no trace of
    the update is left. *)
Theorem removeMarket_undoes_update (now : Z) (s : MarketStore.t)
    (update : OrderBookUpdate.t) :
  markets s !! keyOf update = None ->
  removeMarket (updateOrderBook now s update).1 (keyOf update) = (true, s).
Proof.
  intros Hfresh. unfold removeMarket.
  rewrite updateOrderBook_lookup. f_equal.
  unfold updateOrderBook. cbn. fold (keyOf update).
  rewrite delete_insert_eq, delete_id by exact Hfresh. now destruct s.
Qed.

Lemma removeMarket_undoes_update_yesAt50 :
  removeMarket (updateOrderBook 60 emptyStore yesAt50).1 (keyOf yesAt50)
  = (true, emptyStore).
Proof.
  apply (removeMarket_undoes_update 60 emptyStore yesAt50). reflexivity.
Defined.

End StoreRoundTrip.
